(** * klyp: scope store and content assembly

    A shallow embedding of the core of [klyp.py]: the scope configuration
    store ([load_config], [save_config], [get_scope_data] and the command
    handlers that read and change it) and the content assembler
    ([_get_formatted_scope_content] with [get_display_path]) with the
    commands that deliver its text.

    Conventions of the model.
    - A Python [str] is a [string]; every character is a code point below
      256, so that [str.isspace], [str.lower] and the code point order of
      [sorted] can be written out on [ascii].
    - The file system is read through an [Env]: [Path.is_file],
      [Path.read_text] (text or [IOError]) and [Path.resolve].  File
      contents are text; a decoding failure is outside the model.
    - [print] and [sys.exit] are kept: a command yields the list of
      messages it printed together with a [result]. *)

From Stdlib Require Import Ascii String.
From stdpp Require Import base list strings gmap fin_maps sorting.

Local Open Scope string_scope.
Local Open Scope list_scope.

(** ** Python string primitives *)

Module Py.

Definition nl : string := String (ascii_of_nat 10) "".

(** [c.isspace()] for a code point below 256: the ASCII white space
    9..13 and 32, the separators 28..31, NEL (133) and NBSP (160). *)
Definition isspace_char (c : ascii) : bool :=
  let n := nat_of_ascii c in
  (((9 <=? n) && (n <=? 13)) || ((28 <=? n) && (n <=? 32))
   || (n =? 133) || (n =? 160))%nat.

(** [s.isspace()]: at least one character and all of them white space. *)
Fixpoint all_space (s : string) : bool :=
  match s with
  | EmptyString => true
  | String c s' => isspace_char c && all_space s'
  end.

Definition isspace (s : string) : bool :=
  match s with
  | EmptyString => false
  | _ => all_space s
  end.

Fixpoint lstrip (s : string) : string :=
  match s with
  | EmptyString => EmptyString
  | String c s' => if isspace_char c then lstrip s' else s
  end.

Fixpoint rstrip (s : string) : string :=
  match s with
  | EmptyString => EmptyString
  | String c s' =>
      match rstrip s' with
      | EmptyString => if isspace_char c then EmptyString else String c EmptyString
      | r => String c r
      end
  end.

(** [s.strip()] *)
Definition strip (s : string) : string := rstrip (lstrip s).

(** Truth value of a [str]: non-empty. *)
Definition truthy (s : string) : bool :=
  match s with EmptyString => false | _ => true end.

Definition startswith (s pre : string) : bool := String.prefix pre s.

Fixpoint endswith (s suf : string) : bool :=
  if String.eqb s suf then true
  else match s with
       | EmptyString => false
       | String _ s' => endswith s' suf
       end.

(** [c.lower()] for a code point below 256: A..Z and the Latin-1
    capitals 192..222 (without the multiplication sign 215). *)
Definition lower_char (c : ascii) : ascii :=
  let n := nat_of_ascii c in
  if (((65 <=? n) && (n <=? 90))
      || ((192 <=? n) && (n <=? 222) && negb (n =? 215)))%nat
  then ascii_of_nat (n + 32) else c.

Fixpoint lower (s : string) : string :=
  match s with
  | EmptyString => EmptyString
  | String c s' => String (lower_char c) (lower s')
  end.

(** ["".join(parts)] *)
Definition join (parts : list string) : string :=
  foldr String.append "" parts.

(** [sep.join(parts)] *)
Fixpoint join_with (sep : string) (parts : list string) : string :=
  match parts with
  | [] => ""
  | [p] => p
  | p :: ps => p +:+ sep +:+ join_with sep ps
  end.

(** [s.split(c)] for a one-character separator. *)
Fixpoint split (c : ascii) (s : string) : list string :=
  match s with
  | EmptyString => [""]
  | String a s' =>
      match split c s' with
      | h :: t => if ascii_dec a c then "" :: h :: t else String a h :: t
      | [] => [String a ""]
      end
  end.

(** [sorted(l, key=key)] and [l.sort(key=key)]: Python's sort is stable
    and compares [str] keys by code point.  The stable arrangement of a
    list is unique, so a stable insertion sort computes the same list. *)
Section Sort.
Context {A : Type} (key : A → string).

Fixpoint insert_by (x : A) (l : list A) : list A :=
  match l with
  | [] => [x]
  | y :: l' =>
      if String.leb (key x) (key y) then x :: y :: l'
      else y :: insert_by x l'
  end.

Definition sorted_by (l : list A) : list A := foldr insert_by [] l.
End Sort.

Definition sorted (l : list string) : list string := sorted_by id l.

(** [list(set(l))]: the distinct elements, in some order. *)
Definition list_set (l : list string) : list string := remove_dups l.

End Py.

(** ** Paths: [pathlib.Path] and [os.path.relpath] on POSIX *)

(** A [Path] keeps whether the text started at the root and its
    components; [pathlib] drops empty and ["."] components when it parses
    a string, and leaves [".."] alone.  (The root [//], which POSIX keeps
    apart from [/], is not told apart here.) *)
Record Path := mkPath { is_absolute : bool; parts : list string }.

Definition proper_part (c : string) : bool :=
  negb (String.eqb c "") && negb (String.eqb c ".").

Definition Path_of_str (s : string) : Path :=
  {| is_absolute := Py.startswith s "/";
     parts := filter (λ c, Is_true (proper_part c)) (Py.split "/"%char s) |}.

(** [str(p)] and [p.as_posix()] *)
Definition Path_str (p : Path) : string :=
  if is_absolute p then "/" +:+ Py.join_with "/" (parts p)
  else match parts p with
       | [] => "."
       | ps => Py.join_with "/" ps
       end.

(** [base / p] *)
Definition Path_join (base p : Path) : Path :=
  if is_absolute p then p
  else {| is_absolute := is_absolute base; parts := parts base ++ parts p |}.

(** The components of [os.path.abspath] of an absolute path: [normpath]
    collapses [".."] against the component before it and drops it at the
    root. *)
Definition normpath_parts (ps : list string) : list string :=
  rev (fold_left (λ stk c, if String.eqb c ".." then tail stk else c :: stk) ps []).

Fixpoint commonprefix_len (l1 l2 : list string) : nat :=
  match l1, l2 with
  | a :: l1', b :: l2' =>
      if String.eqb a b then S (commonprefix_len l1' l2') else 0
  | _, _ => 0
  end.

(** [os.path.relpath(path, start)] for two absolute paths. *)
Definition relpath (path start : Path) : string :=
  let start_list := normpath_parts (parts start) in
  let path_list := normpath_parts (parts path) in
  let i := commonprefix_len start_list path_list in
  let rel_list := replicate (length start_list - i) ".." ++ drop i path_list in
  match rel_list with
  | [] => "."
  | _ => Py.join_with "/" rel_list
  end.

(** ** The file system as the program reads it *)

Record Env := mkEnv {
  fs_is_file : string → bool;            (* Path(s).is_file() *)
  fs_read_text : string → option string; (* Path(s).read_text(); None: IOError *)
  fs_resolve : string → string           (* str(Path(s).resolve()) *)
}.

Definition Path_is_file (env : Env) (p : Path) : bool :=
  fs_is_file env (Path_str p).
Definition Path_read_text (env : Env) (p : Path) : option string :=
  fs_read_text env (Path_str p).
Definition Path_resolve (env : Env) (p : Path) : Path :=
  Path_of_str (fs_resolve env (Path_str p)).

(** [get_display_path].  On POSIX [os.path.relpath] raises [ValueError]
    only for an empty path, which a [Path] never is, so the [except]
    branch has no counterpart here. *)
Definition get_display_path (env : Env) (absolute_path base_dir : Path) : string :=
  let absolute_path :=
    if is_absolute absolute_path then absolute_path
    else Path_resolve env (Path_join base_dir absolute_path) in
  let relative_path_str := relpath absolute_path base_dir in
  let display_path := Path_str (Path_of_str relative_path_str) in
  if negb (Py.startswith display_path "../" || Py.startswith display_path "./"
           || String.eqb display_path "."
           || is_absolute (Path_of_str display_path))
  then "./" +:+ display_path
  else if String.eqb display_path "." then "./"
  else display_path.

(** ** Output and exit: what a command prints and how it ends *)

Inductive msg :=
  | ErrNotInitialized
  | ErrNoActiveScope
  | ErrScopeNotFound (scope_name : string)
  | WarnContextUnreadable (dp : string)
  | WarnContextMissing (dp scope_name : string)
  | ErrMissingFiles (command_verb scope_name : string)
  | ErrMissingItem (dp : string)
  | WarnFileUnreadable (dp : string)
  | WarnNoFilesRead (scope_name : string)
  | WarnPromptUnreadable (dp : string)
  | WarnPromptMissing (dp scope_name : string)
  | NoteCompletelyEmpty (scope_name command_verb : string)
  | NoteEffectivelyEmpty (scope_name command_verb : string)
  | ErrOldScopeNotFound (old : string)
  | ErrInvalidNewName (new : string)
  | ErrNewNameExists (new : string)
  | WarnNamesAreSame
  | OkRenamed (old new : string)
  | ErrNoActiveScopeForAdd
  | ErrInvalidTargetScope (scope_name : string)
  | OkScopeCreated (scope_name : string)
  | ErrSpecialFileNotFound (kind file : string)
  | OkContextSet (scope_name dp : string)
  | OkPromptSet (scope_name dp : string)
  | ErrNotAFile (file : string)
  | OkFileAdded (dp scope_name : string)
  | WarnFileAlreadyInScope (dp scope_name : string)
  | ErrUnexpected.

Inductive result (A : Type) :=
  | Return (a : A)
  | SysExit (code : nat).
Arguments Return {A} a.
Arguments SysExit {A} code.

(** A run: the messages printed, in order, and how the run ended. *)
Definition Run (A : Type) : Type := list msg * result A.

Definition run_bind {A B} (m : Run A) (f : A → Run B) : Run B :=
  match m with
  | (out, Return a) => let '(out', r) := f a in (out ++ out', r)
  | (out, SysExit c) => (out, SysExit c)
  end.

#[global] Instance run_ret : MRet Run := λ A a, ([], Return a).
#[global] Instance run_mbind : MBind Run := λ A B f m, run_bind m f.

Definition print (m : msg) : Run unit := ([m], Return tt).
Definition sys_exit {A} (code : nat) : Run A := ([], SysExit code).

Fixpoint print_all (ms : list msg) : Run unit :=
  match ms with
  | [] => mret tt
  | m :: ms' => print m ;; print_all ms'
  end.

Definition printed {A} (r : Run A) : list msg := fst r.
Definition outcome {A} (r : Run A) : result A := snd r.

(** ** The configuration document *)

Definition CURRENT_SCOPE_KEY : string := "_klyp_current_scope".
Definition KLYP_CONFIG_VERSION_KEY : string := "_klyp_version".
Definition RESERVED_KLYP_KEYS : list string :=
  [CURRENT_SCOPE_KEY; KLYP_CONFIG_VERSION_KEY].
Definition SCOPE_ACTION_COMMAND_NAMES : list string :=
  Py.lower <$> ["add"; "a"; "new"; "mk"; "set"; "s"; "delete"; "del"; "rm";
                "rename"; "ren"; "mv"; "list"; "ls"].

(** [RESERVED_COMMAND_NAMES] as [main_cli] has filled it before any
    handler runs. *)
Definition RESERVED_COMMAND_NAMES : list string :=
  Py.lower <$> (["init"; "scope"; "use"; "u"; "add"; "remove"; "rmv"; "copy";
                 "cp"; "run"; "status"; "st"; "update"; "help"; "h"]
                ++ RESERVED_KLYP_KEYS).

(** A scope object.  [files = None] is a dict without the ["files"] key;
    for the two special files [None] stands for an absent key as well as
    for JSON [null], which every reader reaches through [.get]. *)
Record scope_dict := mkScope {
  files : option (list string);
  context_file : option string;
  prompt_file : option string
}.

Inductive value :=
  | VStr (s : string)
  | VScope (d : scope_dict).

Abbreviation config := (gmap string value).

Definition _initialize_scope_dict : scope_dict :=
  {| files := Some []; context_file := None; prompt_file := None |}.

(** The config file: absent, or a parsed JSON document. *)
Definition Disk : Type := option config.

Definition load_entry (scope_name : string) (scope_content : value) : value :=
  match scope_content with
  | VScope d =>
      if negb (Py.startswith scope_name "_klyp_") then
        match files d with
        | None => VScope {| files := Some []; context_file := context_file d;
                            prompt_file := prompt_file d |}
        | Some _ => scope_content
        end
      else scope_content
  | _ => scope_content
  end.

Definition load_config (disk : Disk) : config :=
  match disk with
  | None => ∅
  | Some data => map_imap (λ k v, Some (load_entry k v)) data
  end.

Definition save_entry (key : string) (v : value) : value :=
  match v with
  | VScope d =>
      if negb (Py.startswith key "_klyp_") then
        match files d with
        | Some l => VScope {| files := Some (Py.sorted (Py.list_set l));
                              context_file := context_file d;
                              prompt_file := prompt_file d |}
        | None => v
        end
      else v
  | _ => v
  end.

(** [save_config]: the document that is written (the write itself is
    taken to succeed). *)
Definition save_config (data : config) : config :=
  map_imap (λ k v, Some (save_entry k v)) data.

(** [config.get(CURRENT_SCOPE_KEY)].  The pointer is a string when it is
    there; a document that holds an object under the key is outside what
    is modelled (the callers raise on it), and reads here as no pointer. *)
Definition get_current_scope_name (cfg : config) : option string :=
  match cfg !! CURRENT_SCOPE_KEY with
  | Some (VStr s) => Some s
  | _ => None
  end.

Definition is_valid_scope_name (scope_name : string) : bool :=
  if negb (Py.truthy scope_name) then false
  else if bool_decide (scope_name ∈ RESERVED_KLYP_KEYS) then false
  else if bool_decide (Py.lower scope_name ∈ RESERVED_COMMAND_NAMES) then false
  else if bool_decide (Py.lower scope_name ∈ SCOPE_ACTION_COMMAND_NAMES) then false
  else true.

Definition get_scope_data (cfg : config) (scope_name : string) : option scope_dict :=
  if negb (Py.truthy scope_name) || negb (is_valid_scope_name scope_name) then None
  else match cfg !! scope_name with
       | Some (VScope d) =>
           match files d with
           | Some _ => Some d
           | None => None
           end
       | _ => None
       end.

(** [check_config_initialized]: [true] when the command goes on. *)
Definition check_config_initialized (disk : Disk) (cfg : config) : bool :=
  negb (negb (bool_decide (is_Some disk)) && bool_decide (cfg = ∅)).

(** [a or b] on optional strings, and the truth value of the outcome. *)
Definition truthy_opt (o : option string) : bool :=
  match o with Some s => Py.truthy s | None => false end.
Definition py_or (a b : option string) : option string :=
  if truthy_opt a then a else b.

(** ** Scope operations *)

Definition handle_scope_rename_cmd (disk : Disk) (old new : string)
  : Run unit * Disk :=
  let cfg := load_config disk in
  if negb (check_config_initialized disk cfg)
  then (print ErrNotInitialized ;; sys_exit 1, disk) else
  match get_scope_data cfg old with
  | None => (print (ErrOldScopeNotFound old) ;; sys_exit 1, disk)
  | Some _ =>
    if negb (is_valid_scope_name new)
    then (print (ErrInvalidNewName new) ;; sys_exit 1, disk) else
    match get_scope_data cfg new with
    | Some _ => (print (ErrNewNameExists new) ;; sys_exit 1, disk)
    | None =>
      if String.eqb old new then (print WarnNamesAreSame, disk) else
      (* config[new] = config.pop(old) *)
      let cfg :=
        match cfg !! old with
        | Some v => <[new := v]> (delete old cfg)
        | None => cfg
        end in
      let cfg :=
        if bool_decide (get_current_scope_name cfg = Some old)
        then <[CURRENT_SCOPE_KEY := VStr new]> cfg else cfg in
      (print (OkRenamed old new), Some (save_config cfg))
    end
  end.

Record add_args := mkAddArgs {
  add_context : bool;
  add_prompt : bool;
  file_paths : list string;
  scope_name : option string
}.

(** The loop of [handle_add_cmd] over [args.file_paths]: the scope's file
    list and [files_added_count] are threaded, the messages collected. *)
Fixpoint add_files (env : Env) (project_root_dir : Path) (target : string)
    (paths : list string) (st : list string * nat) : Run (list string * nat) :=
  match paths with
  | [] => mret st
  | file_path_str :: rest =>
      let '(scope_files, files_added_count) := st in
      let file_to_add := Path_of_str file_path_str in
      if negb (Path_is_file env file_to_add)
      then print (ErrNotAFile (Path_str file_to_add)) ;;
           add_files env project_root_dir target rest st
      else
        let abs_file_path_str := Path_str (Path_resolve env file_to_add) in
        let dp := get_display_path env file_to_add project_root_dir in
        if negb (bool_decide (abs_file_path_str ∈ scope_files))
        then print (OkFileAdded dp target) ;;
             add_files env project_root_dir target rest
               (scope_files ++ [abs_file_path_str], S files_added_count)
        else print (WarnFileAlreadyInScope dp target) ;;
             add_files env project_root_dir target rest st
  end.

Definition handle_add_cmd (env : Env) (project_root_dir : Path) (disk : Disk)
    (args : add_args) : Run unit * Disk :=
  let cfg := load_config disk in
  if negb (check_config_initialized disk cfg)
  then (print ErrNotInitialized ;; sys_exit 1, disk) else
  match py_or (scope_name args) (get_current_scope_name cfg) with
  | None => (print ErrNoActiveScopeForAdd ;; sys_exit 1, disk)
  | Some target =>
    if negb (Py.truthy target)
    then (print ErrNoActiveScopeForAdd ;; sys_exit 1, disk) else
    (* the scope, created when it does not exist *)
    let found := get_scope_data cfg target in
    if negb (bool_decide (is_Some found)) && negb (is_valid_scope_name target)
    then (print (ErrInvalidTargetScope target) ;; sys_exit 1, disk) else
    let created := match found with None => [OkScopeCreated target] | Some _ => [] end in
    let scope_data := default _initialize_scope_dict found in
    let cfg := match found with
               | None => <[target := VScope scope_data]> cfg
               | Some _ => cfg
               end in
    if add_context args || add_prompt args then
      match file_paths args with
      | [] => ((created ++ [ErrUnexpected], SysExit 1), disk)
      | file :: _ =>
          let file_to_set := Path_of_str file in
          if negb (Path_is_file env file_to_set)
          then ((created ++ [ErrSpecialFileNotFound
                               (if add_context args then "Context" else "Prompt")
                               (Path_str file_to_set)], SysExit 1), disk) else
          let abs_path_str := Path_str (Path_resolve env file_to_set) in
          let dp := get_display_path env file_to_set project_root_dir in
          let scope_data :=
            if add_context args
            then {| files := files scope_data; context_file := Some abs_path_str;
                    prompt_file := prompt_file scope_data |}
            else {| files := files scope_data; context_file := context_file scope_data;
                    prompt_file := Some abs_path_str |} in
          let cfg := <[target := VScope scope_data]> cfg in
          ((created ++ [if add_context args then OkContextSet target dp
                        else OkPromptSet target dp], Return tt),
           Some (save_config cfg))
      end
    else
      let '(out, r) := add_files env project_root_dir target (file_paths args)
                         (default [] (files scope_data), 0) in
      match r with
      | SysExit c => ((created ++ out, SysExit c), disk)
      | Return (scope_files, files_added_count) =>
          let scope_data := {| files := Some scope_files;
                               context_file := context_file scope_data;
                               prompt_file := prompt_file scope_data |} in
          let cfg := <[target := VScope scope_data]> cfg in
          ((created ++ out, Return tt),
           if (0 <? files_added_count)%nat then Some (save_config cfg) else disk)
      end
  end.

(** ** Content assembly *)

Definition PROJECT_STRUCTURE_OPEN : string :=
  "Project Structure:" +:+ Py.nl +:+ "```" +:+ Py.nl.
Definition PROJECT_STRUCTURE_CLOSE : string :=
  "```" +:+ Py.nl +:+ Py.nl.

(** [f"{dp}\n"] *)
Definition manifest_line (dp : string) : string := dp +:+ Py.nl.

(** [f"{dp}:\n```\n{content}\n```\n\n"] *)
Definition file_block (dp content : string) : string :=
  dp +:+ ":" +:+ Py.nl +:+ "```" +:+ Py.nl +:+ content +:+ Py.nl
     +:+ "```" +:+ Py.nl +:+ Py.nl.

(** [output_parts and output_parts[-1] and not output_parts[-1].isspace()] *)
Definition last_part_has_text (output_parts : list string) : bool :=
  match last output_parts with
  | Some p => Py.truthy p && negb (Py.isspace p)
  | None => false
  end.

(** Step 1, the context file: [(context_content_str, output_parts)]. *)
Definition context_step (env : Env) (project_root_dir : Path)
    (actual_scope_name : string) (scope_data : scope_dict)
    (output_parts : list string) : Run (string * list string) :=
  match context_file scope_data with
  | Some context_file_path_str =>
      if Py.truthy context_file_path_str then
        let context_file_path := Path_of_str context_file_path_str in
        if Path_is_file env context_file_path then
          match Path_read_text env context_file_path with
          | Some text =>
              let context_content_str := Py.strip text in
              if Py.truthy context_content_str
              then mret (context_content_str, output_parts ++ [context_content_str])
              else mret (context_content_str, output_parts)
          | None =>
              print (WarnContextUnreadable
                       (get_display_path env context_file_path project_root_dir)) ;;
              mret ("", output_parts)
          end
        else
          print (WarnContextMissing
                   (get_display_path env context_file_path project_root_dir)
                   actual_scope_name) ;;
          mret ("", output_parts)
      else mret ("", output_parts)
  | None => mret ("", output_parts)
  end.

(** The tuples [(display_p, abs_path_str, file_obj)], sorted by display
    path. *)
Definition path_tuples (env : Env) (project_root_dir : Path)
    (file_paths_str_list : list string) : list (string * string * Path) :=
  Py.sorted_by (λ item, item.1.1)
    ((λ abs_path_str,
        let file_obj := Path_of_str abs_path_str in
        (get_display_path env file_obj project_root_dir, abs_path_str, file_obj))
       <$> file_paths_str_list).

Definition missing_files (env : Env) (tuples : list (string * string * Path))
  : list string :=
  (λ item, item.1.1) <$> filter (λ item, Path_is_file env item.2 = false) tuples.

Definition files_to_process (env : Env) (tuples : list (string * string * Path))
  : list (string * string) :=
  (λ item, item.1) <$> filter (λ item, Path_is_file env item.2 = true) tuples.

(** The loop that reads the files: [output_parts] and [files_read_count]
    are threaded. *)
Fixpoint read_files (env : Env) (tuples : list (string * string))
    (st : list string * nat) : Run (list string * nat) :=
  match tuples with
  | [] => mret st
  | (dp, abs_p_str) :: rest =>
      let '(output_parts, files_read_count) := st in
      match Path_read_text env (Path_of_str abs_p_str) with
      | Some text =>
          read_files env rest
            (output_parts ++ [file_block dp (Py.strip text)], S files_read_count)
      | None =>
          print (WarnFileUnreadable dp) ;; read_files env rest st
      end
  end.

(** Step 2, manifest and file blocks, once no tracked file is missing. *)
Definition code_step (env : Env) (actual_scope_name : string)
    (file_paths_str_list : list string) (to_process : list (string * string))
    (output_parts : list string) : Run (list string * nat) :=
  match to_process with
  | [] => mret (output_parts, 0)
  | _ =>
      let output_parts :=
        if last_part_has_text output_parts
        then output_parts ++ [Py.nl +:+ Py.nl] else output_parts in
      let output_parts := output_parts ++ [PROJECT_STRUCTURE_OPEN] in
      let output_parts := output_parts ++ (manifest_line ∘ fst <$> to_process) in
      let output_parts := output_parts ++ [PROJECT_STRUCTURE_CLOSE] in
      '(output_parts, files_read_count) ← read_files env to_process (output_parts, 0);
      (if (files_read_count =? 0)%nat && negb (bool_decide (file_paths_str_list = []))
       then print (WarnNoFilesRead actual_scope_name) else mret tt) ;;
      mret (output_parts, files_read_count)
  end.

(** Step 3, the prompt file: [(prompt_content_str, output_parts)]. *)
Definition prompt_step (env : Env) (project_root_dir : Path)
    (actual_scope_name : string) (scope_data : scope_dict)
    (output_parts : list string) : Run (string * list string) :=
  match prompt_file scope_data with
  | Some prompt_file_path_str =>
      if Py.truthy prompt_file_path_str then
        let prompt_file_path := Path_of_str prompt_file_path_str in
        if Path_is_file env prompt_file_path then
          match Path_read_text env prompt_file_path with
          | Some text =>
              let prompt_content_str := Py.strip text in
              if Py.truthy prompt_content_str then
                let output_parts :=
                  if last_part_has_text output_parts
                     && negb (Py.endswith (default "" (last output_parts))
                                (Py.nl +:+ Py.nl))
                  then
                    if negb (Py.endswith (default "" (last output_parts))
                               (Py.nl +:+ Py.nl))
                    then output_parts ++ [Py.nl] else output_parts
                  else output_parts in
                mret (prompt_content_str, output_parts ++ [prompt_content_str])
              else mret (prompt_content_str, output_parts)
          | None =>
              print (WarnPromptUnreadable
                       (get_display_path env prompt_file_path project_root_dir)) ;;
              mret ("", output_parts)
          end
        else
          print (WarnPromptMissing
                   (get_display_path env prompt_file_path project_root_dir)
                   actual_scope_name) ;;
          mret ("", output_parts)
      else mret ("", output_parts)
  | None => mret ("", output_parts)
  end.

(** The result tuple [(final_str, files_read_count, len(final_str),
    actual_scope_name)]. *)
Definition assembled : Type := string * nat * nat * string.

Definition finish_step (actual_scope_name command_verb : string)
    (context_content_str prompt_content_str : string)
    (file_paths_str_list : list string) (output_parts : list string)
    (files_read_count : nat) : Run assembled :=
  let final :=
    let final_str := Py.strip (Py.join output_parts) in
    let final_str := if Py.truthy final_str then final_str +:+ Py.nl else final_str in
    mret (final_str, files_read_count, String.length final_str, actual_scope_name) in
  if bool_decide (output_parts = []) || forallb Py.isspace output_parts then
    if negb (Py.truthy context_content_str)
       && bool_decide (file_paths_str_list = [])
       && negb (Py.truthy prompt_content_str)
    then print (NoteCompletelyEmpty actual_scope_name command_verb) ;;
         mret ("", 0, 0, actual_scope_name)
    else if negb (existsb (λ p, Py.truthy (Py.strip p)) output_parts)
    then print (NoteEffectivelyEmpty actual_scope_name command_verb) ;;
         mret ("", 0, 0, actual_scope_name)
    else final
  else final.

(** The body of [_get_formatted_scope_content] from [output_parts = []]
    on, for the scope object that was found. *)
Definition assemble_scope (env : Env) (scope_data : scope_dict)
    (project_root_dir : Path) (command_verb actual_scope_name : string)
  : Run assembled :=
  '(context_content_str, output_parts) ←
    context_step env project_root_dir actual_scope_name scope_data [];
  let file_paths_str_list := default [] (files scope_data) in
  let path_tuples_for_sorting := path_tuples env project_root_dir file_paths_str_list in
  let missing_files_display := missing_files env path_tuples_for_sorting in
  let files_to_process_tuples := files_to_process env path_tuples_for_sorting in
  match missing_files_display with
  | _ :: _ =>
      print (ErrMissingFiles command_verb actual_scope_name) ;;
      print_all (ErrMissingItem <$> Py.sorted missing_files_display) ;;
      sys_exit 1
  | [] =>
      '(output_parts, files_read_count) ←
        code_step env actual_scope_name file_paths_str_list
          files_to_process_tuples output_parts;
      '(prompt_content_str, output_parts) ←
        prompt_step env project_root_dir actual_scope_name scope_data output_parts;
      finish_step actual_scope_name command_verb context_content_str
        prompt_content_str file_paths_str_list output_parts files_read_count
  end.

Definition _get_formatted_scope_content (env : Env)
    (requested_scope_name : option string) (cfg : config)
    (project_root_dir : Path) (command_verb : string) : Run assembled :=
  match py_or requested_scope_name (get_current_scope_name cfg) with
  | None => print ErrNoActiveScope ;; sys_exit 1
  | Some actual_scope_name =>
      if negb (Py.truthy actual_scope_name)
      then print ErrNoActiveScope ;; sys_exit 1
      else
        match get_scope_data cfg actual_scope_name with
        | None => print (ErrScopeNotFound actual_scope_name) ;; sys_exit 1
        | Some scope_data =>
            assemble_scope env scope_data project_root_dir command_verb
              actual_scope_name
        end
  end.

(** ** Descriptions used in the statements

    What each step of the assembler contributes, written directly: the
    text of a special file, the parts and the messages of the code
    section, and the parts of a whole run. *)

(** A path component as [pathlib] keeps it: not empty and not starting
    with a slash. *)
Definition plain_part (x : string) : Prop :=
  x ≠ "" ∧ ∀ r, x ≠ String "/" r.

(** The order [sorted_by key] sorts by. *)
Definition key_le {A : Type} (key : A → string) (a b : A) : Prop :=
  String.le (key a) (key b).

(** The last character of a text, if it has one. *)
Fixpoint last_char (s : string) : option ascii :=
  match s with
  | EmptyString => None
  | String c EmptyString => Some c
  | String _ s' => last_char s'
  end.

(** The text of a special file as the assembler uses it: stripped, and
    empty when the file is not set, missing or unreadable. *)
Definition special_text (env : Env) (file : option string) : string :=
  match file with
  | Some p =>
      if Py.truthy p && Path_is_file env (Path_of_str p) then
        match Path_read_text env (Path_of_str p) with
        | Some text => Py.strip text
        | None => ""
        end
      else ""
  | None => ""
  end.

(** The warnings a special file gives rise to. *)
Definition special_msgs (env : Env) (project_root_dir : Path)
    (actual_scope_name : string) (unreadable : string → msg)
    (missing : string → string → msg) (file : option string) : list msg :=
  match file with
  | Some p =>
      if Py.truthy p then
        if Path_is_file env (Path_of_str p) then
          match Path_read_text env (Path_of_str p) with
          | Some _ => []
          | None =>
              [unreadable (get_display_path env (Path_of_str p) project_root_dir)]
          end
        else [missing (get_display_path env (Path_of_str p) project_root_dir)
                actual_scope_name]
      else []
  | None => []
  end.

Definition opt_part (s : string) : list string :=
  if Py.truthy s then [s] else [].

Definition prompt_sep (before : list string) : list string :=
  if last_part_has_text before
     && negb (Py.endswith (default "" (last before)) (Py.nl +:+ Py.nl))
  then [Py.nl] else [].

Definition prompt_parts (before : list string) (text : string) : list string :=
  if Py.truthy text then prompt_sep before ++ [text] else [].

(** The fenced blocks of the files that can be read, in the order of
    the tuples. *)
Definition block_of (env : Env) (item : string * string) : option string :=
  (λ text, file_block item.1 (Py.strip text))
    <$> Path_read_text env (Path_of_str item.2).

Definition blocks_of (env : Env) (tuples : list (string * string)) : list string :=
  omap (block_of env) tuples.

Definition unreadable (env : Env) (tuples : list (string * string)) : list string :=
  fst <$> filter (λ item, Path_read_text env (Path_of_str item.2) = None) tuples.

Definition code_sep (before : list string) : list string :=
  if last_part_has_text before then [Py.nl +:+ Py.nl] else [].

(** The parts of the code section. *)
Definition code_parts (env : Env) (before : list string)
    (tuples : list (string * string)) : list string :=
  match tuples with
  | [] => []
  | _ => code_sep before ++ [PROJECT_STRUCTURE_OPEN]
         ++ (manifest_line <$> tuples.*1) ++ [PROJECT_STRUCTURE_CLOSE]
         ++ blocks_of env tuples
  end.

Definition code_msgs (env : Env) (actual_scope_name : string)
    (file_paths_str_list : list string) (tuples : list (string * string))
  : list msg :=
  match tuples with
  | [] => []
  | _ => (WarnFileUnreadable <$> unreadable env tuples)
         ++ (if (length (blocks_of env tuples) =? 0)%nat
                && negb (bool_decide (file_paths_str_list = []))
             then [WarnNoFilesRead actual_scope_name] else [])
  end.

(** The tracked files in the order the assembler visits them, as
    [(display path, stored path)]. *)
Definition tracked (env : Env) (project_root_dir : Path)
    (file_paths_str_list : list string) : list (string * string) :=
  files_to_process env (path_tuples env project_root_dir file_paths_str_list).

(** The display paths of the tracked files that are not regular files. *)
Definition missing (env : Env) (project_root_dir : Path)
    (file_paths_str_list : list string) : list string :=
  missing_files env (path_tuples env project_root_dir file_paths_str_list).

(** All of [output_parts] once the three steps are done. *)
Definition all_parts (env : Env) (project_root_dir : Path) (sd : scope_dict)
  : list string :=
  let before := opt_part (special_text env (context_file sd)) in
  let before :=
    before ++ code_parts env before
                (tracked env project_root_dir (default [] (files sd))) in
  before ++ prompt_parts before (special_text env (prompt_file sd)).

(** The returned text for the parts of a run. *)
Definition final_text (parts : list string) : string :=
  let final_str := Py.strip (Py.join parts) in
  if Py.truthy final_str then final_str +:+ Py.nl else final_str.

(** What the three steps print. *)
Definition step_msgs (env : Env) (project_root_dir : Path)
    (actual_scope_name : string) (sd : scope_dict) : list msg :=
  special_msgs env project_root_dir actual_scope_name
    WarnContextUnreadable WarnContextMissing (context_file sd)
  ++ code_msgs env actual_scope_name (default [] (files sd))
       (tracked env project_root_dir (default [] (files sd)))
  ++ special_msgs env project_root_dir actual_scope_name
       WarnPromptUnreadable WarnPromptMissing (prompt_file sd).

Definition readable (env : Env) (abs_p_str : string) : Prop :=
  is_Some (Path_read_text env (Path_of_str abs_p_str)).

Definition with_files (sd : scope_dict) (fl : list string) : scope_dict :=
  {| files := Some fl; context_file := context_file sd;
     prompt_file := prompt_file sd |}.

Definition without_context (sd : scope_dict) : scope_dict :=
  {| files := files sd; context_file := None; prompt_file := prompt_file sd |}.

Definition without_prompt (sd : scope_dict) : scope_dict :=
  {| files := files sd; context_file := context_file sd; prompt_file := None |}.

(** ** A small project used for the concrete runs

    The project root is [/proj]; a file system is given by the list of its
    regular files, each with its text or [None] when it cannot be read. *)

Fixpoint assoc (k : string) (l : list (string * option string))
  : option (option string) :=
  match l with
  | [] => None
  | (k', v) :: l' => if String.eqb k k' then Some v else assoc k l'
  end.

Definition absolute_in (cwd s : string) : string :=
  if Py.startswith s "/" then s else cwd +:+ "/" +:+ s.

Definition fs_of (cwd : string) (regular : list (string * option string)) : Env :=
  {| fs_is_file s := bool_decide (is_Some (assoc (absolute_in cwd s) regular));
     fs_read_text s := mjoin (assoc (absolute_in cwd s) regular);
     fs_resolve s := absolute_in cwd s |}.

Definition demo_root : Path := Path_of_str "/proj".

(** [unlines [l1; ...; ln]]: the lines, each ended by a line feed. *)
Definition unlines (ls : list string) : string :=
  Py.join ((λ l, l +:+ Py.nl) <$> ls).

(** The empty file system. *)
Definition env0 : Env := mkEnv (λ _, false) (λ _, None) (λ s, s).

Definition c1_env : Env :=
  fs_of "/proj" [("/proj/ctx.md", Some ("C" +:+ Py.nl));
                 ("/proj/f.txt", Some ("X" +:+ Py.nl));
                 ("/proj/ask.md", Some ("P" +:+ Py.nl))].

Definition c1_scope : scope_dict :=
  {| files := Some ["/proj/f.txt"];
     context_file := Some "/proj/ctx.md";
     prompt_file := Some "/proj/ask.md" |}.

(** The text the specification gives for this scope ... *)
Definition c1_spec_text : string :=
  unlines ["C"; ""; "Project Structure:"; "```"; "f.txt"; "```"; "";
           "f.txt:"; "```"; "X"; "```"; ""; "P"].

(** ... and the text that is assembled: the file is labelled by its
    display path, which is [./f.txt]. *)
Definition c1_text : string :=
  unlines ["C"; ""; "Project Structure:"; "```"; "./f.txt"; "```"; "";
           "./f.txt:"; "```"; "X"; "```"; ""; "P"].

Definition c2_env : Env :=
  fs_of "/proj" [("/proj/a.txt", Some "A")].

Definition c2_scope : scope_dict :=
  {| files := Some ["/proj/a.txt"; "/proj/gone.txt"];
     context_file := None; prompt_file := None |}.

Definition c3_env : Env :=
  fs_of "/proj" [("/proj/a.txt", Some "A"); ("/proj/b.txt", Some "B")].

Definition c3_scope : scope_dict :=
  {| files := Some ["/proj/b.txt"; "/proj/a.txt"];
     context_file := None; prompt_file := None |}.

Definition c4_env : Env := fs_of "/proj" [("/proj/a.txt", Some "A")].

Definition c4_scope : scope_dict :=
  {| files := Some ["/proj/a.txt"];
     context_file := Some "/proj/nope.md";
     prompt_file := Some "/proj/nope.md" |}.

(** A scope with a missing context file and a missing tracked file. *)
Definition c4_scope_bad : scope_dict :=
  {| files := Some ["/proj/a.txt"; "/proj/gone.txt"];
     context_file := Some "/proj/nope.md";
     prompt_file := None |}.

Definition c5_env : Env :=
  fs_of "/proj" [("/proj/ctx.md", Some "C"); ("/proj/ask.md", Some "P")].

Definition c5_scope : scope_dict :=
  {| files := Some [];
     context_file := Some "/proj/ctx.md";
     prompt_file := Some "/proj/ask.md" |}.

Definition c9_env : Env :=
  fs_of "/proj" [("/proj/ctx.md", Some (" " +:+ Py.nl));
                 ("/proj/blank.txt", Some Py.nl);
                 ("/proj/ask.md", Some "  ")].

Definition c9_scope : scope_dict :=
  {| files := Some [];
     context_file := Some "/proj/ctx.md";
     prompt_file := Some "/proj/ask.md" |}.

(** A tracked file whose text trims to nothing is still listed and still
    gets its (empty) fenced block. *)
Definition c9_scope_blank_file : scope_dict :=
  {| files := Some ["/proj/blank.txt"];
     context_file := Some "/proj/ctx.md";
     prompt_file := Some "/proj/ask.md" |}.

Definition c10_env : Env :=
  fs_of "/proj" [("/proj/a.txt", Some "A"); ("/proj/locked.txt", None)].

Definition c10_scope : scope_dict :=
  {| files := Some ["/proj/locked.txt"; "/proj/a.txt"];
     context_file := None; prompt_file := None |}.

Definition c6_cfg : config :=
  list_to_map [(KLYP_CONFIG_VERSION_KEY, VStr "0.13.0");
               (CURRENT_SCOPE_KEY, VStr "ghost");
               ("default", VScope _initialize_scope_dict)].

Definition c7_disk : config :=
  list_to_map [(KLYP_CONFIG_VERSION_KEY, VStr "0.13.0");
               (CURRENT_SCOPE_KEY, VStr "alpha");
               ("alpha", VScope {| files := Some ["/proj/a.txt"; "/proj/b.txt"];
                               context_file := Some "/proj/ctx.md";
                               prompt_file := None |})].

(** A store whose pointer names no scope: [beta] is not a scope yet. *)
Definition c7_disk_dangling : config :=
  list_to_map [(KLYP_CONFIG_VERSION_KEY, VStr "0.13.0");
               (CURRENT_SCOPE_KEY, VStr "beta");
               ("alpha", VScope _initialize_scope_dict)].

Definition c8_env : Env :=
  fs_of "/proj" [("/proj/a.txt", Some "A"); ("/proj/b.txt", Some "B")].

(** The document after [klyp init] and [klyp use work]. *)
Definition c8_disk : config :=
  list_to_map [(KLYP_CONFIG_VERSION_KEY, VStr "0.13.0");
               (CURRENT_SCOPE_KEY, VStr "work");
               ("default", VScope _initialize_scope_dict);
               ("work", VScope _initialize_scope_dict)].

Definition add_code_files (paths : list string) : add_args :=
  {| add_context := false; add_prompt := false;
     file_paths := paths; scope_name := None |}.

(** The document after [klyp init] and [klyp use _klyp_x]: the name
    [_klyp_x] passes [is_valid_scope_name]. *)
Definition c8_disk_prefixed : config :=
  list_to_map [(KLYP_CONFIG_VERSION_KEY, VStr "0.13.0");
               (CURRENT_SCOPE_KEY, VStr "_klyp_x");
               ("default", VScope _initialize_scope_dict);
               ("_klyp_x", VScope _initialize_scope_dict)].

(** * The other commands

    The handlers below print messages of their own; [Core] carries a
    message of the handlers above.  Where a handler asks the user
    ([input]), the line typed is a parameter. *)

(** The second component of [is_valid_scope_name]: why a name is
    rejected. *)
Inductive name_error :=
  | NameEmpty
  | NameReservedKey (scope_name : string)
  | NameReservedCommand (scope_name : string)
  | NameReservedAction (scope_name : string).

Definition scope_name_error (scope_name : string) : option name_error :=
  if negb (Py.truthy scope_name) then Some NameEmpty
  else if bool_decide (scope_name ∈ RESERVED_KLYP_KEYS)
  then Some (NameReservedKey scope_name)
  else if bool_decide (Py.lower scope_name ∈ RESERVED_COMMAND_NAMES)
  then Some (NameReservedCommand scope_name)
  else if bool_decide (Py.lower scope_name ∈ SCOPE_ACTION_COMMAND_NAMES)
  then Some (NameReservedAction scope_name)
  else None.

Inductive file_status := StatusOk | StatusMissing.

Inductive cmd_msg :=
  | Core (m : msg)
  | AskOverwrite
  | InitCancelled
  | OverwritingConfig
  | OkInitialized (scope_name : string)
  | ErrName (e : name_error)
  | OkActiveSet (scope_name : string)
  | WarnScopeExists (scope_name : string)
  | OkScopeAdded (scope_name : string)
  | ErrScopeMissing (scope_name : string)
  | AskDelete (scope_name : string)
  | WarnActiveUnset (scope_name : string)
  | OkScopeDeleted (scope_name : string)
  | DeletionCancelled
  | ErrNoActiveScopeForRemove (action_msg : string)
  | OkContextRemoved (scope_name : string)
  | WarnNoContextSet (scope_name : string)
  | OkPromptRemoved (scope_name : string)
  | WarnNoPromptSet (scope_name : string)
  | OkFileRemoved (dp scope_name : string)
  | ErrFileNotInScope (file_path dp_res scope_name : string)
  | MsgActiveScope (scope_name : string)
  | MsgActiveScopeInvalid (scope_name : string)
  | MsgNoActiveScope
  | MsgAvailableScopes (scopes : list string)
  | MsgNoScopesDefined
  | OkCopied (scope_name : string) (files chars : nat)
  | ErrCopying
  | OkPrinted (scope_name : string) (files chars : nat)
  | StatusHeader (project : string)
  | MsgShowingAllScopes
  | MsgNoScopesToDisplay
  | WarnNoScopeData (scope_name : string)
  | StatusScope (scope_name : string) (active : bool)
  | StatusContextFile (dp : string) (st : file_status)
  | StatusContextNotSet
  | StatusPromptFile (dp : string) (st : file_status)
  | StatusPromptNotSet
  | StatusNoTrackedFiles
  | StatusTrackedCount (n : nat)
  | StatusTrackedFile (dp : string) (st : file_status)
  | StatusNotRegularFile.

(** What a handler prints and how it ends. *)
Definition Out (A : Type) : Type := list cmd_msg * result A.

Definition KLYP_CURRENT_VERSION : string := "0.13.0".

(** [input(...).strip().lower()] *)
Definition typed (answer : string) : string := Py.lower (Py.strip answer).

(** The config file as [handle_init_cmd] finds it: it reads the file
    itself and goes on when the JSON cannot be parsed. *)
Inductive config_file :=
  | FileAbsent
  | FileCorrupt
  | FileDoc (data : config).

Definition initial_config : config :=
  <["default" := VScope _initialize_scope_dict]>
    (<[CURRENT_SCOPE_KEY := VStr "default"]>
       (<[KLYP_CONFIG_VERSION_KEY := VStr KLYP_CURRENT_VERSION]> ∅)).

Definition handle_init_cmd (file : config_file) (answer : string)
  : Out unit * config_file :=
  let write (before : list cmd_msg) : Out unit * config_file :=
    ((before ++ [OkInitialized "default"], Return tt),
     FileDoc (save_config initial_config)) in
  match file with
  | FileAbsent => write []
  | FileCorrupt => write [OverwritingConfig]
  | FileDoc temp_conf =>
      if bool_decide (is_Some (temp_conf !! KLYP_CONFIG_VERSION_KEY))
         || bool_decide (is_Some (temp_conf !! CURRENT_SCOPE_KEY))
      then
        if negb (String.eqb (typed answer) "y")
        then (([AskOverwrite; InitCancelled], Return tt), file)
        else write [AskOverwrite; OverwritingConfig]
      else write [OverwritingConfig]
  end.

Definition handle_scope_set_cmd (disk : Disk) (name : string) : Out unit * Disk :=
  let cfg := load_config disk in
  if negb (check_config_initialized disk cfg)
  then (([Core ErrNotInitialized], SysExit 1), disk) else
  match scope_name_error name with
  | Some err => (([ErrName err], SysExit 1), disk)
  | None =>
      let cfg := <[CURRENT_SCOPE_KEY := VStr name]> cfg in
      let created := negb (bool_decide (is_Some (get_scope_data cfg name))) in
      let cfg := if created then <[name := VScope _initialize_scope_dict]> cfg
                 else cfg in
      (((if created then [Core (OkScopeCreated name)] else [])
        ++ [OkActiveSet name], Return tt),
       Some (save_config cfg))
  end.

Definition handle_use_cmd := handle_scope_set_cmd.

Definition handle_scope_add_cmd (disk : Disk) (name : string) : Out unit * Disk :=
  let cfg := load_config disk in
  if negb (check_config_initialized disk cfg)
  then (([Core ErrNotInitialized], SysExit 1), disk) else
  match scope_name_error name with
  | Some err => (([ErrName err], SysExit 1), disk)
  | None =>
      if bool_decide (is_Some (get_scope_data cfg name))
      then (([WarnScopeExists name], Return tt), disk)
      else
        let cfg := <[name := VScope _initialize_scope_dict]> cfg in
        (([OkScopeAdded name], Return tt), Some (save_config cfg))
  end.

Definition handle_scope_delete_cmd (disk : Disk) (name : string) (answer : string)
  : Out unit * Disk :=
  let cfg := load_config disk in
  if negb (check_config_initialized disk cfg)
  then (([Core ErrNotInitialized], SysExit 1), disk) else
  if negb (bool_decide (is_Some (get_scope_data cfg name)))
  then (([ErrScopeMissing name], SysExit 1), disk) else
  if String.eqb (typed answer) "y" then
    let cfg := delete name cfg in
    let unset := bool_decide (get_current_scope_name cfg = Some name) in
    let cfg := if unset then delete CURRENT_SCOPE_KEY cfg else cfg in
    (([AskDelete name] ++ (if unset then [WarnActiveUnset name] else [])
      ++ [OkScopeDeleted name], Return tt),
     Some (save_config cfg))
  else (([AskDelete name; DeletionCancelled], Return tt), disk).

Record remove_args := mkRemoveArgs {
  remove_context : bool;
  remove_prompt : bool;
  file_path : option string;
  remove_scope_name : option string
}.

(** [l.remove(x)]: the first occurrence goes. *)
Fixpoint list_remove (x : string) (l : list string) : list string :=
  match l with
  | [] => []
  | y :: l' => if String.eqb x y then l' else y :: list_remove x l'
  end.

Definition handle_remove_cmd (env : Env) (project_root_dir : Path) (disk : Disk)
    (args : remove_args) : Out unit * Disk :=
  let cfg := load_config disk in
  if negb (check_config_initialized disk cfg)
  then (([Core ErrNotInitialized], SysExit 1), disk) else
  let target_scope_name :=
    if truthy_opt (remove_scope_name args) then remove_scope_name args
    else get_current_scope_name cfg in
  if negb (truthy_opt target_scope_name) then
    let action_msg :=
      if remove_context args then "--context "
      else if remove_prompt args then "--prompt " else "[file] " in
    (([ErrNoActiveScopeForRemove action_msg], SysExit 1), disk)
  else
  let target := default "" target_scope_name in
  match get_scope_data cfg target with
  | None => (([ErrScopeMissing target], SysExit 1), disk)
  | Some scope_data =>
    if remove_context args then
      if truthy_opt (context_file scope_data) then
        let scope_data := {| files := files scope_data; context_file := None;
                             prompt_file := prompt_file scope_data |} in
        (([OkContextRemoved target], Return tt),
         Some (save_config (<[target := VScope scope_data]> cfg)))
      else (([WarnNoContextSet target], Return tt), disk)
    else if remove_prompt args then
      if truthy_opt (prompt_file scope_data) then
        let scope_data := {| files := files scope_data;
                             context_file := context_file scope_data;
                             prompt_file := None |} in
        (([OkPromptRemoved target], Return tt),
         Some (save_config (<[target := VScope scope_data]> cfg)))
      else (([WarnNoPromptSet target], Return tt), disk)
    else if truthy_opt (file_path args) then
      let file_path_arg := default "" (file_path args) in
      let file_to_remove_input := Path_of_str file_path_arg in
      let abs_path_to_remove_str := Path_str (Path_resolve env file_to_remove_input) in
      let scope_files := default [] (files scope_data) in
      if bool_decide (abs_path_to_remove_str ∈ scope_files) then
        let scope_data :=
          {| files := Some (list_remove abs_path_to_remove_str scope_files);
             context_file := context_file scope_data;
             prompt_file := prompt_file scope_data |} in
        let dp := get_display_path env file_to_remove_input project_root_dir in
        (([OkFileRemoved dp target], Return tt),
         Some (save_config (<[target := VScope scope_data]> cfg)))
      else
        let dp_res := get_display_path env (Path_resolve env file_to_remove_input)
                        project_root_dir in
        (([ErrFileNotInScope file_path_arg dp_res target], Return tt), disk)
    else (([], Return tt), disk)
  end.

(** [sorted([s_name for s_name in config if get_scope_data(config, s_name)])] *)
Definition scope_names (cfg : config) : list string :=
  Py.sorted (filter (λ s_name, is_Some (get_scope_data cfg s_name))
               (map_to_list cfg).*1).

Definition handle_scope_list_cmd (disk : Disk) : Out unit :=
  let cfg := load_config disk in
  if negb (check_config_initialized disk cfg)
  then ([Core ErrNotInitialized], SysExit 1) else
  let active_scope := get_current_scope_name cfg in
  let first :=
    if truthy_opt active_scope
       && bool_decide (is_Some (get_scope_data cfg (default "" active_scope)))
    then MsgActiveScope (default "" active_scope)
    else if truthy_opt active_scope
    then MsgActiveScopeInvalid (default "" active_scope)
    else MsgNoActiveScope in
  let scopes := scope_names cfg in
  ([first; match scopes with
           | [] => MsgNoScopesDefined
           | _ => MsgAvailableScopes scopes
           end], Return tt).


(** ** Delivering the assembled text *)

Definition lift_msgs (out : list msg) : list cmd_msg := Core <$> out.

(** The test both [handle_copy_cmd] and [handle_run_cmd] make on an
    empty result: is neither special file set in the scope? *)
Definition no_special_file (cfg : config) (requested : option string) : bool :=
  let active_scope_name := py_or requested (get_current_scope_name cfg) in
  let scope_data :=
    if truthy_opt active_scope_name
    then get_scope_data cfg (default "" active_scope_name)
    else Some {| files := None; context_file := None; prompt_file := None |} in
  match scope_data with
  | Some d => negb (truthy_opt (context_file d) || truthy_opt (prompt_file d))
  | None => false (* [None.get] raises; the scope was found just before *)
  end.


(** [handle_copy_cmd]: the messages, what [pyperclip.copy] was given, and
    the end of the run; [clipboard_ok] is [false] when [pyperclip.copy]
    raises. *)
Definition handle_copy_cmd (env : Env) (p_root : Path) (disk : Disk)
    (clipboard_ok : bool) (requested : option string)
  : list cmd_msg * list string * result unit :=
  let cfg := load_config disk in
  if negb (check_config_initialized disk cfg)
  then ([Core ErrNotInitialized], [], SysExit 1) else
  match _get_formatted_scope_content env requested cfg p_root "copy" with
  | (out, SysExit c) => (lift_msgs out, [], SysExit c)
  | (out, Return (content, files, chars, scope_name)) =>
      if negb (Py.truthy (Py.strip content)) && (files =? 0)%nat
         && no_special_file cfg requested
      then
        if clipboard_ok then (lift_msgs out, [""], Return tt)
        else (lift_msgs out ++ [Core ErrUnexpected], [], SysExit 1)
      else
        if clipboard_ok then
          (lift_msgs out
           ++ (if Py.truthy (Py.strip content)
               then [OkCopied scope_name files chars] else []),
           [content], Return tt)
        else (lift_msgs out ++ [ErrCopying], [], SysExit 1)
  end.

(** ** Status *)




(** ** Notions used in the statements about the store *)

(** A document as a command holds it in memory: every scope object under
    a key that does not start with [_klyp_] has its ["files"] list. *)
Definition loaded (cfg : config) : Prop :=
  ∀ k d, cfg !! k = Some (VScope d) → Py.startswith k "_klyp_" = false →
         is_Some (files d).

(** Two scope objects with the same tracked files (as a set), the same
    context file and the same prompt file. *)
Definition same_scope (A B : scope_dict) : Prop :=
  (∀ x, x ∈ default [] (files A) ↔ x ∈ default [] (files B))
  ∧ context_file A = context_file B
  ∧ prompt_file A = prompt_file B.

Definition is_scope (cfg : config) (name : string) : Prop :=
  is_Some (get_scope_data cfg name).

(** The active-scope pointer is not dangling: it is not set, or it names
    a scope. *)
Definition pointer_ok (cfg : config) : Prop :=
  match get_current_scope_name cfg with
  | Some s => is_scope cfg s
  | None => True
  end.

(** The commands that change the document of an initialised project, and
    the config file each leaves. *)
Inductive command :=
  | CmdUse (name : string)
  | CmdScopeAdd (name : string)
  | CmdScopeDelete (name answer : string)
  | CmdScopeRename (old new : string)
  | CmdAdd (args : add_args)
  | CmdRemove (args : remove_args).

Definition run_command (env : Env) (project_root_dir : Path) (disk : Disk)
    (c : command) : Disk :=
  match c with
  | CmdUse name => (handle_scope_set_cmd disk name).2
  | CmdScopeAdd name => (handle_scope_add_cmd disk name).2
  | CmdScopeDelete name answer => (handle_scope_delete_cmd disk name answer).2
  | CmdScopeRename old new => (handle_scope_rename_cmd disk old new).2
  | CmdAdd args => (handle_add_cmd env project_root_dir disk args).2
  | CmdRemove args => (handle_remove_cmd env project_root_dir disk args).2
  end.

Definition run_commands (env : Env) (project_root_dir : Path) (disk : Disk)
    (cs : list command) : Disk :=
  foldl (run_command env project_root_dir) disk cs.


(** The scope [name] is kept from [cfg] to [cfg']: it is a scope of both,
    with the same files, context and prompt, or of neither. *)
Definition scope_kept (cfg cfg' : config) (name : string) : Prop :=
  match get_scope_data cfg name with
  | Some A => ∃ B, get_scope_data cfg' name = Some B ∧ same_scope A B
  | None => get_scope_data cfg' name = None
  end.

(** Does [handle_init_cmd] ask before it overwrites? *)
Definition init_asks (file : config_file) : Prop :=
  match file with
  | FileDoc temp_conf =>
      is_Some (temp_conf !! KLYP_CONFIG_VERSION_KEY)
      ∨ is_Some (temp_conf !! CURRENT_SCOPE_KEY)
  | _ => False
  end.

(** ** Notions used in the statements about [add] and [remove] *)

(** The absolute path strings [handle_add_cmd] takes from its arguments:
    those of the arguments that are regular files, resolved. *)
Definition regular_targets (env : Env) (paths : list string) : list string :=
  (λ p, Path_str (Path_resolve env (Path_of_str p)))
  <$> filter (λ p, Path_is_file env (Path_of_str p) = true) paths.
(** What a command that changes one scope leaves in the config file: the
    file as it was, or the saved document with one scope object put under
    a valid name. *)
Definition writes_scope (cfg : config) (disk disk' : Disk) : Prop :=
  disk' = disk
  ∨ ∃ n d, is_valid_scope_name n = true ∧ is_Some (files d)
           ∧ disk' = Some (save_config (<[n := VScope d]> cfg)).

(** The pointer, when it is stored, is a string, as in every document
    that [klyp] writes. *)
Definition pointer_is_text (cfg : config) : Prop :=
  ∀ d, cfg !! CURRENT_SCOPE_KEY ≠ Some (VScope d).

(** * Properties *)

(** ** The primitives on examples *)

Example split_ex :
  Py.split "/"%char "/proj//a/./f.txt" = [""; "proj"; ""; "a"; "."; "f.txt"].
Proof. reflexivity. Qed.

Example display_inside :
  get_display_path env0 (Path_of_str "/proj/f.txt") (Path_of_str "/proj") = "./f.txt".
Proof. vm_compute. reflexivity. Qed.

Example display_base :
  get_display_path env0 (Path_of_str "/proj") (Path_of_str "/proj") = "./".
Proof. vm_compute. reflexivity. Qed.

Example display_outside :
  get_display_path env0 (Path_of_str "/other/x/f.txt") (Path_of_str "/proj/sub")
  = "../../other/x/f.txt".
Proof. vm_compute. reflexivity. Qed.

Example strip_ex : Py.strip ("  a b " +:+ Py.nl) = "a b".
Proof. vm_compute. reflexivity. Qed.

Example sorted_ex : Py.sorted ["b"; "a"; "c"; "a"] = ["a"; "a"; "b"; "c"].
Proof. vm_compute. reflexivity. Qed.


(** ** Sorting *)

Section SortFacts.
Context {A : Type} (key : A → string).

Lemma insert_by_perm (x : A) (l : list A) : Py.insert_by key x l ≡ₚ x :: l.
Proof.
  induction l as [|y l IH]; simpl; [done|].
  destruct (String.leb (key x) (key y)); [done|].
  rewrite IH. apply Permutation_swap.
Qed.

Lemma sorted_by_perm (l : list A) : Py.sorted_by key l ≡ₚ l.
Proof.
  induction l as [|x l IH]; simpl; [done|].
  rewrite insert_by_perm. by f_equiv.
Qed.

Lemma leb_false_le (s t : string) : String.leb s t = false → String.le t s.
Proof.
  intros H. destruct (String.leb_total s t) as [Hst|Hts].
  - congruence.
  - unfold String.le. by rewrite Hts.
Qed.

Lemma insert_by_HdRel (a x : A) (l : list A) :
  key_le key a x → HdRel (key_le key) a l →
  HdRel (key_le key) a (Py.insert_by key x l).
Proof.
  intros Hax Hl. destruct l as [|y l]; simpl.
  - by constructor.
  - destruct (String.leb (key x) (key y)); constructor; [done|].
    by inversion Hl.
Qed.

Lemma insert_by_Sorted (x : A) (l : list A) :
  Sorted (key_le key) l → Sorted (key_le key) (Py.insert_by key x l).
Proof.
  induction 1 as [|y l Hs IH Hhd]; simpl.
  - repeat constructor.
  - destruct (String.leb (key x) (key y)) eqn:E.
    + constructor; [by constructor|]. constructor.
      unfold key_le, String.le. by rewrite E.
    + constructor; [done|].
      apply insert_by_HdRel; [|done]. by apply leb_false_le.
Qed.

Lemma sorted_by_Sorted (l : list A) : Sorted (key_le key) (Py.sorted_by key l).
Proof.
  induction l as [|x l IH]; simpl; [constructor|]. by apply insert_by_Sorted.
Qed.

Lemma insert_by_fmap (x : A) (l : list A) :
  key <$> Py.insert_by key x l = Py.insert_by id (key x) (key <$> l).
Proof.
  induction l as [|y l IH]; csimpl; [done|].
  destruct (String.leb (key x) (key y)); csimpl; [done|]. by rewrite IH.
Qed.

Lemma sorted_by_fmap (l : list A) :
  key <$> Py.sorted_by key l = Py.sorted (key <$> l).
Proof.
  induction l as [|x l IH]; [done|].
  change (key <$> Py.insert_by key x (Py.sorted_by key l)
          = Py.insert_by id (key x) (Py.sorted (key <$> l))).
  by rewrite insert_by_fmap, IH.
Qed.
End SortFacts.

Lemma sorted_Sorted (l : list string) : Sorted String.le (Py.sorted l).
Proof. apply (sorted_by_Sorted id). Qed.

Lemma sorted_perm (l : list string) : Py.sorted l ≡ₚ l.
Proof. apply (sorted_by_perm id). Qed.

(** The sorted arrangement of a list of strings does not depend on the
    order the list came in. *)
Lemma sorted_perm_eq (l l' : list string) : l ≡ₚ l' → Py.sorted l = Py.sorted l'.
Proof.
  intros Hp. apply (Sorted_unique String.le); try apply sorted_Sorted.
  by rewrite !sorted_perm.
Qed.

Lemma sorted_by_keys_perm {A} (key : A → string) (l l' : list A) :
  l ≡ₚ l' → key <$> Py.sorted_by key l = key <$> Py.sorted_by key l'.
Proof.
  intros Hp. rewrite !sorted_by_fmap. apply sorted_perm_eq. by f_equiv.
Qed.

Lemma key_inj_on {A} (key : A → string) (l : list A) (a b : A) :
  NoDup (key <$> l) → a ∈ l → b ∈ l → key a = key b → a = b.
Proof.
  induction l as [|x l IH]; intros Hnd Ha Hb Hk; [by apply elem_of_nil in Ha|].
  rewrite fmap_cons in Hnd. apply NoDup_cons in Hnd as [Hx Hnd].
  apply elem_of_cons in Ha as [->|Ha]; apply elem_of_cons in Hb as [->|Hb].
  - done.
  - exfalso. apply Hx. rewrite Hk. by apply list_elem_of_fmap_2.
  - exfalso. apply Hx. rewrite <- Hk. by apply list_elem_of_fmap_2.
  - by apply IH.
Qed.

Lemma fmap_eq_inj_on {A} (key : A → string) (l1 l2 : list A) :
  (∀ a b, a ∈ l1 → b ∈ l2 → key a = key b → a = b) →
  key <$> l1 = key <$> l2 → l1 = l2.
Proof.
  revert l2. induction l1 as [|a l1 IH]; intros [|b l2] Hinj Heq; try done.
  simpl in Heq. injection Heq as Hab Heq.
  f_equal.
  - apply Hinj; [left|left|done].
  - apply IH; [|done]. intros x y Hx Hy. apply Hinj; by right.
Qed.

(** With pairwise distinct keys the whole sorted list is independent of
    the order of the input. *)
Lemma sorted_by_perm_eq {A} (key : A → string) (l l' : list A) :
  NoDup (key <$> l) → l ≡ₚ l' → Py.sorted_by key l = Py.sorted_by key l'.
Proof.
  intros Hnd Hp. apply (fmap_eq_inj_on key).
  - intros a b Ha Hb. apply (key_inj_on key l); [done| |].
    + by rewrite sorted_by_perm in Ha.
    + by rewrite sorted_by_perm, <- Hp in Hb.
  - by apply sorted_by_keys_perm.
Qed.

(** ** Stripping *)

Lemma lstrip_head (s : string) (c : ascii) (r : string) :
  Py.lstrip s = String c r → Py.isspace_char c = false.
Proof.
  induction s as [|a s IH]; simpl; [done|].
  destruct (Py.isspace_char a) eqn:E; [done|]. by intros [= <- _].
Qed.

Lemma rstrip_head (s : string) (c : ascii) (r : string) :
  Py.rstrip s = String c r → ∃ r', s = String c r'.
Proof.
  destruct s as [|a s]; simpl; [done|].
  destruct (Py.rstrip s); [destruct (Py.isspace_char a)|]; intros [= <- _]; eauto.
Qed.

Lemma strip_head (s : string) (c : ascii) (r : string) :
  Py.strip s = String c r → Py.isspace_char c = false.
Proof.
  unfold Py.strip. intros H. apply rstrip_head in H as [r' H].
  by apply lstrip_head in H.
Qed.

Lemma strip_not_isspace (s : string) :
  Py.truthy (Py.strip s) = true → Py.isspace (Py.strip s) = false.
Proof.
  destruct (Py.strip s) as [|c r] eqn:E; [done|]. intros _.
  apply strip_head in E. simpl. by rewrite E.
Qed.

Lemma rstrip_last (s : string) (c : ascii) :
  last_char (Py.rstrip s) = Some c → Py.isspace_char c = false.
Proof.
  induction s as [|a s IH]; simpl; [done|].
  destruct (Py.rstrip s) as [|b r] eqn:E.
  - destruct (Py.isspace_char a) eqn:Ea; simpl; [done|]. by intros [= <-].
  - intros H. apply IH. exact H.
Qed.

Lemma strip_last (s : string) (c : ascii) :
  last_char (Py.strip s) = Some c → Py.isspace_char c = false.
Proof. apply rstrip_last. Qed.

(** ** Runs *)

Lemma bind_Return {A B} (m : Run A) (f : A → Run B) (out : list msg) (a : A) :
  m = (out, Return a) → m ≫= f = (out ++ printed (f a), outcome (f a)).
Proof.
  intros ->. unfold mbind, run_mbind, run_bind, printed, outcome.
  by destruct (f a).
Qed.

Lemma bind_Return_eq {A B} (m : Run A) (f : A → Run B) out a out' r :
  m = (out, Return a) → f a = (out', r) → m ≫= f = (out ++ out', r).
Proof. intros Hm Hf. by rewrite (bind_Return _ _ _ _ Hm), Hf. Qed.

Lemma bind_SysExit {A B} (m : Run A) (f : A → Run B) (out : list msg) (c : nat) :
  m = (out, SysExit c) → m ≫= f = (out, SysExit c).
Proof. by intros ->. Qed.

Lemma print_then {B} (m : msg) (k : Run B) :
  (print m ;; k) = (m :: printed k, outcome k).
Proof.
  unfold print, mbind, run_mbind, run_bind, printed, outcome. by destruct k.
Qed.

Lemma print_all_eq (ms : list msg) : print_all ms = (ms, Return tt).
Proof.
  induction ms as [|m ms IH]; [done|].
  change (print_all (m :: ms)) with (print m ;; print_all ms).
  by rewrite print_then, IH.
Qed.

Lemma run_eta {A} (r : Run A) : r = (printed r, outcome r).
Proof. by destruct r. Qed.

(** ** The assembler, step by step

    Each step of [assemble_scope] is related to a direct description of
    what it prints and which parts it appends. *)

Section Assembly.
Context (env : Env) (root : Path) (verb name : string).

Lemma context_step_eq (sd : scope_dict) (parts : list string) :
  context_step env root name sd parts
  = (special_msgs env root name WarnContextUnreadable WarnContextMissing
       (context_file sd),
     Return (special_text env (context_file sd),
             parts ++ opt_part (special_text env (context_file sd)))).
Proof.
  unfold context_step, special_msgs, special_text, opt_part.
  destruct (context_file sd) as [p|]; [|by rewrite app_nil_r].
  destruct (Py.truthy p); simpl; [|by rewrite app_nil_r].
  destruct (Path_is_file env (Path_of_str p)); [|by rewrite app_nil_r].
  destruct (Path_read_text env (Path_of_str p)) as [t|]; [|by rewrite app_nil_r].
  destruct (Py.truthy (Py.strip t)); [done|by rewrite app_nil_r].
Qed.

Lemma prompt_step_eq (sd : scope_dict) (parts : list string) :
  prompt_step env root name sd parts
  = (special_msgs env root name WarnPromptUnreadable WarnPromptMissing
       (prompt_file sd),
     Return (special_text env (prompt_file sd),
             parts ++ prompt_parts parts (special_text env (prompt_file sd)))).
Proof.
  unfold prompt_step, special_msgs, special_text, prompt_parts, prompt_sep.
  destruct (prompt_file sd) as [p|]; [|by rewrite app_nil_r].
  destruct (Py.truthy p); simpl; [|by rewrite app_nil_r].
  destruct (Path_is_file env (Path_of_str p)); [|by rewrite app_nil_r].
  destruct (Path_read_text env (Path_of_str p)) as [t|]; [|by rewrite app_nil_r].
  destruct (Py.truthy (Py.strip t)); [|by rewrite app_nil_r].
  destruct (last_part_has_text parts); simpl; [|done].
  destruct (Py.endswith _ _); simpl; [done|]. by rewrite <- app_assoc.
Qed.

Lemma read_files_eq (tuples : list (string * string)) (parts : list string) (n : nat) :
  read_files env tuples (parts, n)
  = (WarnFileUnreadable <$> unreadable env tuples,
     Return (parts ++ blocks_of env tuples, n + length (blocks_of env tuples))).
Proof.
  revert parts n. induction tuples as [|[dp p] rest IH]; intros parts n.
  - simpl. by rewrite app_nil_r, Nat.add_0_r.
  - unfold blocks_of, unreadable, block_of in *.
    cbn [read_files omap list_omap]. simpl snd. simpl fst.
    destruct (Path_read_text env (Path_of_str p)) as [t|] eqn:E.
    + rewrite filter_cons_False by (simpl; congruence). rewrite IH. simpl.
      by rewrite <- app_assoc, Nat.add_succ_r.
    + rewrite filter_cons_True by done. rewrite print_then, IH. done.
Qed.

Lemma code_step_eq (fl : list string) (tuples : list (string * string))
    (parts : list string) :
  code_step env name fl tuples parts
  = (code_msgs env name fl tuples,
     Return (parts ++ code_parts env parts tuples, length (blocks_of env tuples))).
Proof.
  unfold code_step, code_msgs, code_parts, code_sep.
  destruct tuples as [|t tuples]; [by rewrite app_nil_r|].
  set (ts := t :: tuples).
  erewrite bind_Return by apply read_files_eq.
  unfold printed, outcome. simpl fst. simpl snd.
  rewrite list_fmap_compose.
  destruct (_ && _).
  - rewrite print_then. simpl. f_equal. f_equal. f_equal.
    destruct (last_part_has_text parts); by rewrite <- ?app_assoc.
  - simpl. rewrite app_nil_r. f_equal. f_equal. f_equal.
    destruct (last_part_has_text parts); by rewrite <- ?app_assoc.
Qed.
End Assembly.

Section AssemblyWhole.
Context (env : Env) (root : Path) (verb name : string).

Lemma path_tuples_length (fl : list string) :
  length (path_tuples env root fl) = length fl.
Proof.
  unfold path_tuples. rewrite (Permutation_length (sorted_by_perm _ _)).
  apply length_fmap.
Qed.

Lemma missing_tracked_length (fl : list string) :
  length (missing env root fl) + length (tracked env root fl) = length fl.
Proof.
  unfold missing, tracked, missing_files, files_to_process.
  rewrite !length_fmap, <- path_tuples_length.
  induction (path_tuples env root fl) as [|t ts IH]; [done|].
  rewrite !filter_cons. destruct (Path_is_file env t.2) eqn:E.
  - rewrite decide_False, decide_True by congruence. simpl. lia.
  - rewrite decide_True, decide_False by congruence. simpl. lia.
Qed.

Lemma special_text_has_text (file : option string) :
  Py.truthy (special_text env file) = true →
  Py.isspace (special_text env file) = false.
Proof.
  unfold special_text. destruct file as [p|]; [|done].
  destruct (_ && _); [|done].
  destruct (Path_read_text env (Path_of_str p)); [|done].
  apply strip_not_isspace.
Qed.

Lemma all_parts_nil (sd : scope_dict) :
  missing env root (default [] (files sd)) = [] →
  all_parts env root sd = [] →
  Py.truthy (special_text env (context_file sd)) = false
  ∧ default [] (files sd) = []
  ∧ Py.truthy (special_text env (prompt_file sd)) = false.
Proof.
  intros Hm. unfold all_parts, opt_part.
  pose proof (missing_tracked_length (default [] (files sd))) as Hlen.
  rewrite Hm in Hlen. simpl in Hlen.
  destruct (Py.truthy (special_text env (context_file sd))); [done|].
  simpl. unfold code_parts, code_sep. simpl.
  destruct (tracked env root (default [] (files sd))) as [|t ts]; [|done].
  simpl. unfold prompt_parts, prompt_sep. simpl.
  destruct (Py.truthy (special_text env (prompt_file sd))); [done|].
  intros _. split_and!; [done| |done].
  destruct (default [] (files sd)); [done|simpl in Hlen; lia].
Qed.

Lemma all_parts_not_blank (sd : scope_dict) :
  all_parts env root sd ≠ [] →
  forallb Py.isspace (all_parts env root sd) = false.
Proof.
  unfold all_parts, opt_part.
  destruct (Py.truthy (special_text env (context_file sd))) eqn:Hc.
  { intros _. simpl. by rewrite special_text_has_text. }
  simpl. unfold code_parts, code_sep. simpl.
  destruct (tracked env root (default [] (files sd))) as [|t ts]; [|done].
  simpl. unfold prompt_parts, prompt_sep. simpl.
  destruct (Py.truthy (special_text env (prompt_file sd))) eqn:Hp; [|done].
  intros _. simpl. by rewrite special_text_has_text.
Qed.

(** [assemble_scope] when a tracked file is missing. *)
Lemma assemble_scope_missing (sd : scope_dict) :
  missing env root (default [] (files sd)) ≠ [] →
  assemble_scope env sd root verb name
  = (special_msgs env root name
       WarnContextUnreadable WarnContextMissing (context_file sd)
     ++ ErrMissingFiles verb name
        :: (ErrMissingItem <$> Py.sorted (missing env root (default [] (files sd)))),
     SysExit 1).
Proof.
  intros Hm. unfold assemble_scope.
  erewrite bind_Return by apply context_step_eq.
  fold (missing env root (default [] (files sd))).
  destruct (missing env root (default [] (files sd))) as [|m ms] eqn:E; [done|].
  rewrite print_then.
  erewrite bind_Return by apply print_all_eq.
  unfold printed, outcome. simpl. by rewrite app_nil_r.
Qed.

(** [assemble_scope] when every tracked file is there. *)
Lemma assemble_scope_present (sd : scope_dict) :
  missing env root (default [] (files sd)) = [] →
  assemble_scope env sd root verb name
  = if bool_decide (all_parts env root sd = []) then
      (step_msgs env root name sd ++ [NoteCompletelyEmpty name verb],
       Return ("", 0, 0, name))
    else
      (step_msgs env root name sd,
       Return (final_text (all_parts env root sd),
               length (blocks_of env (tracked env root (default [] (files sd)))),
               String.length (final_text (all_parts env root sd)),
               name)).
Proof.
  intros Hm. unfold assemble_scope.
  etrans.
  { eapply bind_Return_eq; [apply context_step_eq|]. cbv beta iota.
    fold (missing env root (default [] (files sd))). rewrite Hm.
    fold (tracked env root (default [] (files sd))).
    eapply bind_Return_eq; [apply code_step_eq|]. cbv beta iota.
    eapply bind_Return_eq; [apply prompt_step_eq|]. cbv beta iota.
    apply run_eta. }
  rewrite !app_nil_l. fold (all_parts env root sd).
  unfold finish_step, step_msgs.
  case_bool_decide as Hnil.
  - apply (all_parts_nil sd Hm) in Hnil as Hparts.
    destruct Hparts as (-> & -> & ->). rewrite Hnil. simpl.
    unfold printed, outcome. simpl. by rewrite !app_assoc.
  - rewrite all_parts_not_blank by done. simpl.
    unfold printed, outcome. simpl. by rewrite !app_nil_r.
Qed.
End AssemblyWhole.

(** ** Display paths *)

Lemma split_nonempty (c : ascii) (s : string) : Py.split c s ≠ [].
Proof.
  destruct s as [|a s]; [done|]. simpl.
  destruct (Py.split c s); [done|]. by destruct (ascii_dec a c).
Qed.

Lemma split_parts (s : string) :
  Forall (λ x, ∀ r, x ≠ String "/" r) (Py.split "/" s).
Proof.
  induction s as [|a s IH]; [by repeat constructor|].
  simpl. pose proof (split_nonempty "/" s) as Hne'.
  destruct (Py.split "/" s) as [|h t]; [done|].
  apply Forall_cons in IH as [Hh Ht].
  destruct (ascii_dec a "/") as [->|Hne].
  - by repeat constructor.
  - constructor; [|done]. intros r [= -> _]. done.
Qed.

Lemma Path_of_str_parts (s : string) : Forall plain_part (parts (Path_of_str s)).
Proof.
  unfold Path_of_str. simpl. apply Forall_forall. intros x Hx.
  apply list_elem_of_filter in Hx as [Hp Hx]. split.
  - intros ->. done.
  - pose proof (split_parts s) as Hs. rewrite Forall_forall in Hs. by apply Hs.
Qed.

Lemma normpath_parts_Forall (P : string → Prop) (ps : list string) :
  Forall P ps → Forall P (normpath_parts ps).
Proof.
  unfold normpath_parts. intros Hps.
  assert (Hgen : ∀ stk, Forall P stk →
            Forall P (fold_left (λ stk c, if String.eqb c ".." then tail stk
                                          else c :: stk) ps stk)).
  { induction Hps as [|c ps Hc Hps IH]; intros stk Hstk; [done|].
    simpl. apply IH. destruct (String.eqb c "..").
    - destruct stk; [done|]. by apply Forall_cons in Hstk as [_ ?].
    - by constructor. }
  apply List.Forall_rev, Hgen. constructor.
Qed.

Lemma join_with_head (sep : string) (a : ascii) (r : string) (l : list string) :
  ∃ r', Py.join_with sep (String a r :: l) = String a r'.
Proof. destruct l; simpl; eauto. Qed.

Lemma startswith_slash_false (a : ascii) (r : string) :
  a ≠ "/"%char → Py.startswith (String a r) "/" = false.
Proof.
  intros Ha. unfold Py.startswith. cbn [String.prefix].
  destruct (ascii_dec "/" a) as [<-|]; done.
Qed.

Lemma startswith_dot (s pre : string) :
  Py.startswith s (String "." pre) = true → ∃ r, s = String "." r.
Proof.
  unfold Py.startswith. destruct s as [|a r]; [done|]. cbn [String.prefix].
  destruct (ascii_dec "." a) as [<-|]; [by eexists|done].
Qed.

(** A relative path computed by [relpath] is ["."] or starts with a
    component: it never starts at the root. *)
Lemma relpath_not_rooted (p base : Path) :
  Forall plain_part (parts p) →
  Py.startswith (relpath p base) "/" = false.
Proof.
  intros Hp. unfold relpath.
  set (n := length (normpath_parts (parts base)) - _).
  set (i := commonprefix_len _ _).
  assert (Hall : Forall plain_part
            (replicate n ".." ++ drop i (normpath_parts (parts p)))).
  { apply Forall_app. split.
    - apply Forall_replicate. split; [done|]. by intros r.
    - apply Forall_drop. by apply normpath_parts_Forall. }
  destruct (replicate n ".." ++ drop i (normpath_parts (parts p)))
    as [|x l] eqn:E; [done|].
  apply Forall_cons in Hall as [[Hx1 Hx2] _].
  destruct x as [|a r]; [done|].
  destruct (join_with_head "/" a r l) as [r' ->].
  apply startswith_slash_false. intros ->. by apply (Hx2 r).
Qed.

(** Every display path starts with a dot: it is [./], [./...] or
    [../...], so no tracked file is ever labelled with a bare name. *)
Lemma get_display_path_dot (env : Env) (s : string) (base : Path) :
  ∃ r, get_display_path env (Path_of_str s) base = String "." r.
Proof.
  unfold get_display_path.
  set (p := if is_absolute (Path_of_str s) then Path_of_str s else _).
  assert (Hp : Forall plain_part (parts p)).
  { unfold p. destruct (is_absolute (Path_of_str s)); apply Path_of_str_parts. }
  pose proof (relpath_not_rooted p base Hp) as Hrel.
  set (rel := relpath p base) in *.
  set (dp := Path_str (Path_of_str rel)).
  assert (Hdp : Py.startswith dp "/" = false).
  { unfold dp, Path_str. unfold Path_of_str at 1. simpl is_absolute.
    rewrite Hrel.
    pose proof (Path_of_str_parts rel) as Hparts.
    destruct (parts (Path_of_str rel)) as [|x l]; [done|].
    apply Forall_cons in Hparts as [[Hx1 Hx2] _].
    destruct x as [|a r]; [done|].
    destruct (join_with_head "/" a r l) as [r' ->].
    apply startswith_slash_false. intros ->. by apply (Hx2 r). }
  assert (Habs : is_absolute (Path_of_str dp) = false) by done.
  rewrite Habs, orb_false_r.
  destruct (Py.startswith dp "../") eqn:E1.
  { simpl. destruct (String.eqb_spec dp "."); [by eexists|].
    by apply startswith_dot in E1. }
  destruct (Py.startswith dp "./") eqn:E2.
  { simpl. destruct (String.eqb_spec dp "."); [by eexists|].
    by apply startswith_dot in E2. }
  simpl. destruct (String.eqb_spec dp "."); simpl; by eexists.
Qed.

(** ** The example of the specification *)

Lemma missing_singleton_present (env : Env) (root : Path) (f : string) :
  Path_is_file env (Path_of_str f) = true →
  missing env root [f] = []
  ∧ tracked env root [f] = [(get_display_path env (Path_of_str f) root, f)].
Proof.
  intros Hf. unfold missing, tracked, missing_files, files_to_process, path_tuples.
  simpl. rewrite filter_cons_False, filter_cons_True by (simpl; congruence).
  done.
Qed.

(** C1 (as amended).  A scope whose context file trims to ["C"], whose
    only tracked file exists, has the display path [./f.txt] and trims to
    ["X"], and whose prompt file trims to ["P"] is assembled into exactly
    [C], a blank line, the manifest listing [./f.txt], a blank line, the
    fenced block labelled [./f.txt:] holding [X], a blank line, [P] and
    one line terminator; one file is counted and nothing is printed. *)
Theorem C1_assemble_exact_text (env : Env) (root : Path) (verb name : string)
    (sd : scope_dict) (f c p tf tc tp : string) :
  files sd = Some [f] →
  context_file sd = Some c →
  prompt_file sd = Some p →
  Py.truthy c = true → Py.truthy p = true →
  Path_is_file env (Path_of_str c) = true →
  Path_read_text env (Path_of_str c) = Some tc → Py.strip tc = "C" →
  Path_is_file env (Path_of_str f) = true →
  Path_read_text env (Path_of_str f) = Some tf → Py.strip tf = "X" →
  get_display_path env (Path_of_str f) root = "./f.txt" →
  Path_is_file env (Path_of_str p) = true →
  Path_read_text env (Path_of_str p) = Some tp → Py.strip tp = "P" →
  assemble_scope env sd root verb name
  = ([], Return (c1_text, 1, String.length c1_text, name)).
Proof.
  intros Hfiles Hctx Hprm Hc Hp Hcf Hcr Hcs Hff Hfr Hfs Hdp Hpf Hpr Hps.
  destruct (missing_singleton_present env root f Hff) as [Hm Ht].
  rewrite assemble_scope_present by (by rewrite Hfiles).
  assert (Hparts : all_parts env root sd
            = ["C"; Py.nl +:+ Py.nl; PROJECT_STRUCTURE_OPEN; manifest_line "./f.txt";
               PROJECT_STRUCTURE_CLOSE; file_block "./f.txt" "X"; "P"]).
  { unfold all_parts, special_text. rewrite Hfiles, Hctx, Hprm. simpl default.
    rewrite Ht, Hdp, Hc, Hp, Hcf, Hpf, Hcr, Hpr, Hcs, Hps. simpl andb. cbv iota.
    unfold code_parts, blocks_of, block_of. simpl omap. rewrite Hfr.
    cbn [fmap option_fmap option_map]. rewrite Hfs. done. }
  assert (Hmsgs : step_msgs env root name sd = []).
  { unfold step_msgs, special_msgs, code_msgs.
    rewrite Hfiles, Hctx, Hprm. simpl default.
    rewrite Ht, Hc, Hp, Hcf, Hpf, Hcr, Hpr.
    unfold unreadable, blocks_of, block_of. simpl omap.
    rewrite filter_cons_False by (simpl; congruence). rewrite Hfr. done. }
  rewrite Hparts, Hmsgs, Hfiles. simpl default. rewrite Ht.
  unfold blocks_of, block_of. simpl omap. rewrite Hfr. done.
Qed.

Lemma C1_assemble_exact_text_witness :
  assemble_scope c1_env c1_scope demo_root "copy" "default"
  = ([], Return (c1_text, 1, String.length c1_text, "default")).
Proof.
  apply (C1_assemble_exact_text c1_env demo_root "copy" "default" c1_scope
           "/proj/f.txt" "/proj/ctx.md" "/proj/ask.md"
           ("X" +:+ Py.nl) ("C" +:+ Py.nl) ("P" +:+ Py.nl));
    vm_compute; reflexivity.
Defined.

(** C1 (as the specification states it) fails: for the project above the
    assembler returns [c1_text], whose manifest line and block label are
    [./f.txt], and not the specification's text with the bare [f.txt]. *)
Lemma C1_counterexample :
  Py.strip ("C" +:+ Py.nl) = "C" ∧ Py.strip ("X" +:+ Py.nl) = "X"
  ∧ Py.strip ("P" +:+ Py.nl) = "P"
  ∧ ∃ text n len,
      outcome (assemble_scope c1_env c1_scope demo_root "copy" "default")
      = Return (text, n, len, "default")
      ∧ text ≠ c1_spec_text.
Proof.
  split_and!; try (vm_compute; reflexivity).
  exists c1_text, 1, (String.length c1_text). split.
  - vm_compute. reflexivity.
  - vm_compute. discriminate.
Qed.

(** ** Missing tracked files *)

Section Missing.
Context (env : Env) (root : Path).

Local Abbreviation display g := (get_display_path env (Path_of_str g) root).

Lemma elem_of_path_tuples (fl : list string) (t : string * string * Path) :
  t ∈ path_tuples env root fl
  ↔ ∃ g, g ∈ fl ∧ t = (display g, g, Path_of_str g).
Proof.
  unfold path_tuples. rewrite sorted_by_perm, list_elem_of_fmap.
  split; intros (g & H1 & H2); eauto.
Qed.

Lemma elem_of_missing (fl : list string) (dp : string) :
  dp ∈ missing env root fl
  ↔ ∃ g, g ∈ fl ∧ Path_is_file env (Path_of_str g) = false ∧ dp = display g.
Proof.
  unfold missing, missing_files.
  rewrite list_elem_of_fmap. split.
  - intros (t & -> & Ht). apply list_elem_of_filter in Ht as [Hf Ht].
    apply elem_of_path_tuples in Ht as (g & Hg & ->). eauto.
  - intros (g & Hg & Hf & ->). exists (display g, g, Path_of_str g).
    split; [done|]. apply list_elem_of_filter. split; [done|].
    apply elem_of_path_tuples. eauto.
Qed.

Lemma elem_of_tracked (fl : list string) (item : string * string) :
  item ∈ tracked env root fl
  ↔ ∃ g, g ∈ fl ∧ Path_is_file env (Path_of_str g) = true ∧ item = (display g, g).
Proof.
  unfold tracked, files_to_process.
  rewrite list_elem_of_fmap. split.
  - intros (t & -> & Ht). apply list_elem_of_filter in Ht as [Hf Ht].
    apply elem_of_path_tuples in Ht as (g & Hg & ->). eauto.
  - intros (g & Hg & Hf & ->). exists (display g, g, Path_of_str g).
    split; [done|]. apply list_elem_of_filter. split; [done|].
    apply elem_of_path_tuples. eauto.
Qed.

Lemma missing_nil_iff (fl : list string) :
  missing env root fl = []
  ↔ ∀ g, g ∈ fl → Path_is_file env (Path_of_str g) = true.
Proof.
  split.
  - intros Hm g Hg. destruct (Path_is_file env (Path_of_str g)) eqn:E; [done|].
    assert (display g ∈ missing env root fl) as Hin
      by (apply elem_of_missing; eauto).
    rewrite Hm in Hin. by apply elem_of_nil in Hin.
  - intros Hall. destruct (missing env root fl) as [|dp l] eqn:E; [done|].
    assert (dp ∈ missing env root fl) as Hin by (rewrite E; left).
    apply elem_of_missing in Hin as (g & Hg & Hf & _).
    rewrite (Hall g Hg) in Hf. done.
Qed.

Lemma special_msgs_no_missing_item (name : string) (u : string → msg)
    (m : string → string → msg) (file : option string) (dp : string) :
  (∀ x, u x ≠ ErrMissingItem dp) → (∀ x y, m x y ≠ ErrMissingItem dp) →
  ErrMissingItem dp ∉ special_msgs env root name u m file.
Proof.
  intros Hu Hm Hin. unfold special_msgs in Hin.
  repeat case_match;
    (by apply elem_of_nil in Hin)
    || (apply list_elem_of_singleton in Hin; symmetry in Hin;
        by (apply Hu in Hin || apply Hm in Hin)).
Qed.
End Missing.

(** C2.  When a tracked file of the scope is not a regular file, the
    assembly ends with [sys.exit(1)] and returns no text; the error lines
    it prints name the display path of every missing tracked file, and of
    no other. *)
Theorem C2_missing_tracked_file_aborts (env : Env) (root : Path)
    (verb name : string) (sd : scope_dict) (f : string) :
  f ∈ default [] (files sd) →
  Path_is_file env (Path_of_str f) = false →
  ∃ out,
    assemble_scope env sd root verb name = (out, SysExit 1)
    ∧ ErrMissingFiles verb name ∈ out
    ∧ ∀ dp, ErrMissingItem dp ∈ out
            ↔ ∃ g, g ∈ default [] (files sd)
                   ∧ Path_is_file env (Path_of_str g) = false
                   ∧ dp = get_display_path env (Path_of_str g) root.
Proof.
  intros Hf Hmiss.
  assert (missing env root (default [] (files sd)) ≠ []) as Hne.
  { intros Hm. rewrite missing_nil_iff in Hm. rewrite (Hm f Hf) in Hmiss. done. }
  eexists. split; [by apply assemble_scope_missing|]. split.
  - apply elem_of_app. right. left.
  - intros dp. rewrite <- elem_of_missing, elem_of_app, elem_of_cons.
    rewrite list_elem_of_fmap. split.
    + intros [Hin|[?|(x & [= ->] & Hx)]]; [|done|].
      * by apply special_msgs_no_missing_item in Hin.
      * by rewrite sorted_perm in Hx.
    + intros Hin. right. right. exists dp. by rewrite sorted_perm.
Qed.

Lemma C2_missing_tracked_file_aborts_witness :
  ∃ out,
    assemble_scope c2_env c2_scope demo_root "copy" "default" = (out, SysExit 1)
    ∧ ErrMissingFiles "copy" "default" ∈ out
    ∧ ∀ dp, ErrMissingItem dp ∈ out
            ↔ ∃ g, g ∈ default [] (files c2_scope)
                   ∧ Path_is_file c2_env (Path_of_str g) = false
                   ∧ dp = get_display_path c2_env (Path_of_str g) demo_root.
Proof.
  apply (C2_missing_tracked_file_aborts c2_env demo_root "copy" "default"
           c2_scope "/proj/gone.txt").
  - simpl. right. left.
  - vm_compute. reflexivity.
Defined.

Example c2_run :
  assemble_scope c2_env c2_scope demo_root "copy" "default"
  = ([ErrMissingFiles "copy" "default"; ErrMissingItem "./gone.txt"], SysExit 1).
Proof. vm_compute. reflexivity. Qed.

(** ** The order of the code section *)

Section Order.
Context (env : Env) (root : Path).

Local Abbreviation display g := (get_display_path env (Path_of_str g) root).
Local Abbreviation displays fl :=
  ((λ g, get_display_path env (Path_of_str g) root) <$> fl).

Lemma filter_all {A} (P : A → Prop) `{∀ x, Decision (P x)} (l : list A) :
  (∀ x, x ∈ l → P x) → filter P l = l.
Proof.
  induction l as [|x l IH]; intros Hall; [done|].
  rewrite filter_cons_True by (apply Hall; left).
  f_equal. apply IH. intros y Hy. apply Hall. by right.
Qed.

Lemma tracked_all_present (fl : list string) :
  (∀ g, g ∈ fl → Path_is_file env (Path_of_str g) = true) →
  tracked env root fl = (λ item, item.1) <$> path_tuples env root fl.
Proof.
  intros Hall. unfold tracked, files_to_process. f_equal.
  apply filter_all. intros t Ht.
  apply elem_of_path_tuples in Ht as (g & Hg & ->). by apply Hall.
Qed.

Lemma path_tuples_keys (fl : list string) :
  (λ item, item.1.1) <$> path_tuples env root fl = Py.sorted (displays fl).
Proof.
  unfold path_tuples. rewrite sorted_by_fmap, <- list_fmap_compose. done.
Qed.

(** With every tracked file present, the display paths are visited in
    sorted order ... *)
Lemma tracked_display_sorted (fl : list string) :
  (∀ g, g ∈ fl → Path_is_file env (Path_of_str g) = true) →
  (tracked env root fl).*1 = Py.sorted (displays fl).
Proof.
  intros Hall. rewrite tracked_all_present by done.
  rewrite <- list_fmap_compose. apply path_tuples_keys.
Qed.

(** ... and they are the stored paths, each once. *)
Lemma tracked_stored_perm (fl : list string) :
  (∀ g, g ∈ fl → Path_is_file env (Path_of_str g) = true) →
  (tracked env root fl).*2 ≡ₚ fl.
Proof.
  intros Hall. rewrite tracked_all_present by done.
  rewrite <- list_fmap_compose. unfold path_tuples.
  rewrite sorted_by_perm, <- list_fmap_compose.
  by rewrite (list_fmap_ext _ id fl), list_fmap_id.
Qed.

Lemma tracked_labels (fl : list string) :
  Forall (λ item, item.1 = display item.2) (tracked env root fl).
Proof.
  apply Forall_forall. intros item Hin.
  by apply elem_of_tracked in Hin as (g & _ & _ & ->).
Qed.

Lemma path_tuples_perm (fl fl' : list string) :
  NoDup (displays fl) → fl' ≡ₚ fl →
  path_tuples env root fl' = path_tuples env root fl.
Proof.
  intros Hnd Hp. unfold path_tuples. symmetry. apply sorted_by_perm_eq.
  - by rewrite <- list_fmap_compose.
  - by rewrite Hp.
Qed.
End Order.

Lemma code_parts_nonempty (env : Env) (before : list string)
    (tuples : list (string * string)) :
  tuples ≠ [] →
  code_parts env before tuples
  = code_sep before ++ [PROJECT_STRUCTURE_OPEN] ++ (manifest_line <$> tuples.*1)
    ++ [PROJECT_STRUCTURE_CLOSE] ++ blocks_of env tuples.
Proof. by destruct tuples. Qed.

Lemma code_msgs_nonempty (env : Env) (name : string) (fl : list string)
    (tuples : list (string * string)) :
  tuples ≠ [] →
  code_msgs env name fl tuples
  = (WarnFileUnreadable <$> unreadable env tuples)
    ++ (if (length (blocks_of env tuples) =? 0)%nat && negb (bool_decide (fl = []))
        then [WarnNoFilesRead name] else []).
Proof. by destruct tuples. Qed.

(** C3.  For a scope whose tracked files all exist, the code section goes
    by the display paths in lexicographic order: the manifest lists the
    sorted display paths and the fenced blocks follow in the same order,
    each labelled with the display path of its file.  The order the paths
    are stored in does not matter: any rearrangement of the file list
    gives the same sorted display paths, and, the display paths being
    pairwise distinct, the same run. *)
Theorem C3_code_section_in_display_order (env : Env) (root : Path)
    (verb name : string) (sd : scope_dict) (fl : list string) :
  files sd = Some fl → fl ≠ [] →
  (∀ g, g ∈ fl → Path_is_file env (Path_of_str g) = true) →
  let dps := Py.sorted ((λ g, get_display_path env (Path_of_str g) root) <$> fl) in
  Sorted String.le dps
  ∧ dps ≡ₚ (λ g, get_display_path env (Path_of_str g) root) <$> fl
  ∧ (∃ out before after tr,
       tr.*1 = dps ∧ tr.*2 ≡ₚ fl
       ∧ Forall (λ item, item.1 = get_display_path env (Path_of_str item.2) root) tr
       ∧ let text :=
           final_text (before ++ [PROJECT_STRUCTURE_OPEN]
                       ++ (manifest_line <$> dps) ++ [PROJECT_STRUCTURE_CLOSE]
                       ++ blocks_of env tr ++ after) in
         assemble_scope env sd root verb name
         = (out, Return (text, length (blocks_of env tr), String.length text, name)))
  ∧ ∀ fl', fl' ≡ₚ fl →
      Py.sorted ((λ g, get_display_path env (Path_of_str g) root) <$> fl') = dps
      ∧ (NoDup ((λ g, get_display_path env (Path_of_str g) root) <$> fl) →
         assemble_scope env (with_files sd fl') root verb name
         = assemble_scope env sd root verb name).
Proof.
  intros Hfiles Hne Hall dps. split_and!.
  - apply sorted_Sorted.
  - apply sorted_perm.
  - assert (Hm : missing env root (default [] (files sd)) = [])
      by (rewrite Hfiles; by apply missing_nil_iff).
    pose proof (tracked_display_sorted env root fl Hall) as Hdps.
    assert (Htr : tracked env root fl ≠ []).
    { intros Hnil. pose proof (missing_tracked_length env root fl) as Hlen.
      rewrite Hfiles in Hm. simpl in Hm. rewrite Hm, Hnil in Hlen.
      destruct fl; [done|simpl in Hlen; lia]. }
    set (ctx := opt_part (special_text env (context_file sd))).
    assert (Hparts : ∃ after, all_parts env root sd
              = (ctx ++ code_sep ctx) ++ [PROJECT_STRUCTURE_OPEN]
                ++ (manifest_line <$> dps) ++ [PROJECT_STRUCTURE_CLOSE]
                ++ blocks_of env (tracked env root fl) ++ after).
    { eexists. unfold all_parts. rewrite Hfiles. simpl default. fold ctx.
      rewrite code_parts_nonempty by done. rewrite Hdps. fold dps.
      rewrite <- !app_assoc. reflexivity. }
    destruct Hparts as [after Hparts].
    exists (step_msgs env root name sd), (ctx ++ code_sep ctx), after,
      (tracked env root fl).
    split_and!; [done|by apply tracked_stored_perm|apply tracked_labels|].
    rewrite assemble_scope_present by done.
    rewrite bool_decide_false.
    + rewrite Hparts, Hfiles. simpl default. by rewrite <- !app_assoc.
    + rewrite Hparts. intros Hnil. apply app_nil in Hnil as [_ Hnil]. done.
  - intros fl' Hp. split.
    + apply sorted_perm_eq. by rewrite Hp.
    + intros Hnd.
      assert (Hall' : ∀ g, g ∈ fl' → Path_is_file env (Path_of_str g) = true)
        by (intros g Hg; apply Hall; by rewrite <- Hp).
      assert (Htr : tracked env root fl' = tracked env root fl)
        by (unfold tracked; by rewrite (path_tuples_perm env root fl fl')).
      assert (Hnil : bool_decide (fl' = []) = bool_decide (fl = [])).
      { apply bool_decide_ext. split; intros ->.
        - by apply Permutation_nil_l in Hp.
        - by apply Permutation_nil_r in Hp. }
      rewrite !assemble_scope_present
        by (simpl; rewrite ?Hfiles; by apply missing_nil_iff).
      unfold all_parts, step_msgs, code_msgs, with_files. simpl.
      rewrite Hfiles. simpl default. by rewrite Htr, Hnil.
Qed.

Lemma C3_code_section_in_display_order_witness :
  ∃ out text n len,
    assemble_scope c3_env c3_scope demo_root "copy" "default"
    = (out, Return (text, n, len, "default"))
    ∧ Py.sorted ((λ g, get_display_path c3_env (Path_of_str g) demo_root)
                   <$> ["/proj/a.txt"; "/proj/b.txt"])
      = Py.sorted ((λ g, get_display_path c3_env (Path_of_str g) demo_root)
                     <$> ["/proj/b.txt"; "/proj/a.txt"]).
Proof.
  assert (Hall : ∀ g, g ∈ ["/proj/b.txt"; "/proj/a.txt"] →
                      Path_is_file c3_env (Path_of_str g) = true).
  { apply Forall_forall. repeat constructor. }
  destruct (C3_code_section_in_display_order c3_env demo_root "copy" "default"
              c3_scope ["/proj/b.txt"; "/proj/a.txt"] eq_refl
              ltac:(discriminate) Hall)
    as (_ & _ & (out & before & after & tr & _ & _ & _ & Hrun) & Hperm).
  eexists _, _, _, _. split; [exact Hrun|].
  apply (Hperm ["/proj/a.txt"; "/proj/b.txt"]). apply Permutation_swap.
Defined.

Example c3_run :
  assemble_scope c3_env c3_scope demo_root "copy" "default"
  = let text := unlines ["Project Structure:"; "```"; "./a.txt"; "./b.txt"; "```";
                         ""; "./a.txt:"; "```"; "A"; "```"; "";
                         "./b.txt:"; "```"; "B"; "```"] in
    ([], Return (text, 2, String.length text, "default")).
Proof. vm_compute. reflexivity. Qed.

(** ** Missing context or prompt file *)

Lemma special_text_missing (env : Env) (p : string) :
  Path_is_file env (Path_of_str p) = false → special_text env (Some p) = "".
Proof. intros H. unfold special_text. rewrite H. by rewrite andb_false_r. Qed.

Lemma assemble_scope_returns (env : Env) (root : Path) (verb name : string)
    (sd : scope_dict) :
  missing env root (default [] (files sd)) = [] →
  ∃ a, outcome (assemble_scope env sd root verb name) = Return a.
Proof.
  intros Hm. rewrite assemble_scope_present by done.
  case_bool_decide; eauto.
Qed.

(** C4.  A context file (respectively prompt file) that is set but is not
    a regular file does not make the assembly fail.  For every scope
    record the run ends as the run of the same scope with that file not
    set: the same returned text, counts and name, so the section is left
    out and the other sections are as they would be without it (or the
    same exit, when a tracked file is missing, which is fatal on its own
    account).  The warning for the context file is printed in every run,
    the other messages being those of the run without it; the warning
    for the prompt file is printed when the run gets to the prompt step.
    With every tracked file a regular file the run returns. *)
Theorem C4_missing_special_file_only_warns (env : Env) (root : Path)
    (verb name : string) (sd : scope_dict) :
  (∀ c, context_file sd = Some c → Py.truthy c = true →
        Path_is_file env (Path_of_str c) = false →
        let r := assemble_scope env sd root verb name in
        let r' := assemble_scope env (without_context sd) root verb name in
        printed r
        = WarnContextMissing (get_display_path env (Path_of_str c) root) name
          :: printed r'
        ∧ outcome r = outcome r')
  ∧ (∀ p, prompt_file sd = Some p → Py.truthy p = true →
          Path_is_file env (Path_of_str p) = false →
          let r := assemble_scope env sd root verb name in
          let r' := assemble_scope env (without_prompt sd) root verb name in
          outcome r = outcome r'
          ∧ ((∀ g, g ∈ default [] (files sd) →
                   Path_is_file env (Path_of_str g) = true) →
             ∃ l1 l2,
               printed r
               = l1 ++ WarnPromptMissing (get_display_path env (Path_of_str p) root)
                         name :: l2
               ∧ printed r' = l1 ++ l2))
  ∧ ((∀ g, g ∈ default [] (files sd) → Path_is_file env (Path_of_str g) = true) →
     ∃ a, outcome (assemble_scope env sd root verb name) = Return a).
Proof.
  split_and!.
  - intros c Hctx Hc Hcf r r'. subst r r'.
    assert (Hparts : all_parts env root (without_context sd) = all_parts env root sd).
    { unfold all_parts. simpl. by rewrite Hctx, (special_text_missing env c Hcf). }
    assert (Hwarn : special_msgs env root name WarnContextUnreadable
                      WarnContextMissing (context_file sd)
              = [WarnContextMissing (get_display_path env (Path_of_str c) root) name]).
    { unfold special_msgs. by rewrite Hctx, Hc, Hcf. }
    assert (Hmsgs : step_msgs env root name sd
              = WarnContextMissing (get_display_path env (Path_of_str c) root) name
                :: step_msgs env root name (without_context sd)).
    { unfold step_msgs. by rewrite Hwarn. }
    destruct (decide (missing env root (default [] (files sd)) = [])) as [Hm|Hm].
    + rewrite !assemble_scope_present by done.
      rewrite Hparts, Hmsgs; change (files (without_context sd)) with (files sd).
      by case_bool_decide.
    + rewrite !assemble_scope_missing by done.
      change (files (without_context sd)) with (files sd).
      by rewrite Hwarn.
  - intros p Hprm Hp Hpf r r'. subst r r'.
    assert (Hparts : all_parts env root (without_prompt sd) = all_parts env root sd).
    { unfold all_parts. simpl. by rewrite Hprm, (special_text_missing env p Hpf). }
    assert (Hmsgs : step_msgs env root name sd
              = step_msgs env root name (without_prompt sd)
                ++ [WarnPromptMissing (get_display_path env (Path_of_str p) root) name]).
    { unfold step_msgs, special_msgs. simpl. rewrite Hprm, Hp, Hpf.
      by rewrite app_nil_r, <- !app_assoc. }
    split.
    + destruct (decide (missing env root (default [] (files sd)) = [])) as [Hm|Hm].
      * rewrite !assemble_scope_present by done.
        rewrite Hparts; change (files (without_prompt sd)) with (files sd).
        by case_bool_decide.
      * by rewrite !assemble_scope_missing by done.
    + intros Hall.
      assert (Hm : missing env root (default [] (files sd)) = [])
        by (by apply missing_nil_iff).
      rewrite !assemble_scope_present by done.
      rewrite Hparts, Hmsgs; change (files (without_prompt sd)) with (files sd).
      case_bool_decide; simpl.
      * exists (step_msgs env root name (without_prompt sd)),
          [NoteCompletelyEmpty name verb].
        split; [by rewrite <- app_assoc|done].
      * exists (step_msgs env root name (without_prompt sd)), [].
        split; [done|by rewrite app_nil_r].
  - intros Hall. apply assemble_scope_returns. by apply missing_nil_iff.
Qed.

Lemma C4_missing_special_file_only_warns_witness :
  (∃ a, outcome (assemble_scope c4_env c4_scope demo_root "copy" "default") = Return a)
  ∧ outcome (assemble_scope c4_env c4_scope demo_root "copy" "default")
    = outcome (assemble_scope c4_env (without_context c4_scope) demo_root
                 "copy" "default")
  ∧ outcome (assemble_scope c4_env c4_scope demo_root "copy" "default")
    = outcome (assemble_scope c4_env (without_prompt c4_scope) demo_root
                 "copy" "default").
Proof.
  assert (Hall : ∀ g, g ∈ default [] (files c4_scope) →
                      Path_is_file c4_env (Path_of_str g) = true).
  { apply Forall_forall. repeat constructor. }
  destruct (C4_missing_special_file_only_warns c4_env demo_root "copy" "default"
              c4_scope) as (Hc & Hp & Hret).
  destruct (Hc "/proj/nope.md" eq_refl eq_refl eq_refl) as (_ & Hc2).
  destruct (Hp "/proj/nope.md" eq_refl eq_refl eq_refl) as (Hp2 & _).
  split_and!; [exact (Hret Hall)|exact Hc2|exact Hp2].
Defined.

Example c4_run :
  assemble_scope c4_env c4_scope demo_root "copy" "default"
  = let text := unlines ["Project Structure:"; "```"; "./a.txt"; "```"; "";
                         "./a.txt:"; "```"; "A"; "```"] in
    ([WarnContextMissing "./nope.md" "default";
      WarnPromptMissing "./nope.md" "default"],
     Return (text, 1, String.length text, "default")).
Proof. vm_compute. reflexivity. Qed.

(** With a tracked file missing as well, the run exits on account of the
    tracked file; the warning for the context file is printed before. *)
Example c4_run_with_missing_tracked_file :
  assemble_scope c4_env c4_scope_bad demo_root "copy" "default"
  = ([WarnContextMissing "./nope.md" "default";
      ErrMissingFiles "copy" "default";
      ErrMissingItem "./gone.txt"],
     SysExit 1).
Proof. vm_compute. reflexivity. Qed.

(** ** Separators and the end of the text *)

Lemma append_cons (a : ascii) (s t : string) :
  String a s +:+ t = String a (s +:+ t).
Proof. reflexivity. Qed.

Lemma append_empty_r (s : string) : s +:+ "" = s.
Proof. induction s as [|a s IH]; [done|]. by rewrite append_cons, IH. Qed.

Lemma append_assoc (s t u : string) : (s +:+ t) +:+ u = s +:+ t +:+ u.
Proof. induction s as [|a s IH]; [done|]. by rewrite !append_cons, IH. Qed.

Lemma last_char_app (s t : string) :
  t ≠ "" → last_char (s +:+ t) = last_char t.
Proof.
  intros Ht. induction s as [|a s IH]; [done|].
  simpl. rewrite IH. destruct (s +:+ t) eqn:E; [|done].
  destruct s; simpl in E; [done|discriminate].
Qed.

Lemma last_char_is_Some (s : string) : s ≠ "" → ∃ c, last_char s = Some c.
Proof.
  induction s as [|a s IH]; [done|]. intros _.
  destruct s as [|b s]; [by exists a|].
  destruct IH as [c Hc]; [done|]. exists c. exact Hc.
Qed.

Lemma rstrip_id (s : string) (c : ascii) :
  last_char s = Some c → Py.isspace_char c = false → Py.rstrip s = s.
Proof.
  induction s as [|a s IH]; [done|]. intros Hl Hc.
  destruct s as [|b s].
  - simpl in *. injection Hl as ->. by rewrite Hc.
  - change (Py.rstrip (String a (String b s)))
      with (match Py.rstrip (String b s) with
            | EmptyString =>
                if Py.isspace_char a then EmptyString else String a EmptyString
            | r => String a r
            end).
    by rewrite IH.
Qed.

Lemma strip_id (s : string) (a c : ascii) (r : string) :
  s = String a r → Py.isspace_char a = false →
  last_char s = Some c → Py.isspace_char c = false →
  Py.strip s = s.
Proof.
  intros -> Ha Hl Hc. unfold Py.strip. simpl Py.lstrip. rewrite Ha.
  by apply (rstrip_id _ c).
Qed.

Lemma endswith_unfold (s suf : string) :
  Py.endswith s suf
  = if String.eqb s suf then true
    else match s with
         | EmptyString => false
         | String _ s' => Py.endswith s' suf
         end.
Proof. by destruct s. Qed.

Lemma endswith_last_char (s suf : string) :
  suf ≠ "" → Py.endswith s suf = true → last_char s = last_char suf.
Proof.
  intros Hsuf. induction s as [|a s IH]; rewrite endswith_unfold.
  - destruct (String.eqb_spec "" suf) as [<-|Hne]; done.
  - destruct (String.eqb_spec (String a s) suf) as [<-|Hne]; [done|].
    intros H. specialize (IH H). rewrite <- IH.
    destruct s; [|done]. rewrite endswith_unfold in H.
    destruct (String.eqb_spec "" suf) as [<-|Hne']; done.
Qed.

(** The assembled text, when not empty, is a text whose last character
    is no white space, followed by one line feed: one line terminator
    and no trailing blank line. *)
Lemma final_text_shape (parts : list string) :
  final_text parts = ""
  ∨ ∃ s c, final_text parts = s +:+ Py.nl
           ∧ last_char s = Some c ∧ Py.isspace_char c = false.
Proof.
  unfold final_text.
  destruct (Py.strip (Py.join parts)) as [|a r] eqn:E; [by left|].
  right. simpl Py.truthy. cbv iota.
  destruct (last_char_is_Some (String a r)) as [c Hc]; [done|].
  exists (String a r), c. split_and!; [done|done|].
  apply (strip_last (Py.join parts)). by rewrite E.
Qed.

Lemma assemble_scope_trailing_newline (env : Env) (root : Path)
    (verb name : string) (sd : scope_dict) out text n len :
  assemble_scope env sd root verb name = (out, Return (text, n, len, name)) →
  text = ""
  ∨ ∃ s c, text = s +:+ Py.nl ∧ last_char s = Some c ∧ Py.isspace_char c = false.
Proof.
  intros Hrun.
  destruct (decide (missing env root (default [] (files sd)) = [])) as [Hm|Hm].
  - rewrite assemble_scope_present in Hrun by done.
    case_bool_decide; injection Hrun as _ <- _ _; [by left|].
    apply final_text_shape.
  - by rewrite assemble_scope_missing in Hrun.
Qed.

Lemma special_text_stripped (env : Env) (file : option string) (a : ascii) (r : string) :
  special_text env file = String a r →
  Py.isspace_char a = false
  ∧ ∃ c, last_char (String a r) = Some c ∧ Py.isspace_char c = false.
Proof.
  unfold special_text. destruct file as [p|]; [|done].
  destruct (_ && _); [|done].
  destruct (Path_read_text env (Path_of_str p)) as [t|]; [|done].
  intros E. split; [by apply (strip_head t a r)|].
  destruct (last_char_is_Some (String a r)) as [c Hc]; [done|].
  exists c. split; [done|]. apply (strip_last t). by rewrite E.
Qed.

Lemma endswith_app (s suf : string) : Py.endswith (s +:+ suf) suf = true.
Proof.
  induction s as [|a s IH]; rewrite endswith_unfold.
  - change ("" +:+ suf) with suf. by rewrite String.eqb_refl.
  - rewrite append_cons. by destruct (String.eqb _ _).
Qed.

Lemma file_block_ends_blank (dp content : string) :
  Py.endswith (file_block dp content) (Py.nl +:+ Py.nl) = true.
Proof.
  unfold file_block. rewrite <- !append_assoc.
  rewrite (append_assoc _ Py.nl Py.nl). apply endswith_app.
Qed.

Lemma code_section_ends_blank (env : Env) (before : list string)
    (tuples : list (string * string)) :
  ∃ z, last (before ++ [PROJECT_STRUCTURE_CLOSE] ++ blocks_of env tuples) = Some z
       ∧ Py.endswith z (Py.nl +:+ Py.nl) = true.
Proof.
  rewrite app_assoc.
  destruct (last (blocks_of env tuples)) as [z|] eqn:E.
  - exists z. split; [by rewrite last_app, E|].
    apply last_Some_elem_of, list_elem_of_omap in E as (item & _ & Hb).
    unfold block_of in Hb.
    destruct (Path_read_text env (Path_of_str item.2)); [|done].
    injection Hb as <-. apply file_block_ends_blank.
  - apply last_None in E as ->. rewrite app_nil_r, last_snoc.
    eexists. split; [done|]. by vm_compute.
Qed.

(** With tracked files, the parts of a run are: the context and its
    separator (two line feeds, after a context that does not end in white
    space: one blank line), the manifest, the blocks (each of which ends
    with a blank line), and the prompt, which follows the last block
    directly: one blank line before it as well. *)
Lemma all_parts_with_code (env : Env) (root : Path) (sd : scope_dict) :
  let tr := tracked env root (default [] (files sd)) in
  let c := special_text env (context_file sd) in
  tr ≠ [] →
  all_parts env root sd
  = opt_part c ++ (if Py.truthy c then [Py.nl +:+ Py.nl] else [])
    ++ [PROJECT_STRUCTURE_OPEN] ++ (manifest_line <$> tr.*1)
    ++ [PROJECT_STRUCTURE_CLOSE] ++ blocks_of env tr
    ++ opt_part (special_text env (prompt_file sd)).
Proof.
  intros tr c Htr. unfold all_parts. fold tr c.
  rewrite code_parts_nonempty by done.
  assert (Hsep : code_sep (opt_part c) = if Py.truthy c then [Py.nl +:+ Py.nl] else []).
  { unfold code_sep, opt_part, last_part_has_text.
    destruct (Py.truthy c) eqn:Hc; [|done]. simpl.
    pose proof (special_text_has_text env _ Hc) as Hsp. fold c in Hsp.
    by rewrite Hc, Hsp. }
  rewrite Hsep, <- !app_assoc. do 5 f_equal.
  unfold prompt_parts, opt_part.
  destruct (Py.truthy (special_text env (prompt_file sd))); [|done].
  unfold prompt_sep.
  destruct (code_section_ends_blank env
              (opt_part c ++ (if Py.truthy c then [Py.nl +:+ Py.nl] else [])
               ++ [PROJECT_STRUCTURE_OPEN] ++ (manifest_line <$> tr.*1)) tr)
    as (z & Hz & Hend).
  rewrite <- !app_assoc in Hz. unfold opt_part in Hz. simpl in Hz. simpl.
  rewrite Hz. simpl. by rewrite Hend, andb_false_r.
Qed.

(** With no tracked file, a context and a prompt that both have text are
    joined by one line feed: the prompt starts on the line after the
    context, with no blank line between them. *)
Lemma context_then_prompt (env : Env) (root : Path) (verb name : string)
    (sd : scope_dict) :
  default [] (files sd) = [] →
  Py.truthy (special_text env (context_file sd)) = true →
  Py.truthy (special_text env (prompt_file sd)) = true →
  let text := special_text env (context_file sd) +:+ Py.nl
              +:+ special_text env (prompt_file sd) +:+ Py.nl in
  outcome (assemble_scope env sd root verb name)
  = Return (text, 0, String.length text, name).
Proof.
  intros Hfl Hc Hp text.
  assert (Hm : missing env root (default [] (files sd)) = []) by by rewrite Hfl.
  rewrite assemble_scope_present by done.
  destruct (special_text env (context_file sd)) as [|a r] eqn:Ec; [done|].
  destruct (special_text env (prompt_file sd)) as [|b q] eqn:Ep; [done|].
  destruct (special_text_stripped _ _ _ _ Ec) as (Ha & c & Hlc & Hcs).
  destruct (special_text_stripped _ _ _ _ Ep) as (Hb & d & Hld & Hds).
  assert (Hparts : all_parts env root sd = [String a r; Py.nl; String b q]).
  { unfold all_parts. rewrite Hfl, Ec, Ep. unfold opt_part. simpl Py.truthy.
    cbv iota. unfold tracked, path_tuples, files_to_process. simpl.
    unfold prompt_parts, prompt_sep, last_part_has_text. simpl last.
    simpl Py.truthy. rewrite <- Ec, special_text_has_text by by rewrite Ec.
    rewrite Ec. simpl default.
    destruct (Py.endswith (String a r) (Py.nl +:+ Py.nl)) eqn:E; [|done].
    apply endswith_last_char in E; [|done].
    rewrite Hlc in E. injection E as ->. done. }
  rewrite Hparts. rewrite bool_decide_false by done.
  unfold outcome. simpl snd. rewrite Hfl.
  assert (Htext : final_text [String a r; Py.nl; String b q] = text).
  { unfold final_text, text, Py.join. simpl foldr.
    rewrite append_empty_r.
    rewrite (strip_id (String a r +:+ Py.nl +:+ String b q) a d
               (r +:+ Py.nl +:+ String b q)); [|done|done| |done].
    - simpl Py.truthy. cbv iota. by rewrite !append_assoc.
    - by rewrite !last_char_app. }
  rewrite Htext. done.
Qed.

(** C5, at the input where the code departs from it.  A scope with the
    context ["C"], the prompt ["P"] and no tracked file is assembled into
    [C], line feed, [P], line feed: the two sections are on consecutive
    lines, with no blank line between them. *)
Theorem C5_context_prompt_without_blank_line :
  assemble_scope c5_env c5_scope demo_root "copy" "default"
  = ([], Return (unlines ["C"; "P"], 0, 4, "default"))
  ∧ unlines ["C"; "P"] ≠ unlines ["C"; ""; "P"].
Proof. split; vm_compute; [reflexivity|discriminate]. Qed.

(** ** Nothing to assemble *)

(** C9 (as amended).  A scope with no tracked file whose context file and
    prompt file are each not set or give no text (whatever is read from
    them trims to the empty text) is not an error: the run reports that
    there is nothing to assemble and returns the empty text with a file
    count of zero. *)
Theorem C9_nothing_to_assemble (env : Env) (root : Path) (verb name : string)
    (sd : scope_dict) :
  default [] (files sd) = [] →
  (∀ c t, context_file sd = Some c →
          Path_read_text env (Path_of_str c) = Some t → Py.strip t = "") →
  (∀ p t, prompt_file sd = Some p →
          Path_read_text env (Path_of_str p) = Some t → Py.strip t = "") →
  ∃ out,
    assemble_scope env sd root verb name = (out, Return ("", 0, 0, name))
    ∧ NoteCompletelyEmpty name verb ∈ out.
Proof.
  intros Hfl Hctx Hprm.
  assert (Hm : missing env root (default [] (files sd)) = []) by by rewrite Hfl.
  assert (Hblank : ∀ file,
            (∀ q t, file = Some q →
                    Path_read_text env (Path_of_str q) = Some t → Py.strip t = "") →
            special_text env file = "").
  { intros [q|] Hq; [|done]. unfold special_text.
    destruct (_ && _); [|done].
    destruct (Path_read_text env (Path_of_str q)) as [t|] eqn:E; [|done].
    by apply (Hq q). }
  assert (Hparts : all_parts env root sd = []).
  { unfold all_parts. by rewrite Hfl, (Hblank _ Hctx), (Hblank _ Hprm). }
  rewrite assemble_scope_present by done.
  rewrite bool_decide_true by done.
  eexists. split; [done|]. apply elem_of_app. right. left.
Qed.

Lemma C9_nothing_to_assemble_witness :
  ∃ out,
    assemble_scope c9_env c9_scope demo_root "copy" "default"
    = (out, Return ("", 0, 0, "default"))
    ∧ NoteCompletelyEmpty "default" "copy" ∈ out.
Proof.
  apply (C9_nothing_to_assemble c9_env demo_root "copy" "default" c9_scope).
  - reflexivity.
  - intros c t [= <-]. vm_compute. intros [= <-]. reflexivity.
  - intros p t [= <-]. vm_compute. intros [= <-]. reflexivity.
Defined.

Example c9_empty_scope :
  assemble_scope env0 _initialize_scope_dict demo_root "copy" "default"
  = ([NoteCompletelyEmpty "default" "copy"], Return ("", 0, 0, "default")).
Proof. vm_compute. reflexivity. Qed.

(** C9 (as the specification states it) fails: in this scope the context
    file, the tracked file and the prompt file all trim to the empty
    text, and the assembly returns a manifest and one counted file, not
    the empty result. *)
Lemma C9_counterexample :
  special_text c9_env (context_file c9_scope_blank_file) = ""
  ∧ special_text c9_env (prompt_file c9_scope_blank_file) = ""
  ∧ (Py.strip <$> Path_read_text c9_env (Path_of_str "/proj/blank.txt")) = Some ""
  ∧ let text := unlines ["Project Structure:"; "```"; "./blank.txt"; "```"; "";
                         "./blank.txt:"; "```"; ""; "```"] in
    assemble_scope c9_env c9_scope_blank_file demo_root "copy" "default"
    = ([], Return (text, 1, String.length text, "default"))
    ∧ text ≠ "".
Proof.
  split_and!; try (vm_compute; reflexivity).
  cbv zeta. split; vm_compute; [reflexivity|discriminate].
Qed.

(** ** Tracked files that cannot be read *)

Section Unreadable.
Context (env : Env).

Lemma blocks_of_length (tr : list (string * string)) :
  length (blocks_of env tr) = length (filter (readable env) tr.*2).
Proof.
  induction tr as [|[dp g] tr IH]; [done|].
  unfold blocks_of, block_of in *. csimpl.
  destruct (Path_read_text env (Path_of_str g)) as [t|] eqn:E; csimpl.
  - rewrite filter_cons_True by (unfold readable; rewrite E; eauto).
    simpl. by rewrite IH.
  - rewrite filter_cons_False; [done|].
    unfold readable. rewrite E. by intros [? ?].
Qed.

Lemma elem_of_blocks_of (tr : list (string * string)) (b : string) :
  b ∈ blocks_of env tr
  ↔ ∃ item t, item ∈ tr ∧ Path_read_text env (Path_of_str item.2) = Some t
              ∧ b = file_block item.1 (Py.strip t).
Proof.
  unfold blocks_of. rewrite list_elem_of_omap. unfold block_of. split.
  - intros (item & Hin & Hb).
    destruct (Path_read_text env (Path_of_str item.2)) as [t|] eqn:E;
      [|done]. injection Hb as <-. eauto.
  - intros (item & t & Hin & Hr & ->). exists item. by rewrite Hr.
Qed.

Lemma elem_of_unreadable (tr : list (string * string)) (item : string * string) :
  item ∈ tr → Path_read_text env (Path_of_str item.2) = None →
  item.1 ∈ unreadable env tr.
Proof.
  intros Hin Hr. unfold unreadable. apply list_elem_of_fmap.
  exists item. split; [done|]. by apply list_elem_of_filter.
Qed.
End Unreadable.

(** C10.  A tracked file that is a regular file but cannot be read does
    not stop the assembly.  The run returns; it prints the warning for
    that file; the manifest still lists its display path, as it lists
    every tracked file; the fenced blocks are those of the files that
    were read, so none is made for it; and the file count is the number
    of files that were read. *)
Theorem C10_unreadable_tracked_file_is_skipped (env : Env) (root : Path)
    (verb name : string) (sd : scope_dict) (f : string) :
  (∀ g, g ∈ default [] (files sd) → Path_is_file env (Path_of_str g) = true) →
  f ∈ default [] (files sd) →
  Path_read_text env (Path_of_str f) = None →
  ∃ out before after tr,
    let text :=
      final_text (before ++ [PROJECT_STRUCTURE_OPEN]
                  ++ (manifest_line <$> tr.*1) ++ [PROJECT_STRUCTURE_CLOSE]
                  ++ blocks_of env tr ++ after) in
    assemble_scope env sd root verb name
    = (out, Return (text, length (blocks_of env tr), String.length text, name))
    ∧ WarnFileUnreadable (get_display_path env (Path_of_str f) root) ∈ out
    ∧ tr.*2 ≡ₚ default [] (files sd)
    ∧ (get_display_path env (Path_of_str f) root, f) ∈ tr
    ∧ (∀ b, b ∈ blocks_of env tr →
            ∃ g t, g ∈ default [] (files sd)
                   ∧ Path_read_text env (Path_of_str g) = Some t
                   ∧ b = file_block (get_display_path env (Path_of_str g) root)
                           (Py.strip t))
    ∧ length (blocks_of env tr)
      = length (filter (readable env) (default [] (files sd))).
Proof.
  intros Hall Hf Hr. set (fl := default [] (files sd)) in *.
  assert (Hm : missing env root fl = []) by by apply missing_nil_iff.
  assert (Hin : (get_display_path env (Path_of_str f) root, f) ∈ tracked env root fl).
  { apply elem_of_tracked. exists f. eauto. }
  assert (Htr : tracked env root fl ≠ []).
  { intros Hnil. rewrite Hnil in Hin. by apply elem_of_nil in Hin. }
  set (ctx := opt_part (special_text env (context_file sd))).
  assert (Hparts : ∃ after, all_parts env root sd
            = (ctx ++ code_sep ctx) ++ [PROJECT_STRUCTURE_OPEN]
              ++ (manifest_line <$> (tracked env root fl).*1)
              ++ [PROJECT_STRUCTURE_CLOSE]
              ++ blocks_of env (tracked env root fl) ++ after).
  { eexists. unfold all_parts. fold fl ctx.
    rewrite code_parts_nonempty by done.
    rewrite <- !app_assoc. reflexivity. }
  destruct Hparts as [after Hparts].
  exists (step_msgs env root name sd), (ctx ++ code_sep ctx), after,
    (tracked env root fl).
  split_and!.
  - rewrite assemble_scope_present by done.
    rewrite bool_decide_false.
    + fold fl. rewrite Hparts. by rewrite <- !app_assoc.
    + rewrite Hparts. intros Hnil. apply app_nil in Hnil as [_ Hnil]. done.
  - unfold step_msgs. fold fl. apply elem_of_app. right. apply elem_of_app. left.
    rewrite code_msgs_nonempty by done. apply elem_of_app. left.
    apply list_elem_of_fmap. eexists. split; [done|].
    by apply (elem_of_unreadable env _ (_, f)).
  - by apply tracked_stored_perm.
  - done.
  - intros b Hb. apply elem_of_blocks_of in Hb as (item & t & Hitem & Hrt & ->).
    apply elem_of_tracked in Hitem as (g & Hg & _ & ->). eauto.
  - rewrite blocks_of_length. by rewrite (tracked_stored_perm env root fl Hall).
Qed.

Lemma C10_unreadable_tracked_file_is_skipped_witness :
  ∃ out text n len,
    assemble_scope c10_env c10_scope demo_root "copy" "default"
    = (out, Return (text, n, len, "default"))
    ∧ WarnFileUnreadable "./locked.txt" ∈ out
    ∧ n = length (filter (readable c10_env) (default [] (files c10_scope))).
Proof.
  assert (Hall : ∀ g, g ∈ default [] (files c10_scope) →
                      Path_is_file c10_env (Path_of_str g) = true).
  { apply Forall_forall. repeat constructor. }
  destruct (C10_unreadable_tracked_file_is_skipped c10_env demo_root "copy"
              "default" c10_scope "/proj/locked.txt" Hall
              ltac:(left) eq_refl)
    as (out & before & after & tr & Hrun & Hwarn & _ & _ & _ & Hn).
  eexists _, _, _, _. split_and!; [exact Hrun|exact Hwarn|exact Hn].
Defined.

Example c10_run :
  assemble_scope c10_env c10_scope demo_root "copy" "default"
  = let text := unlines ["Project Structure:"; "```"; "./a.txt"; "./locked.txt";
                         "```"; ""; "./a.txt:"; "```"; "A"; "```"] in
    ([WarnFileUnreadable "./locked.txt"],
     Return (text, 1, String.length text, "default")).
Proof. vm_compute. reflexivity. Qed.

(** * The scope store *)

Lemma lookup_save_config (data : config) (k : string) :
  save_config data !! k = save_entry k <$> data !! k.
Proof. unfold save_config. rewrite map_lookup_imap. by destruct (data !! k). Qed.

Lemma lookup_load_config (data : config) (k : string) :
  load_config (Some data) !! k = load_entry k <$> data !! k.
Proof. unfold load_config. rewrite map_lookup_imap. by destruct (data !! k). Qed.

Lemma is_valid_not_reserved_key (n : string) :
  is_valid_scope_name n = true → n ∉ RESERVED_KLYP_KEYS.
Proof.
  unfold is_valid_scope_name. destruct (negb (Py.truthy n)); [done|].
  case_bool_decide; done.
Qed.

Lemma is_valid_not_pointer_key (n : string) :
  is_valid_scope_name n = true → n ≠ CURRENT_SCOPE_KEY.
Proof.
  intros H%is_valid_not_reserved_key ->. apply H. left.
Qed.

Lemma get_scope_data_Some (cfg : config) (n : string) (d : scope_dict) :
  get_scope_data cfg n = Some d
  ↔ is_valid_scope_name n = true ∧ cfg !! n = Some (VScope d) ∧ is_Some (files d).
Proof.
  unfold get_scope_data.
  destruct (is_valid_scope_name n) eqn:Hv.
  - assert (Py.truthy n = true) as ->.
    { unfold is_valid_scope_name in Hv. by destruct (Py.truthy n). }
    simpl. destruct (cfg !! n) as [[s|d']|].
    + split; [done|]. by intros (_ & [=] & _).
    + destruct (files d') as [l|] eqn:Hf.
      * split; [intros [= <-]; rewrite Hf; eauto|]. by intros (_ & [= <-] & _).
      * split; [done|]. intros (_ & [= <-] & [l Hl]). congruence.
    + split; [done|]. by intros (_ & [=] & _).
  - rewrite orb_true_r. split; [done|]. by intros ([=] & _).
Qed.

Lemma get_scope_data_None_lookup (cfg : config) (n : string) :
  cfg !! n = None → get_scope_data cfg n = None.
Proof.
  intros H. unfold get_scope_data. rewrite H. by destruct (_ || _).
Qed.

(** Saving and loading leave the active-scope pointer as it is. *)
Lemma pointer_save_load (cfg : config) :
  get_current_scope_name (load_config (Some (save_config cfg)))
  = get_current_scope_name cfg.
Proof.
  unfold get_current_scope_name.
  rewrite lookup_load_config, lookup_save_config.
  by destruct (cfg !! CURRENT_SCOPE_KEY) as [[s|d]|].
Qed.

Lemma elem_of_sorted_list_set (l : list string) (x : string) :
  x ∈ Py.sorted (Py.list_set l) ↔ x ∈ l.
Proof. unfold Py.list_set. by rewrite sorted_perm, elem_of_remove_dups. Qed.

(** What [save_config] writes for a scope whose name does not start with
    [_klyp_]: the file list sorted and without repetition. *)
Lemma save_config_sorted_dedup (data : config) (k : string) (d : scope_dict)
    (l : list string) :
  Py.startswith k "_klyp_" = false →
  save_config data !! k = Some (VScope d) → files d = Some l →
  Sorted String.le l ∧ NoDup l.
Proof.
  intros Hk. rewrite lookup_save_config.
  destruct (data !! k) as [[s|d0]|]; [done| |done].
  simpl. rewrite Hk. simpl.
  destruct (files d0) as [l0|] eqn:Hf.
  - intros [= <-] [= <-]. split; [apply sorted_Sorted|].
    rewrite sorted_perm. apply NoDup_remove_dups.
  - intros [= <-]. rewrite Hf. done.
Qed.

(** ** The active-scope pointer *)

(** C6 (as amended).  [get_current_scope_name] returns the stored name as
    it is, whether or not a scope of that name exists (being a lookup, it
    has no access to change the store).  It is the caller that resolves
    the name: with a pointer that names no scope and no scope requested,
    the assembly exits with "scope not found or invalid", and with no
    pointer stored, it exits with "no active scope". *)
Theorem C6_active_pointer_returned_as_stored (cfg : config) :
  (∀ s, cfg !! CURRENT_SCOPE_KEY = Some (VStr s) →
        get_current_scope_name cfg = Some s
        ∧ (Py.truthy s = true → get_scope_data cfg s = None →
           ∀ env root verb,
             _get_formatted_scope_content env None cfg root verb
             = ([ErrScopeNotFound s], SysExit 1)))
  ∧ (cfg !! CURRENT_SCOPE_KEY = None →
     get_current_scope_name cfg = None
     ∧ ∀ env root verb,
         _get_formatted_scope_content env None cfg root verb
         = ([ErrNoActiveScope], SysExit 1)).
Proof.
  split.
  - intros s Hs. unfold _get_formatted_scope_content, get_current_scope_name.
    rewrite Hs. split; [done|]. intros Ht Hnone env root verb.
    unfold py_or. simpl. rewrite Ht, Hnone. done.
  - intros Hnone. unfold _get_formatted_scope_content, get_current_scope_name.
    rewrite Hnone. done.
Qed.

Lemma C6_active_pointer_returned_as_stored_witness :
  get_current_scope_name c6_cfg = Some "ghost"
  ∧ _get_formatted_scope_content env0 None c6_cfg demo_root "copy"
    = ([ErrScopeNotFound "ghost"], SysExit 1).
Proof.
  destruct (C6_active_pointer_returned_as_stored c6_cfg) as [H _].
  destruct (H "ghost" eq_refl) as [H1 H2].
  split; [exact H1|]. apply H2; reflexivity.
Defined.

(** C6 (as the specification states it) fails: the stored pointer names
    no scope, and it is returned all the same. *)
Lemma C6_counterexample :
  get_scope_data c6_cfg "ghost" = None
  ∧ get_current_scope_name c6_cfg = Some "ghost".
Proof. split; reflexivity. Qed.

(** Nor is a dangling pointer treated as "none set" by [klyp add]: with
    no scope named on the command line, the files go to a scope that is
    created under the name the pointer holds. *)
Example c6_add_creates_scope :
  ∃ saved,
    handle_add_cmd c8_env demo_root (Some c6_cfg) (add_code_files ["a.txt"])
    = (([OkScopeCreated "ghost"; OkFileAdded "./a.txt" "ghost"], Return tt),
       Some saved)
    ∧ files <$> get_scope_data (load_config (Some saved)) "ghost"
      = Some (Some ["/proj/a.txt"]).
Proof. eexists. split; vm_compute; reflexivity. Qed.

(** ** Renaming a scope *)

Lemma save_load_entry_prefixed (k : string) (v : value) :
  Py.startswith k "_klyp_" = true → load_entry k (save_entry k v) = v.
Proof. intros Hk. unfold load_entry, save_entry. rewrite Hk. by destruct v. Qed.

Lemma save_load_entry_scope (k : string) (d : scope_dict) (l : list string) :
  Py.startswith k "_klyp_" = false → files d = Some l →
  load_entry k (save_entry k (VScope d))
  = VScope {| files := Some (Py.sorted (Py.list_set l));
              context_file := context_file d; prompt_file := prompt_file d |}.
Proof.
  intros Hk Hl. unfold load_entry, save_entry. by rewrite Hk, Hl.
Qed.

Lemma rename_rejected (disk : Disk) (old new : string) :
  is_valid_scope_name new = false
  ∨ is_Some (get_scope_data (load_config disk) new) →
  ∃ out, handle_scope_rename_cmd disk old new = ((out, SysExit 1), disk).
Proof.
  intros Hrej. unfold handle_scope_rename_cmd.
  destruct (negb (check_config_initialized _ _)); [by eexists|].
  destruct (get_scope_data (load_config disk) old); [|by eexists].
  destruct (is_valid_scope_name new) eqn:Hv; simpl; [|by eexists].
  destruct Hrej as [?|[d Hd]]; [done|]. rewrite Hd. by eexists.
Qed.

(** C7 (as amended).  Renaming is rejected, with exit code 1 and the
    config file untouched, when the new name is invalid or already names
    a scope.  Otherwise, for an existing scope [old], the saved document
    holds under [new] a scope with the same files as [old] had (the same
    paths; the list is written sorted and without repetition, unless the
    name starts with [_klyp_]), the same context file and the same prompt
    file; [old] is no longer a scope; and the active pointer is [new] if
    it was [old] and is unchanged otherwise. *)
Theorem C7_rename_keeps_record_and_moves_pointer (disk : Disk) (old new : string) :
  (is_valid_scope_name new = false
   ∨ is_Some (get_scope_data (load_config disk) new) →
   ∃ out, handle_scope_rename_cmd disk old new = ((out, SysExit 1), disk))
  ∧ ∀ A, get_scope_data (load_config disk) old = Some A →
         is_valid_scope_name new = true →
         get_scope_data (load_config disk) new = None →
         ∃ saved B,
           handle_scope_rename_cmd disk old new
           = (([OkRenamed old new], Return tt), Some saved)
           ∧ get_scope_data (load_config (Some saved)) new = Some B
           ∧ (∃ lA lB, files A = Some lA ∧ files B = Some lB
                       ∧ (∀ x, x ∈ lB ↔ x ∈ lA)
                       ∧ lB = if Py.startswith new "_klyp_" then lA
                              else Py.sorted (Py.list_set lA))
           ∧ context_file B = context_file A
           ∧ prompt_file B = prompt_file A
           ∧ get_scope_data (load_config (Some saved)) old = None
           ∧ get_current_scope_name (load_config (Some saved))
             = if bool_decide (get_current_scope_name (load_config disk) = Some old)
               then Some new
               else get_current_scope_name (load_config disk).
Proof.
  split; [apply rename_rejected|].
  intros A HA Hvalid Hnew.
  set (cfg := load_config disk) in *.
  apply get_scope_data_Some in HA as HA'. destruct HA' as (Hvold & Hlook & [lA HlA]).
  assert (Hne : old ≠ new) by (intros ->; congruence).
  pose proof (is_valid_not_pointer_key _ Hvold) as Hkold.
  pose proof (is_valid_not_pointer_key _ Hvalid) as Hknew.
  assert (Hinit : check_config_initialized disk cfg = true).
  { unfold check_config_initialized.
    rewrite (bool_decide_false (cfg = ∅)); [by rewrite andb_false_r|].
    intros He. rewrite He in Hlook. by rewrite lookup_empty in Hlook. }
  set (cfg1 := <[new := VScope A]> (delete old cfg)).
  assert (Hp1 : get_current_scope_name cfg1 = get_current_scope_name cfg).
  { unfold get_current_scope_name, cfg1.
    by rewrite lookup_insert_ne, lookup_delete_ne by done. }
  set (cfg2 := if bool_decide (get_current_scope_name cfg1 = Some old)
               then <[CURRENT_SCOPE_KEY := VStr new]> cfg1 else cfg1).
  assert (Hrun : handle_scope_rename_cmd disk old new
                 = (([OkRenamed old new], Return tt), Some (save_config cfg2))).
  { unfold handle_scope_rename_cmd. fold cfg. rewrite Hinit, HA, Hvalid, Hnew.
    simpl. rewrite (proj2 (String.eqb_neq old new) Hne), Hlook. done. }
  assert (H2new : cfg2 !! new = Some (VScope A)).
  { unfold cfg2, cfg1. case_bool_decide.
    - rewrite lookup_insert_ne by done. apply lookup_insert_eq.
    - apply lookup_insert_eq. }
  assert (H2old : cfg2 !! old = None).
  { unfold cfg2, cfg1. case_bool_decide.
    - rewrite !lookup_insert_ne by done. apply lookup_delete_eq.
    - rewrite lookup_insert_ne by done. apply lookup_delete_eq. }
  set (lB := if Py.startswith new "_klyp_" then lA else Py.sorted (Py.list_set lA)).
  set (B := {| files := Some lB; context_file := context_file A;
               prompt_file := prompt_file A |}).
  assert (HB : load_config (Some (save_config cfg2)) !! new = Some (VScope B)).
  { rewrite lookup_load_config, lookup_save_config, H2new.
    cbn [fmap option_fmap option_map]. f_equal.
    unfold B, lB. destruct (Py.startswith new "_klyp_") eqn:Hpre.
    - rewrite save_load_entry_prefixed by done.
      f_equal. destruct A. simpl in *. by subst.
    - by apply save_load_entry_scope. }
  exists (save_config cfg2), B. split_and!.
  - exact Hrun.
  - apply get_scope_data_Some. split_and!; [done|done|by eexists].
  - exists lA, lB. split_and!; [done|done| |done].
    intros x. unfold lB. destruct (Py.startswith new "_klyp_"); [done|].
    apply elem_of_sorted_list_set.
  - done.
  - done.
  - apply get_scope_data_None_lookup.
    by rewrite lookup_load_config, lookup_save_config, H2old.
  - rewrite pointer_save_load. unfold cfg2. rewrite Hp1.
    case_bool_decide as Hp; [|by rewrite Hp1].
    unfold get_current_scope_name. by rewrite lookup_insert_eq.
Qed.

Lemma C7_rename_keeps_record_and_moves_pointer_witness :
  ∃ saved B,
    handle_scope_rename_cmd (Some c7_disk) "alpha" "beta"
    = (([OkRenamed "alpha" "beta"], Return tt), Some saved)
    ∧ get_scope_data (load_config (Some saved)) "beta" = Some B
    ∧ context_file B = Some "/proj/ctx.md"
    ∧ get_current_scope_name (load_config (Some saved)) = Some "beta".
Proof.
  destruct (C7_rename_keeps_record_and_moves_pointer (Some c7_disk) "alpha" "beta")
    as [_ H].
  destruct (H {| files := Some ["/proj/a.txt"; "/proj/b.txt"];
                 context_file := Some "/proj/ctx.md"; prompt_file := None |})
    as (saved & B & Hrun & HB & _ & Hctx & _ & _ & Hptr);
    [vm_compute; reflexivity..|].
  exists saved, B. split_and!; [exact Hrun|exact HB|exact Hctx|].
  rewrite Hptr. vm_compute. reflexivity.
Defined.

(** C7 (as the specification states it) fails in its "only if": [alpha]
    exists, [beta] is a valid name that names no scope, and after renaming
    [alpha] to [beta] the pointer names [beta] although it did not name
    [alpha]. *)
Lemma C7_counterexample :
  is_Some (get_scope_data (load_config (Some c7_disk_dangling)) "alpha")
  ∧ is_valid_scope_name "beta" = true
  ∧ get_scope_data (load_config (Some c7_disk_dangling)) "beta" = None
  ∧ get_current_scope_name (load_config (Some c7_disk_dangling)) ≠ Some "alpha"
  ∧ ∃ saved,
      handle_scope_rename_cmd (Some c7_disk_dangling) "alpha" "beta"
      = (([OkRenamed "alpha" "beta"], Return tt), Some saved)
      ∧ get_current_scope_name (load_config (Some saved)) = Some "beta".
Proof.
  split_and!; [by (vm_compute; eexists)|by vm_compute..|].
  eexists. split; vm_compute; reflexivity.
Qed.

(** ** Adding files *)

(** Files added out of order, and one of them twice, are written sorted
    and once each. *)
Example c8_add_sorted :
  ∃ saved,
    (handle_add_cmd c8_env demo_root (Some c8_disk)
       (add_code_files ["b.txt"; "a.txt"; "./b.txt"])).2 = Some saved
    ∧ files <$> get_scope_data (load_config (Some saved)) "work"
      = Some (Some ["/proj/a.txt"; "/proj/b.txt"]).
Proof. eexists. split; vm_compute; reflexivity. Qed.

(** Whenever [handle_add_cmd] writes the config file, every scope whose
    name does not start with [_klyp_] has its file list sorted and without
    repetition. *)
Lemma handle_add_cmd_saved_sorted (env : Env) (root : Path) (disk : Disk)
    (args : add_args) (saved : config) (k : string) (d : scope_dict)
    (l : list string) :
  (handle_add_cmd env root disk args).2 = Some saved →
  Some saved ≠ disk →
  Py.startswith k "_klyp_" = false →
  saved !! k = Some (VScope d) → files d = Some l →
  Sorted String.le l ∧ NoDup l.
Proof.
  intros Hrun Hchanged Hk Hlook Hl.
  assert (∃ cfg, saved = save_config cfg) as [cfg ->].
  { unfold handle_add_cmd in Hrun.
    repeat (case_match; simpl in Hrun; try done);
      try (injection Hrun as <-; by eexists). }
  by apply (save_config_sorted_dedup cfg k d l).
Qed.

(** C8, at the input where the code departs from it.  [_klyp_x] is a
    valid scope name and the active scope; [klyp add b.txt a.txt] saves
    the config, and the file list written for [_klyp_x] is in the order
    of the additions, which is not sorted: [save_config] passes over every
    key that starts with [_klyp_]. *)
Theorem C8_prefixed_scope_saved_unsorted :
  is_valid_scope_name "_klyp_x" = true
  ∧ is_Some (get_scope_data (load_config (Some c8_disk_prefixed)) "_klyp_x")
  ∧ ∃ saved,
      handle_add_cmd c8_env demo_root (Some c8_disk_prefixed)
        (add_code_files ["b.txt"; "a.txt"])
      = (([OkFileAdded "./b.txt" "_klyp_x"; OkFileAdded "./a.txt" "_klyp_x"],
          Return tt), Some saved)
      ∧ files <$> get_scope_data (load_config (Some saved)) "_klyp_x"
        = Some (Some ["/proj/b.txt"; "/proj/a.txt"])
      ∧ ¬ Sorted String.le ["/proj/b.txt"; "/proj/a.txt"].
Proof.
  split_and!; [by vm_compute|by (vm_compute; eexists)|].
  eexists. split_and!; [vm_compute; reflexivity..|].
  intros Hs. apply Sorted_inv in Hs as [_ Hhd].
  apply HdRel_inv in Hhd. vm_compute in Hhd. done.
Qed.

(** * More of the store *)

(** ** Scope names *)

Lemma is_valid_scope_name_error (n : string) :
  is_valid_scope_name n = true ↔ scope_name_error n = None.
Proof.
  unfold is_valid_scope_name, scope_name_error.
  destruct (negb (Py.truthy n)); [done|].
  repeat case_bool_decide; done.
Qed.

Lemma lower_char_idemp (c : ascii) :
  Py.lower_char (Py.lower_char c) = Py.lower_char c.
Proof. destruct c as [[] [] [] [] [] [] [] []]; vm_compute; reflexivity. Qed.

Lemma lower_idemp (s : string) : Py.lower (Py.lower s) = Py.lower s.
Proof.
  induction s as [|c s IH]; [done|]. simpl. by rewrite lower_char_idemp, IH.
Qed.

Lemma lower_truthy (s : string) : Py.truthy (Py.lower s) = Py.truthy s.
Proof. by destruct s. Qed.

Lemma reserved_key_is_command (n : string) :
  n ∈ RESERVED_KLYP_KEYS → Py.lower n ∈ RESERVED_COMMAND_NAMES.
Proof.
  unfold RESERVED_KLYP_KEYS. rewrite !elem_of_cons, elem_of_nil.
  intros [->|[->|[]]];
    by apply (bool_decide_unpack (_ ∈ RESERVED_COMMAND_NAMES)).
Qed.

(** A name is valid exactly when it is not empty and, in lower case, is
    neither a command nor a scope action; the test against the two
    metadata keys adds nothing, [main_cli] having put them among the
    commands. *)
Lemma is_valid_scope_name_lower (n : string) :
  is_valid_scope_name n
  = Py.truthy n
    && negb (bool_decide (Py.lower n ∈ RESERVED_COMMAND_NAMES))
    && negb (bool_decide (Py.lower n ∈ SCOPE_ACTION_COMMAND_NAMES)).
Proof.
  unfold is_valid_scope_name. destruct (Py.truthy n); [|done]. simpl.
  case_bool_decide as Hk.
  - apply reserved_key_is_command in Hk. by rewrite bool_decide_true.
  - by repeat case_bool_decide.
Qed.

(** X1.  Name validation does not look at the case of letters: two names
    that are equal in lower case are both accepted or both rejected. *)
Theorem X1_scope_name_validity_ignores_case (n m : string) :
  Py.lower n = Py.lower m → is_valid_scope_name n = is_valid_scope_name m.
Proof.
  intros H. rewrite !is_valid_scope_name_lower, <- H.
  by rewrite <- (lower_truthy n), <- (lower_truthy m), H.
Qed.

Lemma X1_scope_name_validity_ignores_case_witness :
  is_valid_scope_name "_KLYP_Version" = is_valid_scope_name "_klyp_version".
Proof.
  apply (X1_scope_name_validity_ignores_case "_KLYP_Version" "_klyp_version").
  vm_compute. reflexivity.
Defined.

(** ** Saving and loading *)

Lemma sorted_of_Sorted (l : list string) : Sorted String.le l → Py.sorted l = l.
Proof.
  intros Hs. apply (Sorted_unique String.le); [apply sorted_Sorted|done|].
  apply sorted_perm.
Qed.

Lemma remove_dups_of_NoDup (l : list string) : NoDup l → remove_dups l = l.
Proof.
  induction 1 as [|x l Hx Hnd IH]; [done|].
  simpl. destruct (decide_rel elem_of x l) as [Hin|_]; [done|]. by rewrite IH.
Qed.

Lemma sorted_list_set_idemp (l : list string) :
  Py.sorted (Py.list_set (Py.sorted (Py.list_set l))) = Py.sorted (Py.list_set l).
Proof.
  unfold Py.list_set at 1. rewrite remove_dups_of_NoDup.
  - apply sorted_of_Sorted, sorted_Sorted.
  - rewrite sorted_perm. apply NoDup_remove_dups.
Qed.

Lemma save_entry_idemp (k : string) (v : value) :
  save_entry k (save_entry k v) = save_entry k v.
Proof.
  destruct v as [s|d]; [done|].
  destruct (Py.startswith k "_klyp_") eqn:Hk.
  { unfold save_entry. by rewrite !Hk. }
  destruct (files d) as [l|] eqn:Hl.
  - unfold save_entry. rewrite Hk, Hl. simpl.
    by rewrite sorted_list_set_idemp.
  - unfold save_entry. rewrite Hk, Hl. simpl. by rewrite Hl.
Qed.

(** X2.  Saving is idempotent: saving the document that was saved writes
    the same document again. *)
Theorem X2_save_config_idempotent (data : config) :
  save_config (save_config data) = save_config data.
Proof.
  apply map_eq. intros k. rewrite !lookup_save_config.
  destruct (data !! k) as [v|]; [|done]. simpl. by rewrite save_entry_idemp.
Qed.

Lemma load_entry_files (k : string) (d : scope_dict) :
  Py.startswith k "_klyp_" = false →
  ∃ d', load_entry k (VScope d) = VScope d' ∧ is_Some (files d')
        ∧ files d' = Some (default [] (files d))
        ∧ context_file d' = context_file d ∧ prompt_file d' = prompt_file d.
Proof.
  intros Hk. unfold load_entry. rewrite Hk. simpl.
  destruct (files d) as [l|] eqn:Hl; eexists; split_and!; try done;
    simpl; rewrite ?Hl; eauto.
Qed.

Lemma load_config_loaded (disk : Disk) : loaded (load_config disk).
Proof.
  intros k d Hlook Hk.
  destruct disk as [data|]; [|simpl in Hlook; by apply lookup_empty_Some in Hlook].
  rewrite lookup_load_config in Hlook.
  destruct (data !! k) as [[s|d0]|]; [done| |done].
  destruct (load_entry_files k d0 Hk) as (d' & Heq & Hf & _).
  cbn [fmap option_fmap option_map] in Hlook. rewrite Heq in Hlook. by injection Hlook as <-.
Qed.

Lemma save_entry_scope (k : string) (d : scope_dict) :
  ∃ d', save_entry k (VScope d) = VScope d'
        ∧ (is_Some (files d') ↔ is_Some (files d))
        ∧ same_scope d d'.
Proof.
  unfold save_entry, same_scope.
  destruct (negb (Py.startswith k "_klyp_")); [|by eexists].
  destruct (files d) as [l|] eqn:Hl; [|eexists; by rewrite Hl].
  eexists. split; [done|]. simpl. split; [split; eauto|].
  split; [|done]. intros x. by rewrite elem_of_sorted_list_set.
Qed.

Lemma save_config_loaded (cfg : config) : loaded cfg → loaded (save_config cfg).
Proof.
  intros Hc k d Hlook Hk. rewrite lookup_save_config in Hlook.
  destruct (cfg !! k) as [[s|d0]|] eqn:E; [done| |done].
  destruct (save_entry_scope k d0) as (d' & Heq & Hf & _).
  cbn [fmap option_fmap option_map] in Hlook. rewrite Heq in Hlook. injection Hlook as <-.
  apply Hf. by apply (Hc k).
Qed.

Lemma load_entry_loaded (k : string) (v : value) :
  (∀ d, v = VScope d → Py.startswith k "_klyp_" = false → is_Some (files d)) →
  load_entry k v = v.
Proof.
  intros H. destruct v as [s|d]; [done|]. unfold load_entry.
  destruct (Py.startswith k "_klyp_") eqn:Hk; [done|]. simpl.
  destruct (H d eq_refl eq_refl) as [l ->]. done.
Qed.

(** Reading back a document held in memory gives the same document. *)
Lemma load_config_of_loaded (cfg : config) :
  loaded cfg → load_config (Some cfg) = cfg.
Proof.
  intros Hc. apply map_eq. intros k. rewrite lookup_load_config.
  destruct (cfg !! k) as [v|] eqn:E; [|done]. simpl. f_equal.
  apply load_entry_loaded. intros d -> Hk. by apply (Hc k).
Qed.

Lemma load_save_of_loaded (cfg : config) :
  loaded cfg → load_config (Some (save_config cfg)) = save_config cfg.
Proof. intros Hc. by apply load_config_of_loaded, save_config_loaded. Qed.

(** X3.  What a command saves is what the next command loads: loading
    the saved document changes nothing in it. *)
Theorem X3_saved_document_loads_unchanged (disk : Disk) :
  load_config (Some (save_config (load_config disk)))
  = save_config (load_config disk).
Proof. apply load_save_of_loaded, load_config_loaded. Qed.

Lemma pointer_save (cfg : config) :
  get_current_scope_name (save_config cfg) = get_current_scope_name cfg.
Proof.
  unfold get_current_scope_name. rewrite lookup_save_config.
  by destruct (cfg !! CURRENT_SCOPE_KEY) as [[s|d]|].
Qed.

Lemma get_scope_data_save (cfg : config) (n : string) :
  match get_scope_data cfg n with
  | Some A => ∃ B, get_scope_data (save_config cfg) n = Some B ∧ same_scope A B
  | None => get_scope_data (save_config cfg) n = None
  end.
Proof.
  destruct (get_scope_data cfg n) as [A|] eqn:E.
  - apply get_scope_data_Some in E as (Hv & Hlook & Hf).
    destruct (save_entry_scope n A) as (B & Heq & HfB & Hsame).
    exists B. split; [|done]. apply get_scope_data_Some. split_and!; [done| |by apply HfB].
    by rewrite lookup_save_config, Hlook, <- Heq.
  - destruct (get_scope_data (save_config cfg) n) as [B|] eqn:E'; [|done].
    apply get_scope_data_Some in E' as (Hv & Hlook & Hf).
    rewrite lookup_save_config in Hlook.
    destruct (cfg !! n) as [[s|d]|] eqn:El; [done| |done].
    destruct (save_entry_scope n d) as (B' & Heq & HfB & _).
    cbn [fmap option_fmap option_map] in Hlook. rewrite Heq in Hlook. injection Hlook as ->.
    assert (get_scope_data cfg n = Some d) as Hd
      by (apply get_scope_data_Some; split_and!; [done|done|by apply HfB]).
    congruence.
Qed.

Lemma is_scope_save (cfg : config) (n : string) :
  is_scope (save_config cfg) n ↔ is_scope cfg n.
Proof.
  unfold is_scope. pose proof (get_scope_data_save cfg n) as H.
  destruct (get_scope_data cfg n) as [A|].
  - destruct H as (B & -> & _). split; eauto.
  - rewrite H. done.
Qed.

(** X4.  Saving keeps the scopes and the pointer: a name is a scope of
    the saved document exactly when it was one before, with the same
    tracked files (as a set), context file and prompt file, and the
    active-scope pointer is the same. *)
Theorem X4_save_config_keeps_scopes (cfg : config) (n : string) :
  get_current_scope_name (save_config cfg) = get_current_scope_name cfg
  ∧ match get_scope_data cfg n with
    | Some A => ∃ B, get_scope_data (save_config cfg) n = Some B ∧ same_scope A B
    | None => get_scope_data (save_config cfg) n = None
    end.
Proof. split; [apply pointer_save|apply get_scope_data_save]. Qed.

(** X5.  Loading repairs an incomplete scope object: under a valid name
    that does not start with [_klyp_], an object without a ["files"] list
    is a scope with no tracked file after loading, and its context and
    prompt file are as stored. *)
Theorem X5_load_config_fills_missing_files (data : config) (n : string)
    (r : scope_dict) :
  data !! n = Some (VScope r) →
  is_valid_scope_name n = true →
  Py.startswith n "_klyp_" = false →
  ∃ A, get_scope_data (load_config (Some data)) n = Some A
       ∧ files A = Some (default [] (files r))
       ∧ context_file A = context_file r
       ∧ prompt_file A = prompt_file r.
Proof.
  intros Hlook Hv Hk.
  destruct (load_entry_files n r Hk) as (A & Heq & Hf & Hfiles & Hc & Hp).
  exists A. split; [|done]. apply get_scope_data_Some. split_and!; [done| |done].
  by rewrite lookup_load_config, Hlook, <- Heq.
Qed.

Lemma X5_load_config_fills_missing_files_witness :
  ∃ A, get_scope_data
         (load_config (Some (<["work" := VScope {| files := None;
                                                  context_file := Some "/proj/ctx.md";
                                                  prompt_file := None |}]> ∅)))
         "work" = Some A
       ∧ files A = Some []
       ∧ context_file A = Some "/proj/ctx.md"
       ∧ prompt_file A = None.
Proof.
  apply (X5_load_config_fills_missing_files
           (<["work" := VScope {| files := None; context_file := Some "/proj/ctx.md";
                                  prompt_file := None |}]> ∅)
           "work"
           {| files := None; context_file := Some "/proj/ctx.md";
              prompt_file := None |});
    vm_compute; reflexivity.
Defined.

(** ** Lookups after an update *)

Lemma same_scope_refl (A : scope_dict) : same_scope A A.
Proof. by split. Qed.

Lemma same_scope_trans (A B C : scope_dict) :
  same_scope A B → same_scope B C → same_scope A C.
Proof.
  intros (H1 & H2 & H3) (H4 & H5 & H6). split_and!; [|congruence..].
  intros x. by rewrite H1, H4.
Qed.

Lemma scope_kept_refl (cfg : config) (n : string) : scope_kept cfg cfg n.
Proof.
  unfold scope_kept. destruct (get_scope_data cfg n) as [A|]; [|done].
  exists A. split; [done|apply same_scope_refl].
Qed.

Lemma scope_kept_trans (c1 c2 c3 : config) (n : string) :
  scope_kept c1 c2 n → scope_kept c2 c3 n → scope_kept c1 c3 n.
Proof.
  unfold scope_kept. destruct (get_scope_data c1 n) as [A|].
  - intros (B & -> & HAB) (C & HC & HBC). exists C. split; [done|].
    by apply (same_scope_trans A B C).
  - by intros ->.
Qed.

Lemma scope_kept_eq (c1 c2 : config) (n : string) :
  get_scope_data c2 n = get_scope_data c1 n → scope_kept c1 c2 n.
Proof. intros H. unfold scope_kept. rewrite H. apply scope_kept_refl. Qed.

Lemma scope_kept_save (cfg : config) (n : string) :
  scope_kept cfg (save_config cfg) n.
Proof. apply get_scope_data_save. Qed.

Lemma get_scope_data_lookup_eq (c1 c2 : config) (n : string) :
  c2 !! n = c1 !! n → get_scope_data c2 n = get_scope_data c1 n.
Proof. intros H. unfold get_scope_data. by rewrite H. Qed.

Lemma get_scope_data_insert_ne (cfg : config) (n m : string) (v : value) :
  n ≠ m → get_scope_data (<[n := v]> cfg) m = get_scope_data cfg m.
Proof. intros H. apply get_scope_data_lookup_eq. by rewrite lookup_insert_ne. Qed.

Lemma get_scope_data_delete_ne (cfg : config) (n m : string) :
  n ≠ m → get_scope_data (delete n cfg) m = get_scope_data cfg m.
Proof. intros H. apply get_scope_data_lookup_eq. by rewrite lookup_delete_ne. Qed.

Lemma get_scope_data_delete_eq (cfg : config) (n : string) :
  get_scope_data (delete n cfg) n = None.
Proof. apply get_scope_data_None_lookup, lookup_delete_eq. Qed.

Lemma get_scope_data_insert_eq (cfg : config) (n : string) (d : scope_dict) :
  is_valid_scope_name n = true → is_Some (files d) →
  get_scope_data (<[n := VScope d]> cfg) n = Some d.
Proof.
  intros Hv Hf. apply get_scope_data_Some. split_and!; [done| |done].
  apply lookup_insert_eq.
Qed.

Lemma get_scope_data_pointer_key (cfg : config) :
  get_scope_data cfg CURRENT_SCOPE_KEY = None.
Proof. reflexivity. Qed.

Lemma get_scope_data_valid (cfg : config) (n : string) (d : scope_dict) :
  get_scope_data cfg n = Some d → is_valid_scope_name n = true ∧ is_Some (files d).
Proof. intros H. apply get_scope_data_Some in H as (? & _ & ?). done. Qed.

Lemma pointer_insert_ne (cfg : config) (n : string) (v : value) :
  n ≠ CURRENT_SCOPE_KEY →
  get_current_scope_name (<[n := v]> cfg) = get_current_scope_name cfg.
Proof. intros H. unfold get_current_scope_name. by rewrite lookup_insert_ne. Qed.

Lemma pointer_insert_eq (cfg : config) (s : string) :
  get_current_scope_name (<[CURRENT_SCOPE_KEY := VStr s]> cfg) = Some s.
Proof. unfold get_current_scope_name. by rewrite lookup_insert_eq. Qed.

Lemma pointer_delete_ne (cfg : config) (n : string) :
  n ≠ CURRENT_SCOPE_KEY →
  get_current_scope_name (delete n cfg) = get_current_scope_name cfg.
Proof. intros H. unfold get_current_scope_name. by rewrite lookup_delete_ne. Qed.

Lemma pointer_delete_eq (cfg : config) :
  get_current_scope_name (delete CURRENT_SCOPE_KEY cfg) = None.
Proof. unfold get_current_scope_name. by rewrite lookup_delete_eq. Qed.

Lemma loaded_insert_scope (cfg : config) (n : string) (d : scope_dict) :
  loaded cfg → is_Some (files d) → loaded (<[n := VScope d]> cfg).
Proof.
  intros Hc Hf k d' Hlook Hk. destruct (decide (n = k)) as [->|Hne].
  - rewrite lookup_insert_eq in Hlook. by injection Hlook as <-.
  - rewrite lookup_insert_ne in Hlook by done. by apply (Hc k).
Qed.

Lemma loaded_insert_str (cfg : config) (n s : string) :
  loaded cfg → loaded (<[n := VStr s]> cfg).
Proof.
  intros Hc k d' Hlook Hk. destruct (decide (n = k)) as [->|Hne].
  - by rewrite lookup_insert_eq in Hlook.
  - rewrite lookup_insert_ne in Hlook by done. by apply (Hc k).
Qed.

Lemma loaded_delete (cfg : config) (n : string) : loaded cfg → loaded (delete n cfg).
Proof.
  intros Hc k d' Hlook Hk. destruct (decide (n = k)) as [->|Hne].
  - by rewrite lookup_delete_eq in Hlook.
  - rewrite lookup_delete_ne in Hlook by done. by apply (Hc k).
Qed.

Lemma check_config_initialized_Some (data : config) (cfg : config) :
  check_config_initialized (Some data) cfg = true.
Proof.
  unfold check_config_initialized. by rewrite bool_decide_true by by eexists.
Qed.

(** What the next command sees of a saved document. *)
Lemma after_save (cfg : config) (n : string) :
  loaded cfg →
  get_current_scope_name (load_config (Some (save_config cfg)))
  = get_current_scope_name cfg
  ∧ scope_kept cfg (load_config (Some (save_config cfg))) n.
Proof.
  intros Hc. rewrite load_save_of_loaded by done.
  split; [apply pointer_save|apply scope_kept_save].
Qed.

Lemma save_initial_scope (cfg : config) (n : string) :
  loaded cfg → cfg !! n = Some (VScope _initialize_scope_dict) →
  is_valid_scope_name n = true →
  get_scope_data (load_config (Some (save_config cfg))) n
  = Some _initialize_scope_dict.
Proof.
  intros Hc Hlook Hv. rewrite load_save_of_loaded by done.
  apply get_scope_data_Some. split_and!; [done| |by eexists].
  rewrite lookup_save_config, Hlook. simpl. unfold save_entry.
  by destruct (negb (Py.startswith n "_klyp_")).
Qed.

(** A message that is none of the messages listed. *)
Ltac not_in_list :=
  let H := fresh "Hin" in
  intros H; simpl in H;
  repeat (apply elem_of_cons in H as [H|H]; [discriminate H|]);
  by apply elem_of_nil in H.

(** ** Initialising *)

(** X6.  [klyp init] leaves the config file alone only when the document
    in it carries a metadata key and the answer, trimmed and in lower
    case, is not [y].  In every other case (no file, a file that cannot
    be parsed, a document with neither metadata key, which is overwritten
    without a question, or the answer [y]) it writes a document whose
    only scope is the empty scope [default], which is the active one. *)
Theorem X6_init_writes_default_scope (file : config_file) (answer : string) :
  (init_asks file ∧ typed answer ≠ "y" →
   handle_init_cmd file answer = (([AskOverwrite; InitCancelled], Return tt), file))
  ∧ (¬ (init_asks file ∧ typed answer ≠ "y") →
     ∃ out doc,
       handle_init_cmd file answer = ((out, Return tt), FileDoc doc)
       ∧ (AskOverwrite ∈ out ↔ init_asks file)
       ∧ get_current_scope_name (load_config (Some doc)) = Some "default"
       ∧ get_scope_data (load_config (Some doc)) "default"
         = Some _initialize_scope_dict
       ∧ scope_names (load_config (Some doc)) = ["default"]).
Proof.
  assert (Hdoc : get_current_scope_name (load_config (Some (save_config initial_config)))
                 = Some "default"
                 ∧ get_scope_data (load_config (Some (save_config initial_config)))
                     "default" = Some _initialize_scope_dict
                 ∧ scope_names (load_config (Some (save_config initial_config)))
                   = ["default"]).
  { split_and!; vm_compute; reflexivity. }
  unfold handle_init_cmd, init_asks. destruct file as [| |d].
  - split; [by intros [[] _]|]. intros _.
    eexists _, _. split; [done|]. split; [|exact Hdoc].
    split; [not_in_list|done].
  - split; [by intros [[] _]|]. intros _.
    eexists _, _. split; [done|]. split; [|exact Hdoc].
    split; [not_in_list|done].
  - destruct (decide (is_Some (d !! KLYP_CONFIG_VERSION_KEY)
                      ∨ is_Some (d !! CURRENT_SCOPE_KEY))) as [Hk|Hk].
    + assert ((bool_decide (is_Some (d !! KLYP_CONFIG_VERSION_KEY))
               || bool_decide (is_Some (d !! CURRENT_SCOPE_KEY))) = true) as ->.
      { destruct Hk as [Hk|Hk]; rewrite (bool_decide_true _ Hk);
          [done|by rewrite orb_true_r]. }
      destruct (String.eqb_spec (typed answer) "y") as [Hy|Hy]; simpl.
      * split; [by intros [_ ?]|]. intros _.
        eexists _, _. split; [done|]. split; [|exact Hdoc].
        split; [done|]. intros _. left.
      * split; [done|]. intros Hn. destruct Hn. done.
    + assert ((bool_decide (is_Some (d !! KLYP_CONFIG_VERSION_KEY))
               || bool_decide (is_Some (d !! CURRENT_SCOPE_KEY))) = false) as ->.
      { rewrite !bool_decide_false; [done|tauto..]. }
      split; [by intros [? _]|]. intros _.
      eexists _, _. split; [done|]. split; [|exact Hdoc].
      split; [not_in_list|done].
Qed.

Lemma X6_init_writes_default_scope_witness :
  handle_init_cmd (FileDoc c8_disk) "no"
  = (([AskOverwrite; InitCancelled], Return tt), FileDoc c8_disk)
  ∧ ∃ out doc,
      handle_init_cmd (FileDoc c8_disk) " Y " = ((out, Return tt), FileDoc doc)
      ∧ scope_names (load_config (Some doc)) = ["default"].
Proof.
  split.
  - apply (X6_init_writes_default_scope (FileDoc c8_disk) "no").
    split; [left; by vm_compute; eexists|by vm_compute].
  - destruct (X6_init_writes_default_scope (FileDoc c8_disk) " Y ") as [_ H].
    destruct H as (out & doc & Hrun & _ & _ & _ & Hn).
    + intros [_ Hy]. by vm_compute in Hy.
    + exists out, doc. split; [exact Hrun|exact Hn].
Defined.

(** ** Choosing, creating and deleting scopes *)

#[local] Arguments load_config : simpl never.

Lemma get_scope_data_insert_pointer (cfg : config) (s m : string) :
  get_scope_data (<[CURRENT_SCOPE_KEY := VStr s]> cfg) m = get_scope_data cfg m.
Proof.
  destruct (decide (CURRENT_SCOPE_KEY = m)) as [<-|Hne]; [done|].
  by apply get_scope_data_insert_ne.
Qed.

Lemma get_scope_data_delete_pointer (cfg : config) (m : string) :
  get_scope_data (delete CURRENT_SCOPE_KEY cfg) m = get_scope_data cfg m.
Proof.
  destruct (decide (CURRENT_SCOPE_KEY = m)) as [<-|Hne]; [done|].
  by apply get_scope_data_delete_ne.
Qed.

(** X7.  [klyp use name] (and [klyp scope set name]) with an invalid name
    exits with code 1 and leaves the config file as it is.  With a valid
    name it makes [name] the active scope and a scope: the scope it was,
    or, when there was none, the empty scope (reported as created);
    every other scope is kept. *)
Theorem X7_use_makes_scope_active (data : config) (name : string) :
  (is_valid_scope_name name = false →
   ∃ e, handle_scope_set_cmd (Some data) name = (([ErrName e], SysExit 1), Some data))
  ∧ (is_valid_scope_name name = true →
     ∃ out saved B,
       handle_scope_set_cmd (Some data) name = ((out, Return tt), Some saved)
       ∧ get_current_scope_name (load_config (Some saved)) = Some name
       ∧ get_scope_data (load_config (Some saved)) name = Some B
       ∧ match get_scope_data (load_config (Some data)) name with
         | Some A => same_scope A B ∧ Core (OkScopeCreated name) ∉ out
         | None => B = _initialize_scope_dict ∧ Core (OkScopeCreated name) ∈ out
         end
       ∧ ∀ m, m ≠ name →
              scope_kept (load_config (Some data)) (load_config (Some saved)) m).
Proof.
  unfold handle_scope_set_cmd. rewrite check_config_initialized_Some. cbn [negb].
  set (cfg := load_config (Some data)).
  assert (Hc : loaded cfg) by apply load_config_loaded.
  split.
  - intros Hv. destruct (scope_name_error name) as [e|] eqn:E; [by eexists|].
    apply is_valid_scope_name_error in E. congruence.
  - intros Hv. pose proof (is_valid_not_pointer_key _ Hv) as Hk.
    rewrite (proj1 (is_valid_scope_name_error name) Hv).
    set (cfg1 := <[CURRENT_SCOPE_KEY := VStr name]> cfg).
    assert (Hc1 : loaded cfg1) by by apply loaded_insert_str.
    assert (Hd1 : get_scope_data cfg1 name = get_scope_data cfg name)
      by by apply get_scope_data_insert_ne.
    rewrite Hd1. destruct (get_scope_data cfg name) as [A|] eqn:EA.
    + rewrite bool_decide_true by by eexists. simpl.
      destruct (after_save cfg1 name Hc1) as [Hp Hkept].
      unfold scope_kept in Hkept. rewrite Hd1 in Hkept.
      destruct Hkept as (B & HB & Hsame).
      eexists _, _, B. split; [done|]. split; [|split; [done|split; [split|]]].
      * rewrite Hp. apply pointer_insert_eq.
      * done.
      * not_in_list.
      * intros m Hm. destruct (after_save cfg1 m Hc1) as [_ Hkept].
        eapply scope_kept_trans; [|exact Hkept].
        apply scope_kept_eq, get_scope_data_insert_pointer.
    + rewrite bool_decide_false by by intros [? ?]. simpl.
      set (cfg2 := <[name := VScope _initialize_scope_dict]> cfg1).
      assert (Hc2 : loaded cfg2) by (apply loaded_insert_scope; [done|by eexists]).
      destruct (after_save cfg2 name Hc2) as [Hp _].
      eexists _, _, _. split; [done|]. split; [|split; [|split; [split|]]].
      * rewrite Hp. unfold cfg2. rewrite pointer_insert_ne by done.
        apply pointer_insert_eq.
      * apply save_initial_scope; [done| |done]. apply lookup_insert_eq.
      * done.
      * left.
      * intros m Hm. destruct (after_save cfg2 m Hc2) as [_ Hkept].
        eapply scope_kept_trans; [|exact Hkept].
        apply scope_kept_eq. unfold cfg2. rewrite get_scope_data_insert_ne by done.
        apply get_scope_data_insert_pointer.
Qed.

Lemma X7_use_makes_scope_active_witness :
  (∃ e, handle_scope_set_cmd (Some c8_disk) "copy"
        = (([ErrName e], SysExit 1), Some c8_disk))
  ∧ ∃ out saved B,
      handle_scope_set_cmd (Some c8_disk) "docs" = ((out, Return tt), Some saved)
      ∧ get_current_scope_name (load_config (Some saved)) = Some "docs"
      ∧ get_scope_data (load_config (Some saved)) "docs" = Some B.
Proof.
  split.
  - apply (X7_use_makes_scope_active c8_disk "copy"). by vm_compute.
  - destruct (X7_use_makes_scope_active c8_disk "docs") as [_ H].
    destruct H as (out & saved & B & Hrun & Hp & HB & _); [by vm_compute|].
    exists out, saved, B. split; [exact Hrun|]. split; [exact Hp|exact HB].
Defined.

(** X8.  [klyp scope add name]: an invalid name exits with code 1; a name
    that is a scope already is reported, the run ends normally and
    nothing is written; a new valid name becomes the empty scope, with
    the active pointer and every other scope as they were. *)
Theorem X8_scope_add_creates_empty_scope (data : config) (name : string) :
  let cfg := load_config (Some data) in
  (is_valid_scope_name name = false →
   ∃ e, handle_scope_add_cmd (Some data) name = (([ErrName e], SysExit 1), Some data))
  ∧ (is_Some (get_scope_data cfg name) →
     handle_scope_add_cmd (Some data) name
     = (([WarnScopeExists name], Return tt), Some data))
  ∧ (is_valid_scope_name name = true → get_scope_data cfg name = None →
     ∃ saved,
       handle_scope_add_cmd (Some data) name
       = (([OkScopeAdded name], Return tt), Some saved)
       ∧ get_scope_data (load_config (Some saved)) name = Some _initialize_scope_dict
       ∧ get_current_scope_name (load_config (Some saved))
         = get_current_scope_name cfg
       ∧ ∀ m, m ≠ name → scope_kept cfg (load_config (Some saved)) m).
Proof.
  intros cfg. unfold handle_scope_add_cmd.
  rewrite check_config_initialized_Some. cbn [negb]. fold cfg.
  assert (Hc : loaded cfg) by apply load_config_loaded.
  split_and!.
  - intros Hv. destruct (scope_name_error name) as [e|] eqn:E; [by eexists|].
    apply is_valid_scope_name_error in E. congruence.
  - intros [A HA]. destruct (get_scope_data_valid _ _ _ HA) as [Hv _].
    rewrite (proj1 (is_valid_scope_name_error name) Hv).
    rewrite bool_decide_true by by eexists. done.
  - intros Hv Hnone. pose proof (is_valid_not_pointer_key _ Hv) as Hk.
    rewrite (proj1 (is_valid_scope_name_error name) Hv), Hnone.
    rewrite bool_decide_false by by intros [? ?].
    set (cfg1 := <[name := VScope _initialize_scope_dict]> cfg).
    assert (Hc1 : loaded cfg1) by (apply loaded_insert_scope; [done|by eexists]).
    eexists. split_and!; [done| | |].
    + apply save_initial_scope; [done| |done]. apply lookup_insert_eq.
    + destruct (after_save cfg1 name Hc1) as [-> _]. by apply pointer_insert_ne.
    + intros m Hm. destruct (after_save cfg1 m Hc1) as [_ Hkept].
      eapply scope_kept_trans; [|exact Hkept].
      apply scope_kept_eq. by apply get_scope_data_insert_ne.
Qed.

Lemma X8_scope_add_creates_empty_scope_witness :
  handle_scope_add_cmd (Some c8_disk) "work"
  = (([WarnScopeExists "work"], Return tt), Some c8_disk)
  ∧ ∃ saved,
      handle_scope_add_cmd (Some c8_disk) "docs"
      = (([OkScopeAdded "docs"], Return tt), Some saved)
      ∧ get_scope_data (load_config (Some saved)) "docs" = Some _initialize_scope_dict.
Proof.
  destruct (X8_scope_add_creates_empty_scope c8_disk "work") as (_ & H & _).
  destruct (X8_scope_add_creates_empty_scope c8_disk "docs") as (_ & _ & H').
  split.
  - apply H. by vm_compute; eexists.
  - destruct H' as (saved & Hrun & HB & _); [vm_compute; reflexivity..|].
    exists saved. split; [exact Hrun|exact HB].
Defined.

(** X9.  [klyp scope delete name]: a name that is no scope exits with
    code 1; an answer other than [y] (trimmed, in lower case) leaves the
    config file as it is; with the answer [y] the scope is gone, the
    active pointer is cleared if it named the scope and is kept
    otherwise (no other scope is chosen), and every other scope is
    kept. *)
Theorem X9_scope_delete_clears_pointer (data : config) (name answer : string) :
  let cfg := load_config (Some data) in
  (get_scope_data cfg name = None →
   handle_scope_delete_cmd (Some data) name answer
   = (([ErrScopeMissing name], SysExit 1), Some data))
  ∧ (is_Some (get_scope_data cfg name) → typed answer ≠ "y" →
     handle_scope_delete_cmd (Some data) name answer
     = (([AskDelete name; DeletionCancelled], Return tt), Some data))
  ∧ (is_Some (get_scope_data cfg name) → typed answer = "y" →
     ∃ out saved,
       handle_scope_delete_cmd (Some data) name answer
       = ((out, Return tt), Some saved)
       ∧ get_scope_data (load_config (Some saved)) name = None
       ∧ get_current_scope_name (load_config (Some saved))
         = (if bool_decide (get_current_scope_name cfg = Some name) then None
            else get_current_scope_name cfg)
       ∧ ∀ m, m ≠ name → scope_kept cfg (load_config (Some saved)) m).
Proof.
  intros cfg. unfold handle_scope_delete_cmd.
  rewrite check_config_initialized_Some. cbn [negb]. fold cfg.
  assert (Hc : loaded cfg) by apply load_config_loaded.
  split_and!.
  - intros ->. by rewrite bool_decide_false by by intros [? ?].
  - intros Hs Hy. rewrite bool_decide_true by done. simpl.
    by rewrite (proj2 (String.eqb_neq _ _) Hy).
  - intros [A HA] Hy. rewrite bool_decide_true by by eexists. simpl.
    rewrite Hy. simpl.
    destruct (get_scope_data_valid _ _ _ HA) as [Hv _].
    pose proof (is_valid_not_pointer_key _ Hv) as Hk.
    set (cfg1 := delete name cfg).
    assert (Hp1 : get_current_scope_name cfg1 = get_current_scope_name cfg)
      by by apply pointer_delete_ne.
    rewrite Hp1.
    set (cfg2 := if bool_decide (get_current_scope_name cfg = Some name)
                 then delete CURRENT_SCOPE_KEY cfg1 else cfg1).
    assert (Hc2 : loaded cfg2).
    { unfold cfg2. case_bool_decide; repeat apply loaded_delete; done. }
    assert (Hd2 : ∀ m, get_scope_data cfg2 m = get_scope_data cfg1 m).
    { intros m. unfold cfg2. case_bool_decide; [|done].
      apply get_scope_data_delete_pointer. }
    eexists _, _. split_and!; [done| | |].
    + destruct (after_save cfg2 name Hc2) as [_ Hkept].
      unfold scope_kept in Hkept. rewrite Hd2 in Hkept. unfold cfg1 in Hkept.
      by rewrite get_scope_data_delete_eq in Hkept.
    + destruct (after_save cfg2 name Hc2) as [-> _]. unfold cfg2.
      case_bool_decide; [apply pointer_delete_eq|done].
    + intros m Hm. destruct (after_save cfg2 m Hc2) as [_ Hkept].
      eapply scope_kept_trans; [|exact Hkept].
      apply scope_kept_eq. rewrite Hd2. by apply get_scope_data_delete_ne.
Qed.

Lemma X9_scope_delete_clears_pointer_witness :
  handle_scope_delete_cmd (Some c8_disk) "work" "n"
  = (([AskDelete "work"; DeletionCancelled], Return tt), Some c8_disk)
  ∧ ∃ out saved,
      handle_scope_delete_cmd (Some c8_disk) "work" "y"
      = ((out, Return tt), Some saved)
      ∧ get_scope_data (load_config (Some saved)) "work" = None
      ∧ get_current_scope_name (load_config (Some saved)) = None.
Proof.
  destruct (X9_scope_delete_clears_pointer c8_disk "work" "n") as (_ & H & _).
  destruct (X9_scope_delete_clears_pointer c8_disk "work" "y") as (_ & _ & H').
  split.
  - apply H; [by vm_compute; eexists|by vm_compute].
  - destruct H' as (out & saved & Hrun & Hgone & Hp & _);
      [by vm_compute; eexists|by vm_compute|].
    exists out, saved. split; [exact Hrun|]. split; [exact Hgone|].
    rewrite Hp. vm_compute. reflexivity.
Defined.

(** ** Adding files *)

Lemma elem_of_regular_targets (env : Env) (paths : list string) (x : string) :
  x ∈ regular_targets env paths
  ↔ ∃ p, p ∈ paths ∧ Path_is_file env (Path_of_str p) = true
         ∧ x = Path_str (Path_resolve env (Path_of_str p)).
Proof.
  unfold regular_targets. rewrite list_elem_of_fmap. split.
  - intros (p & -> & Hp). apply list_elem_of_filter in Hp as [Hf Hp]. eauto.
  - intros (p & Hp & Hf & ->). exists p. split; [done|].
    by apply list_elem_of_filter.
Qed.

(** The loop over the arguments never ends the run; it appends the new
    regular files, once each, and counts them. *)
Lemma add_files_spec (env : Env) (root : Path) (target : string)
    (paths : list string) (l : list string) (n : nat) :
  ∃ out l' n',
    add_files env root target paths (l, n) = (out, Return (l', n'))
    ∧ (∀ x, x ∈ l' ↔ x ∈ l ∨ x ∈ regular_targets env paths)
    ∧ (NoDup l → NoDup l')
    ∧ (n ≤ n')%nat
    ∧ length l' = (length l + (n' - n))%nat
    ∧ (n' = n → l' = l).
Proof.
  revert l n. induction paths as [|p ps IH]; intros l n.
  - exists [], l, n. split; [done|]. split_and!; try done; [|lia].
    intros x. rewrite elem_of_regular_targets. split; [by left|].
    intros [?|(q & Hq & _)]; [done|]. by apply elem_of_nil in Hq.
  - cbn [add_files].
    destruct (Path_is_file env (Path_of_str p)) eqn:Hf; cbn [negb].
    + case_bool_decide as Hin; cbn [negb].
      * destruct (IH l n) as (out & l' & n' & Hrun & Hmem & Hnd & Hle & Hlen & Hsame).
        rewrite print_then, Hrun. eexists _, l', n'. split; [done|].
        split_and!; try done.
        intros x. rewrite Hmem, !elem_of_regular_targets. split.
        -- intros [?|(q & Hq & Hqf & ->)]; [by left|].
           right. exists q. split; [by right|done].
        -- intros [?|(q & Hq & Hqf & ->)]; [by left|].
           apply elem_of_cons in Hq as [->|Hq]; [by left|].
           right. exists q. done.
      * destruct (IH (l ++ [Path_str (Path_resolve env (Path_of_str p))]) (S n))
          as (out & l' & n' & Hrun & Hmem & Hnd & Hle & Hlen & Hsame).
        rewrite print_then, Hrun. eexists _, l', n'. split; [done|].
        rewrite length_app in Hlen. simpl in Hlen.
        split_and!; [| |lia|lia|lia].
        -- intros x. rewrite Hmem, elem_of_app, list_elem_of_singleton,
             !elem_of_regular_targets. split.
           ++ intros [[?| ->]|(q & Hq & Hqf & ->)]; [by left| |].
              ** right. exists p. split; [by left|done].
              ** right. exists q. split; [by right|done].
           ++ intros [?|(q & Hq & Hqf & ->)]; [by left; left|].
              apply elem_of_cons in Hq as [->|Hq]; [by left; right|].
              right. exists q. done.
        -- intros Hl. apply Hnd. apply NoDup_app. split_and!; [done| |apply NoDup_singleton].
           intros x Hx Hx'. apply list_elem_of_singleton in Hx' as ->. done.
    + destruct (IH l n) as (out & l' & n' & Hrun & Hmem & Hnd & Hle & Hlen & Hsame).
      rewrite print_then, Hrun. eexists _, l', n'. split; [done|].
      split_and!; try done.
      intros x. rewrite Hmem, !elem_of_regular_targets. split.
      * intros [?|(q & Hq & Hqf & ->)]; [by left|].
        right. exists q. split; [by right|done].
      * intros [?|(q & Hq & Hqf & ->)]; [by left|].
        apply elem_of_cons in Hq as [->|Hq]; [congruence|].
        right. exists q. done.
Qed.

Lemma is_valid_truthy (n : string) : is_valid_scope_name n = true → Py.truthy n = true.
Proof. unfold is_valid_scope_name. by destruct (Py.truthy n). Qed.



(** X11.  [klyp add file ...] on a valid name that is no scope yet reports
    the scope as created.  The scope is written only if an argument is a
    regular file: it then tracks exactly those files; when no argument is
    a regular file the config file is left as it was, so the scope
    reported as created does not exist afterwards. *)
Theorem X11_add_creates_scope_only_with_a_file (env : Env) (root : Path)
    (data : config) (args : add_args) (target : string) :
  let cfg := load_config (Some data) in
  add_context args = false → add_prompt args = false →
  py_or (scope_name args) (get_current_scope_name cfg) = Some target →
  is_valid_scope_name target = true →
  get_scope_data cfg target = None →
  ∃ out disk',
    handle_add_cmd env root (Some data) args
    = ((OkScopeCreated target :: out, Return tt), disk')
    ∧ (regular_targets env (file_paths args) = [] → disk' = Some data)
    ∧ (regular_targets env (file_paths args) ≠ [] →
       ∃ B, get_scope_data (load_config disk') target = Some B
            ∧ (∀ x, x ∈ default [] (files B)
                    ↔ x ∈ regular_targets env (file_paths args))
            ∧ context_file B = None
            ∧ prompt_file B = None).
Proof.
  intros cfg Hctx Hprompt Hpy Hv Hnone.
  assert (Hc : loaded cfg) by apply load_config_loaded.
  unfold handle_add_cmd. rewrite check_config_initialized_Some. cbn [negb].
  fold cfg. rewrite Hpy, (is_valid_truthy _ Hv), Hnone, Hctx, Hprompt, Hv.
  rewrite bool_decide_false by by intros [? ?].
  cbn [negb andb orb default from_option id files context_file prompt_file
       _initialize_scope_dict].
  destruct (add_files_spec env root target (file_paths args) [] 0)
    as (out & l' & n' & Hrun & Hmem & _ & _ & Hlen & Hsame).
  unfold _initialize_scope_dict. cbn [files context_file prompt_file].
  rewrite Hrun. exists out. destruct n' as [|n'].
  - exists (Some data). split; [done|]. split; [done|].
    intros Hne. rewrite (Hsame eq_refl) in Hmem.
    destruct (regular_targets env (file_paths args)) as [|x r]; [done|].
    assert (x ∈ @nil string) as H by (apply Hmem; right; left).
    by apply elem_of_nil in H.
  - eexists. split; [done|]. split.
    + intros Hnil. rewrite Hnil in Hmem. destruct l' as [|x l']; [done|].
      assert (x ∈ @nil string ∨ x ∈ @nil string) as [H|H] by (apply Hmem; left);
        by apply elem_of_nil in H.
    + intros _.
      set (B0 := {| files := Some l'; context_file := None; prompt_file := None |}).
      set (cfg1 := <[target := VScope B0]> _).
      assert (Hc1 : loaded cfg1).
      { repeat apply loaded_insert_scope; [done|by eexists..]. }
      assert (HB0 : get_scope_data cfg1 target = Some B0)
        by (apply get_scope_data_insert_eq; [done|by eexists]).
      destruct (after_save cfg1 target Hc1) as [Hp Hkept].
      unfold scope_kept in Hkept. rewrite HB0 in Hkept.
      destruct Hkept as (B & HB & Hset & HBc & HBp).
      exists B. split; [done|]. split_and!; [|done|done].
      intros x. rewrite <- Hset. cbn [B0 files default from_option id].
      rewrite Hmem. split; [|by right].
      intros [H|H]; [by apply elem_of_nil in H|done].
Qed.

Lemma X11_add_creates_scope_only_with_a_file_witness :
  ∃ out,
    handle_add_cmd c8_env demo_root (Some c8_disk)
      {| add_context := false; add_prompt := false;
         file_paths := ["missing.txt"]; scope_name := Some "docs" |}
    = ((OkScopeCreated "docs" :: out, Return tt), Some c8_disk).
Proof.
  destruct (X11_add_creates_scope_only_with_a_file c8_env demo_root c8_disk
              {| add_context := false; add_prompt := false;
                 file_paths := ["missing.txt"]; scope_name := Some "docs" |} "docs")
    as (out & disk' & Hrun & Hnil & _);
    [reflexivity|reflexivity|vm_compute; reflexivity|vm_compute; reflexivity
    |vm_compute; reflexivity|].
  assert (disk' = Some c8_disk) as -> by (apply Hnil; vm_compute; reflexivity).
  exists out. exact Hrun.
Defined.

(** X12.  [klyp add --context file] and [klyp add --prompt file] on a
    scope, or on a valid name that is no scope yet: a file that is not a
    regular file ends the run with code 1 and nothing is written;
    otherwise the resolved path becomes the context (or prompt) file of
    the scope, whose other special file and tracked files are as they
    were (none for a new scope), and so are the active pointer and the
    other scopes.  Given both options, the file is the context file. *)
Theorem X12_add_sets_the_special_file (env : Env) (root : Path) (data : config)
    (args : add_args) (target file : string) (rest : list string) :
  let cfg := load_config (Some data) in
  let A := default _initialize_scope_dict (get_scope_data cfg target) in
  let p := Some (Path_str (Path_resolve env (Path_of_str file))) in
  add_context args || add_prompt args = true →
  file_paths args = file :: rest →
  py_or (scope_name args) (get_current_scope_name cfg) = Some target →
  is_valid_scope_name target = true →
  (Path_is_file env (Path_of_str file) = false →
   ∃ out, handle_add_cmd env root (Some data) args = ((out, SysExit 1), Some data))
  ∧ (Path_is_file env (Path_of_str file) = true →
     ∃ out saved B,
       handle_add_cmd env root (Some data) args = ((out, Return tt), Some saved)
       ∧ get_scope_data (load_config (Some saved)) target = Some B
       ∧ context_file B = (if add_context args then p else context_file A)
       ∧ prompt_file B = (if add_context args then prompt_file A else p)
       ∧ (∀ x, x ∈ default [] (files B) ↔ x ∈ default [] (files A))
       ∧ get_current_scope_name (load_config (Some saved))
         = get_current_scope_name cfg
       ∧ ∀ m, m ≠ target → scope_kept cfg (load_config (Some saved)) m).
Proof.
  intros cfg A p Hopt Hpaths Hpy Hv.
  assert (Hc : loaded cfg) by apply load_config_loaded.
  pose proof (is_valid_not_pointer_key _ Hv) as Hk.
  unfold handle_add_cmd. rewrite check_config_initialized_Some. cbn [negb].
  fold cfg. rewrite Hpy, (is_valid_truthy _ Hv), Hv, Hopt, Hpaths.
  rewrite andb_false_r. cbn [negb]. fold A.
  set (cfg0 := match get_scope_data cfg target with
               | Some _ => cfg
               | None => <[target := VScope A]> cfg
               end).
  assert (HfA : is_Some (files A)).
  { unfold A. destruct (get_scope_data cfg target) as [A0|] eqn:E; [|by eexists].
    by destruct (get_scope_data_valid _ _ _ E). }
  assert (Hc0 : loaded cfg0).
  { unfold cfg0. destruct (get_scope_data cfg target); [done|].
    by apply loaded_insert_scope. }
  assert (Hd0 : ∀ m, m ≠ target → get_scope_data cfg0 m = get_scope_data cfg m).
  { intros m Hm. unfold cfg0. destruct (get_scope_data cfg target); [done|].
    by apply get_scope_data_insert_ne. }
  assert (Hp0 : get_current_scope_name cfg0 = get_current_scope_name cfg).
  { unfold cfg0. destruct (get_scope_data cfg target); [done|].
    by apply pointer_insert_ne. }
  split.
  - intros Hf. rewrite Hf. cbn [negb]. by eexists.
  - intros Hf. rewrite Hf. cbn [negb].
    set (B0 := if add_context args then mkScope _ _ _ else _).
    assert (HfB0 : files B0 = files A) by (unfold B0; by destruct (add_context args)).
    set (cfg1 := <[target := VScope B0]> cfg0).
    assert (Hc1 : loaded cfg1).
    { apply loaded_insert_scope; [done|]. by rewrite HfB0. }
    assert (HB0 : get_scope_data cfg1 target = Some B0).
    { apply get_scope_data_insert_eq; [done|]. by rewrite HfB0. }
    destruct (after_save cfg1 target Hc1) as [Hp Hkept].
    unfold scope_kept in Hkept. rewrite HB0 in Hkept.
    destruct Hkept as (B & HB & Hset & HBc & HBp).
    eexists _, _, B. split; [done|]. split; [done|]. split_and!.
    + rewrite <- HBc. unfold B0. by destruct (add_context args).
    + rewrite <- HBp. unfold B0. by destruct (add_context args).
    + intros x. by rewrite <- Hset, HfB0.
    + rewrite Hp. unfold cfg1. by rewrite pointer_insert_ne.
    + intros m Hm. destruct (after_save cfg1 m Hc1) as [_ Hkm].
      eapply scope_kept_trans; [|exact Hkm].
      apply scope_kept_eq. unfold cfg1.
      rewrite get_scope_data_insert_ne by done. by apply Hd0.
Qed.

Lemma X12_add_sets_the_special_file_witness :
  ∃ out saved B,
    handle_add_cmd c8_env demo_root (Some c8_disk)
      {| add_context := true; add_prompt := false;
         file_paths := ["a.txt"]; scope_name := None |}
    = ((out, Return tt), Some saved)
    ∧ get_scope_data (load_config (Some saved)) "work" = Some B
    ∧ context_file B = Some "/proj/a.txt".
Proof.
  destruct (X12_add_sets_the_special_file c8_env demo_root c8_disk
              {| add_context := true; add_prompt := false;
                 file_paths := ["a.txt"]; scope_name := None |} "work" "a.txt" [])
    as [_ H];
    [reflexivity|reflexivity|vm_compute; reflexivity|vm_compute; reflexivity|].
  destruct H as (out & saved & B & Hrun & HB & Hc & _); [vm_compute; reflexivity|].
  exists out, saved, B. split; [exact Hrun|]. split; [exact HB|].
  rewrite Hc. vm_compute. reflexivity.
Defined.

(** ** Removing files *)

Lemma elem_of_list_remove (x y : string) (l : list string) :
  NoDup l → y ∈ list_remove x l ↔ y ∈ l ∧ y ≠ x.
Proof.
  induction 1 as [|z l Hz Hnd IH]; simpl.
  - rewrite elem_of_nil. tauto.
  - destruct (String.eqb_spec x z) as [->|Hne].
    + rewrite elem_of_cons. split.
      * intros Hy. split; [by right|]. by intros ->.
      * intros [[->|Hy] Hyz]; done.
    + rewrite !elem_of_cons, IH. split.
      * intros [->|[Hy Hyx]]; [split; [by left|done]|split; [by right|done]].
      * intros [[->|Hy] Hyx]; [by left|by right].
Qed.

(** X13.  [klyp remove file [scope]] on a scope that exists.  A path that
    resolves to no tracked file is reported, the run ends normally and
    nothing is written.  A path that resolves to a tracked file of a list
    without repetition leaves the scope tracking the other files and only
    them; its context and prompt file, the active pointer and the other
    scopes are as they were. *)
Theorem X13_remove_untracks_the_file (env : Env) (root : Path) (data : config)
    (args : remove_args) (target file : string) (A : scope_dict) :
  let cfg := load_config (Some data) in
  let x := Path_str (Path_resolve env (Path_of_str file)) in
  remove_context args = false → remove_prompt args = false →
  file_path args = Some file → Py.truthy file = true →
  py_or (remove_scope_name args) (get_current_scope_name cfg) = Some target →
  get_scope_data cfg target = Some A →
  (x ∉ default [] (files A) →
   ∃ dp, handle_remove_cmd env root (Some data) args
         = (([ErrFileNotInScope file dp target], Return tt), Some data))
  ∧ (x ∈ default [] (files A) → NoDup (default [] (files A)) →
     ∃ out saved B,
       handle_remove_cmd env root (Some data) args = ((out, Return tt), Some saved)
       ∧ get_scope_data (load_config (Some saved)) target = Some B
       ∧ (∀ y, y ∈ default [] (files B) ↔ y ∈ default [] (files A) ∧ y ≠ x)
       ∧ context_file B = context_file A
       ∧ prompt_file B = prompt_file A
       ∧ get_current_scope_name (load_config (Some saved))
         = get_current_scope_name cfg
       ∧ ∀ m, m ≠ target → scope_kept cfg (load_config (Some saved)) m).
Proof.
  intros cfg x Hctx Hprompt Hfile Hft Hpy HA.
  assert (Hc : loaded cfg) by apply load_config_loaded.
  destruct (get_scope_data_valid _ _ _ HA) as [Hv _].
  pose proof (is_valid_not_pointer_key _ Hv) as Hk.
  unfold handle_remove_cmd. rewrite check_config_initialized_Some. cbn [negb].
  fold cfg. unfold py_or in Hpy. rewrite Hpy.
  cbn [truthy_opt default from_option id]. rewrite (is_valid_truthy _ Hv), HA.
  cbn [negb]. rewrite Hctx, Hprompt, Hfile.
  cbn [truthy_opt default from_option id]. rewrite Hft. fold x.
  split.
  - intros Hx. rewrite bool_decide_false by done. by eexists.
  - intros Hx Hnd. rewrite bool_decide_true by done.
    set (B0 := mkScope _ _ _).
    set (cfg1 := <[target := VScope B0]> cfg).
    assert (Hc1 : loaded cfg1) by (apply loaded_insert_scope; [done|by eexists]).
    assert (HB0 : get_scope_data cfg1 target = Some B0)
      by (apply get_scope_data_insert_eq; [done|by eexists]).
    destruct (after_save cfg1 target Hc1) as [Hp Hkept].
    unfold scope_kept in Hkept. rewrite HB0 in Hkept.
    destruct Hkept as (B & HB & Hset & HBc & HBp).
    eexists _, _, B. split; [done|]. split; [done|]. split_and!.
    + intros y. rewrite <- Hset. cbn [B0 files default from_option id].
      by apply elem_of_list_remove.
    + done.
    + done.
    + rewrite Hp. by apply pointer_insert_ne.
    + intros m Hm. destruct (after_save cfg1 m Hc1) as [_ Hkm].
      eapply scope_kept_trans; [|exact Hkm].
      apply scope_kept_eq. by apply get_scope_data_insert_ne.
Qed.

Lemma X13_remove_untracks_the_file_witness :
  ∃ out saved B,
    handle_remove_cmd c8_env demo_root (Some c7_disk)
      {| remove_context := false; remove_prompt := false;
         file_path := Some "a.txt"; remove_scope_name := None |}
    = ((out, Return tt), Some saved)
    ∧ get_scope_data (load_config (Some saved)) "alpha" = Some B
    ∧ context_file B = Some "/proj/ctx.md".
Proof.
  destruct (X13_remove_untracks_the_file c8_env demo_root c7_disk
              {| remove_context := false; remove_prompt := false;
                 file_path := Some "a.txt"; remove_scope_name := None |}
              "alpha" "a.txt"
              {| files := Some ["/proj/a.txt"; "/proj/b.txt"];
                 context_file := Some "/proj/ctx.md"; prompt_file := None |})
    as [_ H];
    [reflexivity|reflexivity|reflexivity|reflexivity
    |vm_compute; reflexivity|vm_compute; reflexivity|].
  destruct H as (out & saved & B & Hrun & HB & _ & Hc & _).
  - apply (bool_decide_unpack _). vm_compute. exact I.
  - apply (bool_decide_unpack _). vm_compute. exact I.
  - exists out, saved, B. split; [exact Hrun|]. split; [exact HB|exact Hc].
Defined.

(** X14.  [klyp remove --context [scope]] and [klyp remove --prompt
    [scope]] on a scope that exists: when the scope has no such file the
    run ends normally with a warning and nothing is written; otherwise
    that file is unset, and the other special file, the tracked files,
    the active pointer and the other scopes are as they were.  Given both
    options, it is the context file that goes. *)
Theorem X14_remove_unsets_the_special_file (env : Env) (root : Path)
    (data : config) (args : remove_args) (target : string) (A : scope_dict) :
  let cfg := load_config (Some data) in
  let current := if remove_context args then context_file A else prompt_file A in
  remove_context args || remove_prompt args = true →
  py_or (remove_scope_name args) (get_current_scope_name cfg) = Some target →
  get_scope_data cfg target = Some A →
  (truthy_opt current = false →
   handle_remove_cmd env root (Some data) args
   = (([if remove_context args then WarnNoContextSet target
        else WarnNoPromptSet target], Return tt), Some data))
  ∧ (truthy_opt current = true →
     ∃ out saved B,
       handle_remove_cmd env root (Some data) args = ((out, Return tt), Some saved)
       ∧ get_scope_data (load_config (Some saved)) target = Some B
       ∧ context_file B = (if remove_context args then None else context_file A)
       ∧ prompt_file B = (if remove_context args then prompt_file A else None)
       ∧ (∀ y, y ∈ default [] (files B) ↔ y ∈ default [] (files A))
       ∧ get_current_scope_name (load_config (Some saved))
         = get_current_scope_name cfg
       ∧ ∀ m, m ≠ target → scope_kept cfg (load_config (Some saved)) m).
Proof.
  intros cfg current Hopt Hpy HA.
  assert (Hc : loaded cfg) by apply load_config_loaded.
  destruct (get_scope_data_valid _ _ _ HA) as [Hv HfA].
  pose proof (is_valid_not_pointer_key _ Hv) as Hk.
  unfold handle_remove_cmd. rewrite check_config_initialized_Some. cbn [negb].
  fold cfg. unfold py_or in Hpy. rewrite Hpy.
  cbn [truthy_opt default from_option id]. rewrite (is_valid_truthy _ Hv), HA.
  cbn [negb].
  assert (Hsaved : ∀ B0 : scope_dict,
            files B0 = files A →
            ∃ B, get_scope_data
                   (load_config (Some (save_config (<[target := VScope B0]> cfg))))
                   target = Some B
                 ∧ context_file B = context_file B0
                 ∧ prompt_file B = prompt_file B0
                 ∧ (∀ y, y ∈ default [] (files B) ↔ y ∈ default [] (files A))
                 ∧ get_current_scope_name
                     (load_config (Some (save_config (<[target := VScope B0]> cfg))))
                   = get_current_scope_name cfg
                 ∧ ∀ m, m ≠ target →
                        scope_kept cfg
                          (load_config
                             (Some (save_config (<[target := VScope B0]> cfg)))) m).
  { intros B0 HfB0.
    set (cfg1 := <[target := VScope B0]> cfg).
    assert (Hc1 : loaded cfg1).
    { apply loaded_insert_scope; [done|]. by rewrite HfB0. }
    assert (HB0 : get_scope_data cfg1 target = Some B0).
    { apply get_scope_data_insert_eq; [done|]. by rewrite HfB0. }
    destruct (after_save cfg1 target Hc1) as [Hp Hkept].
    unfold scope_kept in Hkept. rewrite HB0 in Hkept.
    destruct Hkept as (B & HB & Hset & HBc & HBp).
    exists B. split; [done|]. split_and!; [done|done| | |].
    - intros y. by rewrite <- Hset, HfB0.
    - rewrite Hp. by apply pointer_insert_ne.
    - intros m Hm. destruct (after_save cfg1 m Hc1) as [_ Hkm].
      eapply scope_kept_trans; [|exact Hkm].
      apply scope_kept_eq. by apply get_scope_data_insert_ne. }
  unfold current. destruct (remove_context args) eqn:Erc.
  - split.
    + by intros ->.
    + intros ->.
      destruct (Hsaved {| files := files A; context_file := None;
                          prompt_file := prompt_file A |} eq_refl)
        as (B & HB & HBc & HBp & Hrest).
      eexists _, _, B. split; [done|]. split; [done|].
      split; [exact HBc|]. split; [exact HBp|]. exact Hrest.
  - simpl in Hopt. rewrite Hopt. split.
    + by intros ->.
    + intros ->.
      destruct (Hsaved {| files := files A; context_file := context_file A;
                          prompt_file := None |} eq_refl)
        as (B & HB & HBc & HBp & Hrest).
      eexists _, _, B. split; [done|]. split; [done|].
      split; [exact HBc|]. split; [exact HBp|]. exact Hrest.
Qed.

Lemma X14_remove_unsets_the_special_file_witness :
  ∃ out saved B,
    handle_remove_cmd c8_env demo_root (Some c7_disk)
      {| remove_context := true; remove_prompt := false;
         file_path := None; remove_scope_name := Some "alpha" |}
    = ((out, Return tt), Some saved)
    ∧ get_scope_data (load_config (Some saved)) "alpha" = Some B
    ∧ context_file B = None.
Proof.
  destruct (X14_remove_unsets_the_special_file c8_env demo_root c7_disk
              {| remove_context := true; remove_prompt := false;
                 file_path := None; remove_scope_name := Some "alpha" |}
              "alpha"
              {| files := Some ["/proj/a.txt"; "/proj/b.txt"];
                 context_file := Some "/proj/ctx.md"; prompt_file := None |})
    as [_ H]; [reflexivity|vm_compute; reflexivity|vm_compute; reflexivity|].
  destruct H as (out & saved & B & Hrun & HB & Hc & _); [reflexivity|].
  exists out, saved, B. split; [exact Hrun|]. split; [exact HB|exact Hc].
Defined.

(** ** Listing the scopes *)

Lemma elem_of_scope_names (cfg : config) (n : string) :
  n ∈ scope_names cfg ↔ is_scope cfg n.
Proof.
  unfold scope_names, is_scope. rewrite sorted_perm, list_elem_of_filter.
  split; [by intros [? _]|]. intros Hs. split; [done|].
  destruct Hs as [d Hd]. apply get_scope_data_Some in Hd as (_ & Hlook & _).
  apply list_elem_of_fmap. exists (n, VScope d). split; [done|].
  by apply elem_of_map_to_list.
Qed.

Lemma scope_names_NoDup (cfg : config) : NoDup (scope_names cfg).
Proof.
  unfold scope_names. rewrite sorted_perm.
  apply NoDup_filter, NoDup_fst_map_to_list.
Qed.

(** X15.  [klyp scope list], on a document whose pointer is a string when
    it is stored, prints two lines.  The first names the active scope
    when the pointer names a scope; a pointer that is not empty and names
    no scope is reported as set but invalid (it is not the "no active
    scope" line).  The second lists the scopes, all of them, each once,
    in code-point order, or says that there is none. *)
Theorem X15_scope_list_shows_every_scope (data : config) :
  let cfg := load_config (Some data) in
  pointer_is_text cfg →
  ∃ first second,
    handle_scope_list_cmd (Some data) = ([first; second], Return tt)
    ∧ (∀ s, first = MsgActiveScope s
            ↔ get_current_scope_name cfg = Some s ∧ is_scope cfg s)
    ∧ (∀ s, first = MsgActiveScopeInvalid s
            ↔ get_current_scope_name cfg = Some s ∧ s ≠ "" ∧ ¬ is_scope cfg s)
    ∧ (second = MsgNoScopesDefined ↔ ∀ n, ¬ is_scope cfg n)
    ∧ (∀ l, second = MsgAvailableScopes l →
            Sorted String.le l ∧ NoDup l ∧ ∀ n, n ∈ l ↔ is_scope cfg n).
Proof.
  intros cfg _. unfold handle_scope_list_cmd.
  rewrite check_config_initialized_Some. cbn [negb]. fold cfg.
  eexists _, _. split; [done|]. split_and!.
  - intros s. destruct (get_current_scope_name cfg) as [a|] eqn:Ea;
      cbn [truthy_opt default from_option id andb].
    + destruct (Py.truthy a) eqn:Eta; cbn [andb].
      * case_bool_decide as Hs.
        -- split; [by intros [= <-]|]. by intros [[= <-] _].
        -- split; [done|]. by intros [[= <-] ?].
      * destruct a; [|done]. split; [done|].
        intros [[= <-] [d Hd]]. by destruct (get_scope_data_valid _ _ _ Hd).
    + split; [done|]. by intros [? _].
  - intros s. destruct (get_current_scope_name cfg) as [a|] eqn:Ea;
      cbn [truthy_opt default from_option id andb].
    + destruct (Py.truthy a) eqn:Eta; cbn [andb].
      * case_bool_decide as Hs.
        -- split; [done|]. by intros [[= <-] [_ ?]].
        -- split; [intros [= <-]|by intros [[= <-] _]].
           split; [done|]. split; [|done]. by intros ->.
      * destruct a; [|done]. split; [done|]. by intros [[= <-] [? _]].
    + split; [done|]. by intros [? _].
  - destruct (scope_names cfg) as [|n0 l0] eqn:El.
    + split; [|done]. intros _ n Hn. apply elem_of_scope_names in Hn.
      rewrite El in Hn. by apply elem_of_nil in Hn.
    + split; [done|]. intros Hno. destruct (Hno n0).
      apply elem_of_scope_names. rewrite El. left.
  - intros l Hl.
    assert (l = scope_names cfg) as ->.
    { destruct (scope_names cfg); [done|]. by injection Hl as <-. }
    split_and!.
    + apply sorted_Sorted.
    + apply scope_names_NoDup.
    + apply elem_of_scope_names.
Qed.

Lemma X15_scope_list_shows_every_scope_witness :
  ∃ first second,
    handle_scope_list_cmd (Some c7_disk_dangling) = ([first; second], Return tt)
    ∧ first = MsgActiveScopeInvalid "beta"
    ∧ second = MsgAvailableScopes ["alpha"].
Proof.
  destruct (X15_scope_list_shows_every_scope c7_disk_dangling)
    as (first & second & Hrun & _).
  - intros d Hd. vm_compute in Hd. discriminate Hd.
  - exists first, second. split; [exact Hrun|].
    assert (Heq : handle_scope_list_cmd (Some c7_disk_dangling)
                  = ([MsgActiveScopeInvalid "beta"; MsgAvailableScopes ["alpha"]],
                     Return tt)) by (vm_compute; reflexivity).
    rewrite Heq in Hrun. injection Hrun as <- <-. split; reflexivity.
Defined.

(** ** The pointer over a sequence of commands *)

Lemma pointer_ok_saved (cfg : config) :
  loaded cfg → pointer_ok cfg → pointer_ok (load_config (Some (save_config cfg))).
Proof.
  intros Hc Hp. rewrite load_save_of_loaded by done.
  unfold pointer_ok in *. rewrite pointer_save.
  destruct (get_current_scope_name cfg); [|done]. by apply is_scope_save.
Qed.

Lemma is_scope_insert_scope (cfg : config) (n s : string) (d : scope_dict) :
  is_valid_scope_name n = true → is_Some (files d) →
  is_scope cfg s → is_scope (<[n := VScope d]> cfg) s.
Proof.
  intros Hv Hf Hs. unfold is_scope. destruct (decide (n = s)) as [<-|Hne].
  - rewrite get_scope_data_insert_eq by done. by eexists.
  - by rewrite get_scope_data_insert_ne.
Qed.

Lemma pointer_ok_insert_scope (cfg : config) (n : string) (d : scope_dict) :
  is_valid_scope_name n = true → is_Some (files d) →
  pointer_ok cfg → pointer_ok (<[n := VScope d]> cfg).
Proof.
  intros Hv Hf Hp. unfold pointer_ok in *.
  rewrite pointer_insert_ne by by apply is_valid_not_pointer_key.
  destruct (get_current_scope_name cfg); [|done]. by apply is_scope_insert_scope.
Qed.

Lemma writes_scope_pointer_ok (cfg : config) (disk disk' : Disk) :
  cfg = load_config disk → writes_scope cfg disk disk' →
  pointer_ok cfg → pointer_ok (load_config disk').
Proof.
  intros -> [->|(n & d & Hv & Hf & ->)] Hp; [done|].
  apply pointer_ok_saved.
  - apply loaded_insert_scope; [apply load_config_loaded|done].
  - by apply pointer_ok_insert_scope.
Qed.

Lemma handle_add_cmd_writes (env : Env) (root : Path) (disk : Disk) (args : add_args) :
  writes_scope (load_config disk) disk (handle_add_cmd env root disk args).2.
Proof.
  unfold handle_add_cmd. set (cfg := load_config disk).
  destruct (negb (check_config_initialized disk cfg)); [by left|].
  destruct (py_or _ _) as [target|]; [|by left].
  destruct (negb (Py.truthy target)); [by left|].
  destruct (negb (bool_decide (is_Some (get_scope_data cfg target)))
            && negb (is_valid_scope_name target)) eqn:Hgo; [by left|].
  assert (Hv : is_valid_scope_name target = true).
  { destruct (get_scope_data cfg target) as [A|] eqn:EA.
    - by destruct (get_scope_data_valid _ _ _ EA).
    - rewrite bool_decide_false in Hgo by by intros [? ?].
      by destruct (is_valid_scope_name target). }
  set (A := default _initialize_scope_dict (get_scope_data cfg target)).
  assert (HfA : is_Some (files A)).
  { unfold A. destruct (get_scope_data cfg target) as [A0|] eqn:E; [|by eexists].
    by destruct (get_scope_data_valid _ _ _ E). }
  set (cfg0 := match get_scope_data cfg target with
               | Some _ => cfg
               | None => <[target := VScope A]> cfg
               end).
  assert (Hins : ∀ d, <[target := VScope d]> cfg0 = <[target := VScope d]> cfg).
  { intros d. unfold cfg0. destruct (get_scope_data cfg target); [done|].
    apply insert_insert_eq. }
  destruct (add_context args || add_prompt args).
  - destruct (file_paths args) as [|file rest]; [by left|].
    destruct (negb (Path_is_file env (Path_of_str file))); [by left|].
    right. cbn [snd]. rewrite Hins. eexists target, _. split; [done|].
    split; [|done]. by destruct (add_context args).
  - destruct (add_files_spec env root target (file_paths args)
                (default [] (files A)) 0) as (out & l' & n' & Hrun & _).
    rewrite Hrun. cbn [snd]. destruct (0 <? n')%nat; [|by left].
    right. rewrite Hins. eexists target, _. split; [done|]. split; [|done].
    by eexists.
Qed.

Lemma handle_remove_cmd_writes (env : Env) (root : Path) (disk : Disk)
    (args : remove_args) :
  writes_scope (load_config disk) disk (handle_remove_cmd env root disk args).2.
Proof.
  unfold handle_remove_cmd. set (cfg := load_config disk).
  destruct (negb (check_config_initialized disk cfg)); [by left|].
  destruct (negb (truthy_opt _)); [by left|].
  set (target := default "" _).
  destruct (get_scope_data cfg target) as [A|] eqn:EA; [|by left].
  destruct (get_scope_data_valid _ _ _ EA) as [Hv HfA].
  destruct (remove_context args).
  { destruct (truthy_opt (context_file A)); [|by left].
    right. eexists target, _. split; [done|]. split; [|reflexivity]. exact HfA. }
  destruct (remove_prompt args).
  { destruct (truthy_opt (prompt_file A)); [|by left].
    right. eexists target, _. split; [done|]. split; [|reflexivity]. exact HfA. }
  destruct (truthy_opt (file_path args)); [|by left].
  case_bool_decide; [|by left].
  right. eexists target, _. split; [done|]. split; [|done]. by eexists.
Qed.

Lemma handle_scope_add_cmd_writes (disk : Disk) (name : string) :
  writes_scope (load_config disk) disk (handle_scope_add_cmd disk name).2.
Proof.
  unfold handle_scope_add_cmd. set (cfg := load_config disk).
  destruct (negb (check_config_initialized disk cfg)); [by left|].
  destruct (scope_name_error name) eqn:E; [by left|].
  apply is_valid_scope_name_error in E.
  case_bool_decide; [by left|].
  right. eexists name, _. split; [done|]. split; [|done]. by eexists.
Qed.

Lemma handle_scope_set_cmd_pointer_ok (disk : Disk) (name : string) :
  pointer_ok (load_config disk) →
  pointer_ok (load_config (handle_scope_set_cmd disk name).2).
Proof.
  intros Hp. unfold handle_scope_set_cmd. set (cfg := load_config disk) in *.
  assert (Hc : loaded cfg) by apply load_config_loaded.
  destruct (negb (check_config_initialized disk cfg)); [done|].
  destruct (scope_name_error name) eqn:E; [done|].
  apply is_valid_scope_name_error in E.
  pose proof (is_valid_not_pointer_key _ E) as Hk.
  cbn [snd]. set (cfg1 := <[CURRENT_SCOPE_KEY := VStr name]> cfg).
  assert (Hc1 : loaded cfg1) by by apply loaded_insert_str.
  apply pointer_ok_saved.
  - destruct (negb _); [|done]. apply loaded_insert_scope; [done|by eexists].
  - unfold pointer_ok. case_bool_decide as Hs; cbn [negb].
    + unfold cfg1 at 1. by rewrite pointer_insert_eq.
    + rewrite pointer_insert_ne by done. unfold cfg1 at 1.
      rewrite pointer_insert_eq. unfold is_scope.
      rewrite get_scope_data_insert_eq; [by eexists|done|by eexists].
Qed.

Lemma handle_scope_delete_cmd_pointer_ok (disk : Disk) (name answer : string) :
  pointer_ok (load_config disk) →
  pointer_ok (load_config (handle_scope_delete_cmd disk name answer).2).
Proof.
  intros Hp. unfold handle_scope_delete_cmd. set (cfg := load_config disk) in *.
  assert (Hc : loaded cfg) by apply load_config_loaded.
  destruct (negb (check_config_initialized disk cfg)); [done|].
  case_bool_decide as Hs; cbn [negb]; [|done].
  destruct Hs as [A HA]. destruct (get_scope_data_valid _ _ _ HA) as [Hv _].
  pose proof (is_valid_not_pointer_key _ Hv) as Hk.
  destruct (String.eqb (typed answer) "y"); [|done]. cbn [snd].
  rewrite pointer_delete_ne by done.
  apply pointer_ok_saved.
  - case_bool_decide; repeat apply loaded_delete; done.
  - unfold pointer_ok in *. case_bool_decide as Hn.
    + by rewrite pointer_delete_eq.
    + rewrite pointer_delete_ne by done.
      destruct (get_current_scope_name cfg) as [s|]; [|done].
      unfold is_scope. rewrite get_scope_data_delete_ne; [done|].
      intros ->. done.
Qed.

Lemma handle_scope_rename_cmd_pointer_ok (disk : Disk) (old new : string) :
  pointer_ok (load_config disk) →
  pointer_ok (load_config (handle_scope_rename_cmd disk old new).2).
Proof.
  intros Hp. unfold handle_scope_rename_cmd. set (cfg := load_config disk) in *.
  assert (Hc : loaded cfg) by apply load_config_loaded.
  destruct (negb (check_config_initialized disk cfg)); [done|].
  destruct (get_scope_data cfg old) as [A|] eqn:EA; [|done].
  apply get_scope_data_Some in EA as (Hvo & Hlook & HfA).
  destruct (is_valid_scope_name new) eqn:Hvn; cbn [negb]; [|done].
  destruct (get_scope_data cfg new); [done|].
  destruct (String.eqb_spec old new) as [Heq|Hne]; [done|]. cbn [snd].
  rewrite Hlook.
  pose proof (is_valid_not_pointer_key _ Hvo) as Hko.
  pose proof (is_valid_not_pointer_key _ Hvn) as Hkn.
  set (cfg1 := <[new := VScope A]> (delete old cfg)).
  assert (Hc1 : loaded cfg1).
  { apply loaded_insert_scope; [by apply loaded_delete|done]. }
  assert (Hp1 : get_current_scope_name cfg1 = get_current_scope_name cfg).
  { unfold cfg1. by rewrite pointer_insert_ne, pointer_delete_ne. }
  assert (Hnew : is_scope cfg1 new).
  { unfold is_scope, cfg1. rewrite get_scope_data_insert_eq by done. by eexists. }
  apply pointer_ok_saved.
  - case_bool_decide; [by apply loaded_insert_str|done].
  - unfold pointer_ok in *. rewrite Hp1. case_bool_decide as Ho.
    + rewrite pointer_insert_eq. unfold is_scope.
      by rewrite get_scope_data_insert_pointer.
    + rewrite Hp1. destruct (get_current_scope_name cfg) as [s|]; [|done].
      destruct (decide (s = new)) as [->|Hsn]; [done|].
      unfold is_scope, cfg1.
      rewrite get_scope_data_insert_ne, get_scope_data_delete_ne; [done| |done].
      intros ->. done.
Qed.

(** X16.  No command makes the active pointer dangle: when the pointer of
    the config file is not set or names a scope, this is still so after
    any sequence of [use], [scope add], [scope delete], [scope rename],
    [add] and [remove], whatever their arguments, the answers typed and
    the files around. *)
Theorem X16_commands_keep_the_pointer_valid (env : Env) (root : Path)
    (disk : Disk) (cs : list command) :
  pointer_ok (load_config disk) →
  pointer_ok (load_config (run_commands env root disk cs)).
Proof.
  unfold run_commands. revert disk.
  induction cs as [|c cs IH]; intros disk Hp; [done|].
  cbn [foldl]. apply IH. destruct c as [n|n|n a|o n|args|args]; cbn [run_command].
  - by apply handle_scope_set_cmd_pointer_ok.
  - eapply writes_scope_pointer_ok; [done|apply handle_scope_add_cmd_writes|done].
  - by apply handle_scope_delete_cmd_pointer_ok.
  - by apply handle_scope_rename_cmd_pointer_ok.
  - eapply writes_scope_pointer_ok; [done|apply handle_add_cmd_writes|done].
  - eapply writes_scope_pointer_ok; [done|apply handle_remove_cmd_writes|done].
Qed.

Lemma X16_commands_keep_the_pointer_valid_witness :
  pointer_ok
    (load_config
       (run_commands c8_env demo_root (Some c8_disk)
          [CmdScopeRename "work" "job"; CmdScopeDelete "default" "y";
           CmdAdd (add_code_files ["a.txt"]); CmdScopeDelete "job" " Y "])).
Proof.
  apply (X16_commands_keep_the_pointer_valid c8_env demo_root (Some c8_disk)).
  vm_compute. eexists. reflexivity.
Defined.

(** * More of the assembler *)

(** ** The returned text *)

Lemma all_space_app (s t : string) :
  Py.all_space (s +:+ t) = Py.all_space s && Py.all_space t.
Proof.
  induction s as [|c s IH]; [done|].
  rewrite append_cons. simpl. by rewrite IH, andb_assoc.
Qed.

Lemma all_space_join (parts : list string) :
  Py.all_space (Py.join parts) = forallb Py.all_space parts.
Proof.
  induction parts as [|p ps IH]; [done|].
  unfold Py.join in *. simpl. by rewrite all_space_app, IH.
Qed.

Lemma lstrip_has_text (s : string) :
  Py.all_space s = false →
  ∃ c r, Py.lstrip s = String c r ∧ Py.isspace_char c = false.
Proof.
  induction s as [|c s IH]; [done|]. simpl.
  destruct (Py.isspace_char c) eqn:E; [exact IH|]. by eexists _, _.
Qed.

Lemma strip_has_text (s : string) :
  Py.all_space s = false → Py.truthy (Py.strip s) = true.
Proof.
  intros Hs. unfold Py.strip.
  destruct (lstrip_has_text s Hs) as (c & r & -> & Hc). simpl.
  destruct (Py.rstrip r); [by rewrite Hc|done].
Qed.

Lemma has_text_head (c : ascii) (r : string) :
  Py.isspace_char c = false → Py.all_space (String c r) = false.
Proof. intros H. simpl. by rewrite H. Qed.

Lemma special_text_all_space (env : Env) (file : option string) :
  Py.truthy (special_text env file) = true →
  Py.all_space (special_text env file) = false.
Proof.
  destruct (special_text env file) as [|a r] eqn:E; [done|]. intros _.
  apply has_text_head. by destruct (special_text_stripped env file a r E).
Qed.

(** Some part of a run that is not empty holds a character that is not
    white space. *)
Lemma all_parts_has_text (env : Env) (root : Path) (sd : scope_dict) :
  all_parts env root sd ≠ [] →
  forallb Py.all_space (all_parts env root sd) = false.
Proof.
  unfold all_parts, opt_part.
  destruct (Py.truthy (special_text env (context_file sd))) eqn:Hc.
  { intros _. simpl. by rewrite special_text_all_space. }
  simpl. unfold code_parts, code_sep. simpl.
  destruct (tracked env root (default [] (files sd))) as [|t ts]; [|done].
  simpl. unfold prompt_parts, prompt_sep. simpl.
  destruct (Py.truthy (special_text env (prompt_file sd))) eqn:Hp; [|done].
  intros _. simpl. by rewrite special_text_all_space.
Qed.

Lemma final_text_not_empty (env : Env) (root : Path) (sd : scope_dict) :
  all_parts env root sd ≠ [] → final_text (all_parts env root sd) ≠ "".
Proof.
  intros Hne. unfold final_text.
  rewrite strip_has_text.
  - by destruct (Py.strip _).
  - rewrite all_space_join. by apply all_parts_has_text.
Qed.

Lemma all_parts_nil_iff (env : Env) (root : Path) (sd : scope_dict) :
  missing env root (default [] (files sd)) = [] →
  all_parts env root sd = []
  ↔ default [] (files sd) = []
    ∧ special_text env (context_file sd) = ""
    ∧ special_text env (prompt_file sd) = "".
Proof.
  intros Hm. split.
  - intros Hnil. destruct (all_parts_nil env root sd Hm Hnil) as (Hc & Hf & Hp).
    split; [done|]. split.
    + by destruct (special_text env (context_file sd)).
    + by destruct (special_text env (prompt_file sd)).
  - intros (Hf & Hc & Hp). unfold all_parts. by rewrite Hf, Hc, Hp.
Qed.

Lemma special_msgs_warnings (env : Env) (root : Path) (name : string)
    (u : string → msg) (m : string → string → msg) (file : option string)
    (x : msg) :
  x ∈ special_msgs env root name u m file → (∃ dp, x = u dp) ∨ (∃ dp, x = m dp name).
Proof.
  unfold special_msgs. intros Hin.
  repeat case_match;
    (by apply elem_of_nil in Hin)
    || (apply list_elem_of_singleton in Hin; subst x; eauto).
Qed.

Lemma step_msgs_warnings (env : Env) (root : Path) (name : string)
    (sd : scope_dict) (x : msg) :
  x ∈ step_msgs env root name sd →
  (∃ dp, x = WarnContextUnreadable dp) ∨ (∃ dp, x = WarnContextMissing dp name)
  ∨ (∃ dp, x = WarnFileUnreadable dp) ∨ x = WarnNoFilesRead name
  ∨ (∃ dp, x = WarnPromptUnreadable dp) ∨ (∃ dp, x = WarnPromptMissing dp name).
Proof.
  unfold step_msgs. rewrite !elem_of_app. intros [H|[H|H]].
  - apply special_msgs_warnings in H as [?|?]; tauto.
  - unfold code_msgs in H. destruct (tracked _ _ _); [by apply elem_of_nil in H|].
    apply elem_of_app in H as [H|H].
    + apply list_elem_of_fmap in H as (dp & -> & _). eauto 6.
    + destruct (_ && _); [|by apply elem_of_nil in H].
      apply list_elem_of_singleton in H. tauto.
  - apply special_msgs_warnings in H as [?|?]; tauto.
Qed.

(** X17.  A text that the assembler returns is empty exactly when the
    scope tracks no file and neither special file yields text; a text
    that is not empty ends with one line feed that follows a character
    that is not white space.  The number of files returned is the number
    of fenced blocks, at most the number of tracked files; the length
    returned is the length of the text.  The run never prints the
    "effectively empty" note. *)
Theorem X17_empty_text_only_for_an_empty_scope (env : Env) (root : Path)
    (verb name : string) (sd : scope_dict) (out : list msg) (text : string)
    (n len : nat) (nm : string) :
  assemble_scope env sd root verb name = (out, Return (text, n, len, nm)) →
  (text = ""
   ↔ default [] (files sd) = []
     ∧ special_text env (context_file sd) = ""
     ∧ special_text env (prompt_file sd) = "")
  ∧ (text ≠ "" →
     ∃ s c, text = s +:+ Py.nl ∧ last_char s = Some c ∧ Py.isspace_char c = false)
  ∧ (n ≤ length (default [] (files sd)))%nat
  ∧ len = String.length text
  ∧ nm = name
  ∧ NoteEffectivelyEmpty name verb ∉ out.
Proof.
  intros Hrun.
  destruct (decide (missing env root (default [] (files sd)) = [])) as [Hm|Hm];
    [|by rewrite assemble_scope_missing in Hrun].
  pose proof Hrun as Hrun'.
  rewrite assemble_scope_present in Hrun by done.
  pose proof (all_parts_nil_iff env root sd Hm) as Hnil.
  pose proof (missing_tracked_length env root (default [] (files sd))) as Hlen.
  rewrite Hm in Hlen. simpl in Hlen.
  case_bool_decide as Hparts.
  - injection Hrun as <- <- <- <- <-.
    split; [|split; [done|split; [|split; [done|split; [done|]]]]].
    + split; [intros _; by apply Hnil|done].
    + lia.
    + intros Hin. apply elem_of_app in Hin as [Hin|Hin].
      * apply step_msgs_warnings in Hin.
        destruct Hin as [[? ?]|[[? ?]|[[? ?]|[?|[[? ?]|[? ?]]]]]]; done.
      * by apply list_elem_of_singleton in Hin.
  - injection Hrun as <- <- <- <- <-.
    split; [|split; [|split; [|split; [done|split; [done|]]]]].
    + split; [|by intros ?%Hnil].
      intros Htext. by apply final_text_not_empty in Hparts.
    + intros _. destruct (final_text_shape (all_parts env root sd)) as [He|Hs]; [|done].
      by apply final_text_not_empty in Hparts.
    + rewrite blocks_of_length, <- Hlen.
      etrans; [apply length_filter|]. by rewrite length_fmap.
    + intros Hin. apply step_msgs_warnings in Hin.
      destruct Hin as [[? ?]|[[? ?]|[[? ?]|[?|[[? ?]|[? ?]]]]]]; done.
Qed.

Lemma X17_empty_text_only_for_an_empty_scope_witness :
  c1_text ≠ ""
  ∧ ∃ s c, c1_text = s +:+ Py.nl ∧ last_char s = Some c
           ∧ Py.isspace_char c = false.
Proof.
  assert (Hrun : assemble_scope c1_env c1_scope demo_root "copy" "default"
                 = ([], Return (c1_text, 1, String.length c1_text, "default")))
    by (vm_compute; reflexivity).
  destruct (X17_empty_text_only_for_an_empty_scope c1_env demo_root "copy" "default"
              c1_scope [] c1_text 1 (String.length c1_text) "default" Hrun)
    as (_ & Hshape & _).
  assert (Hne : c1_text ≠ "") by (vm_compute; discriminate).
  split; [exact Hne|]. exact (Hshape Hne).
Defined.

(** ** Delivering the text *)

Lemma last_char_all_space (s : string) (c : ascii) :
  last_char s = Some c → Py.isspace_char c = false → Py.all_space s = false.
Proof.
  intros Hl Hc. induction s as [|a s IH]; [done|]. simpl in *.
  destruct s as [|b s].
  - injection Hl as ->. by rewrite Hc.
  - rewrite (IH Hl). apply andb_false_r.
Qed.

(** A text that is returned is empty or holds a character that is not
    white space. *)
Lemma formatted_text_not_blank (env : Env) (requested : option string)
    (cfg : config) (root : Path) (verb : string) (out : list msg)
    (content : string) (n len : nat) (nm : string) :
  _get_formatted_scope_content env requested cfg root verb
  = (out, Return (content, n, len, nm)) →
  content = "" ∨ Py.truthy (Py.strip content) = true.
Proof.
  unfold _get_formatted_scope_content.
  destruct (py_or _ _) as [name|]; [|by rewrite print_then].
  destruct (negb (Py.truthy name)); [by rewrite print_then|].
  destruct (get_scope_data cfg name) as [sd|]; [|by rewrite print_then].
  intros Hrun.
  destruct (decide (missing env root (default [] (files sd)) = [])) as [Hm|Hm];
    [|by rewrite assemble_scope_missing in Hrun].
  rewrite assemble_scope_present in Hrun by done.
  case_bool_decide; injection Hrun as _ <- _ _ _; [by left|].
  destruct (final_text_shape (all_parts env root sd)) as [->|(s & c & -> & Hl & Hc)];
    [by left|].
  right. apply strip_has_text. rewrite all_space_app.
  by rewrite (last_char_all_space s c).
Qed.

Lemma formatted_text_truthy (env : Env) (requested : option string)
    (cfg : config) (root : Path) (verb : string) (out : list msg)
    (content : string) (n len : nat) (nm : string) :
  _get_formatted_scope_content env requested cfg root verb
  = (out, Return (content, n, len, nm)) →
  Py.truthy (Py.strip content) = negb (bool_decide (content = "")).
Proof.
  intros [->|Ht]%formatted_text_not_blank; [done|].
  rewrite Ht, bool_decide_false; [done|]. by intros ->.
Qed.



(** X19.  [klyp copy], on a document whose pointer is a string when it is
    stored, hands the clipboard the text that the assembler returns, as
    it is (the empty text for an empty scope, so that the clipboard is
    cleared), and reports the scope as copied exactly when the text is
    not empty.  When the assembler ends the run nothing is copied and the
    exit code is the assembler's; when the clipboard refuses, the run
    ends with exit code 1. *)
Theorem X19_copy_hands_over_the_assembled_text (env : Env) (root : Path)
    (data : config) (clipboard_ok : bool) (requested : option string) :
  pointer_is_text (load_config (Some data)) →
  match _get_formatted_scope_content env requested (load_config (Some data))
          root "copy" with
  | (out, SysExit c) =>
      handle_copy_cmd env root (Some data) clipboard_ok requested
      = (lift_msgs out, [], SysExit c)
  | (out, Return (content, n, len, name)) =>
      if clipboard_ok then
        handle_copy_cmd env root (Some data) clipboard_ok requested
        = (lift_msgs out
           ++ (if bool_decide (content = "") then [] else [OkCopied name n len]),
           [content], Return tt)
      else
        ∃ msgs, handle_copy_cmd env root (Some data) clipboard_ok requested
                = (msgs, [], SysExit 1)
  end.
Proof.
  intros _.
  unfold handle_copy_cmd. rewrite check_config_initialized_Some. cbn [negb].
  destruct (_get_formatted_scope_content _ _ _ _ _)
    as [out [[[[content n] len] name]|c]] eqn:Hrun; [|done].
  rewrite (formatted_text_truthy _ _ _ _ _ _ _ _ _ _ Hrun).
  case_bool_decide as Hc; cbn [negb andb].
  - subst content. destruct (_ && _), clipboard_ok; try by eexists.
    by rewrite app_nil_r.
  - destruct clipboard_ok; [done|by eexists].
Qed.

Lemma X19_copy_hands_over_the_assembled_text_witness :
  handle_copy_cmd c9_env demo_root (Some (<["default" := VScope c9_scope]> ∅)) true
    (Some "default")
  = ([Core (NoteCompletelyEmpty "default" "copy")], [""], Return tt).
Proof.
  pose proof (X19_copy_hands_over_the_assembled_text c9_env demo_root
                (<["default" := VScope c9_scope]> ∅) true (Some "default")) as H.
  assert (Hrun : _get_formatted_scope_content c9_env (Some "default")
                   (load_config (Some (<["default" := VScope c9_scope]> ∅)))
                   demo_root "copy"
                 = ([NoteCompletelyEmpty "default" "copy"],
                    Return ("", 0, 0, "default")))
    by (vm_compute; reflexivity).
  rewrite Hrun in H. apply H.
  intros d Hd. vm_compute in Hd. discriminate Hd.
Defined.

(** ** Status and assembly *)






(** ** Display paths *)


